(** * Physical plan builder of the SQL optimizer (plan/physical_plan_builder.go)

    A shallow embedding of the cost-based conversion of logical plans into
    physical plans, together with the properties stated about it.

    Conventions of the embedding.
    - [float64] is IEEE-754 binary64, taken from the executable
      specification of the Standard Library ([SpecFloat], precision 53,
      maximal exponent 1024, rounding to nearest even, no fused
      operations).
    - [uint64], [int64] and [int] are integers of [Z]; wrap-around is written
      out where the code can reach it.
    - A Go function returning [(v, err)] returns a pair whose second
      component is [option error]; a nil pointer is [None]; dereferencing
      it, or indexing a slice out of range, is the outcome [Panicked].
    - The per-node memo ([planMap]) is threaded explicitly as a store.
      Plan infos and plans are values: a method that changes its receiver
      returns the changed value, and the sharing of one plan info between
      a memo and a caller is not followed. *)

From Stdlib Require Import ZArith List String Bool Lia.
From Stdlib Require Import Floats.SpecFloat.
Import ListNotations.
Set Warnings "-register-all".
Open Scope string_scope.
Open Scope list_scope.
Open Scope Z_scope.

(** ** Machine integers *)

Definition wrap_uint64 (z : Z) : Z := z mod 2 ^ 64.
Definition wrap_int64 (z : Z) : Z := (z + 2 ^ 63) mod 2 ^ 64 - 2 ^ 63.

(** ** binary64 *)

Module Float64.

Definition prec : Z := 53.
Definition emax : Z := 1024.
Definition float64 : Type := spec_float.

Definition add : float64 -> float64 -> float64 := SFadd prec emax.
Definition mul : float64 -> float64 -> float64 := SFmul prec emax.
Definition div : float64 -> float64 -> float64 := SFdiv prec emax.
Definition ltb : float64 -> float64 -> bool := SFltb.

(** [float64(z)] for an integer [z]: the nearest binary64. *)
Definition of_Z (z : Z) : float64 := binary_normalize prec emax z 0 false.

Definition zero : float64 := S754_zero false.

(** [math.MaxFloat64]. *)
Definition MaxFloat64 : float64 := SFmax_float prec emax.

(** The integer part of a finite float, rounding toward zero. *)
Definition trunc (f : float64) : option Z :=
  match f with
  | S754_zero _ => Some 0
  | S754_finite s m e =>
      let a := if 0 <=? e then Z.shiftl (Zpos m) e else Z.shiftr (Zpos m) (- e) in
      Some (if s then - a else a)
  | _ => None
  end.

(** [uint64(f)].  Go truncates toward zero.  When the integer part does
    not fit, the language leaves the result to the implementation; the
    embedding follows the amd64 compiler, which converts a value below
    [2^63] as a signed integer and a value from [2^63] on as [2^63] plus
    the signed conversion of the rest, the signed conversion of a value
    that does not fit int64, of an infinity or of a NaN being [-2^63].
    So an integer part in [[-2^63, 0)] wraps around [2^64], and anything
    else that does not fit gives [2^63]. *)
Definition to_uint64 (f : float64) : Z :=
  match trunc f with
  | Some z => if (- 2 ^ 63 <=? z) && (z <? 2 ^ 64) then wrap_uint64 z else 2 ^ 63
  | None => 2 ^ 63
  end.

End Float64.
Import Float64.

(** The weighting constants of the cost model. *)
Definition netWorkFactor : float64 := div (of_Z 15) (of_Z 10).
Definition memoryFactor : float64 := of_Z 5.
Definition selectionFactor : float64 := div (of_Z 8) (of_Z 10).
Definition distinctFactor : float64 := div (of_Z 7) (of_Z 10).
Definition cpuFactor : float64 := div (of_Z 9) (of_Z 10).
Definition aggFactor : float64 := div (of_Z 1) (of_Z 10).
Definition joinFactor : float64 := div (of_Z 3) (of_Z 10).

Definition JoinConcurrency : Z := 5.

(** ** Outcomes of Go code *)

Definition error : Type := string.

(** [types.ErrTruncated]; [terror.ErrorEqual] is equality of errors. *)
Definition ErrTruncated : error := "Data Truncated".

Inductive outcome (A : Type) : Type :=
| Returned (a : A)
| Panicked.
Arguments Returned {A} a.
Arguments Panicked {A}.

(** [s[i]] on a slice: out of range panics. *)
Definition index {A : Type} (l : list A) (i : Z) : outcome A :=
  if i <? 0 then Panicked
  else match nth_error l (Z.to_nat i) with
       | Some a => Returned a
       | None => Panicked
       end.

Definition len {A : Type} (l : list A) : Z := Z.of_nat (List.length l).

(** ** Datums and statistics (packages [types] and [statistics]) *)

Inductive Kind : Type :=
| KindNull | KindInt64 | KindString | KindMinNotNull | KindMaxValue.

Record Datum : Type := { k : Kind; i64 : Z; str : string }.

Definition Kind_eqb (a b : Kind) : bool :=
  match a, b with
  | KindNull, KindNull | KindInt64, KindInt64 | KindString, KindString
  | KindMinNotNull, KindMinNotNull | KindMaxValue, KindMaxValue => true
  | _, _ => false
  end.

(** [types.Datum{}]. *)
Definition nullDatum : Datum := {| k := KindNull; i64 := 0; str := "" |}.
Definition NewDatum (v : Z) : Datum := {| k := KindInt64; i64 := v; str := "" |}.

(** A column histogram, by its four estimators. *)
Record StatColumn : Type := {
  EqualRowCount : Datum -> Z * option error;
  LessRowCount : Datum -> Z * option error;
  GreaterRowCount : Datum -> Z * option error;
  BetweenRowCount : Datum -> Datum -> Z * option error
}.

Record StatTable : Type := { TCount : Z; TColumns : list StatColumn }.

Record IndexRange : Type := { LowVal : list Datum; HighVal : list Datum }.

(** A column of an index ([model.IndexColumn]): its lower-case name, its
    offset in the table and the indexed prefix length. *)
Record IndexColumn : Type := { icName : string; icOffset : Z; icLength : Z }.

(** [types.UnspecifiedLength]. *)
Definition UnspecifiedLength : Z := -1.

Record IndexInfo : Type := { IdxName : string; IdxColumns : list IndexColumn }.

(** [[]TableRange]: a range of handles. *)
Record TableRange : Type := { trLowVal : Z; trHighVal : Z }.

Definition MinInt64 : Z := - 2 ^ 63.
Definition MaxInt64 : Z := 2 ^ 63 - 1.

(** The statement context, by what datum comparison under it returns
    ([Datum.CompareDatum], package [types]). *)
Record StatementContext : Type := {
  CompareDatum : Datum -> Datum -> Z * option error
}.

(** ** Cardinality of a list of index ranges *)

(** What one iteration of the loop over the ranges does: it leaves the
    function with a result, or contributes a count to the sum. *)
Inductive rangeStep : Type :=
| StepReturn (r : Z * option error)
| StepCount (c : float64).

(** The tail of the loop body, from the error check on. *)
Definition scaleRowCount (table : StatTable) (i : Z) (rowCount : Z)
    (err : option error) : outcome rangeStep :=
  match err with
  | Some e => Returned (StepReturn (0, Some e))
  | None =>
      let count := of_Z (TCount table) in
      let count := mul (div count (of_Z (TCount table))) (of_Z rowCount) in
      Returned (StepCount
        (Nat.iter (Z.to_nat i) (fun c => div c (of_Z 100)) count))
  end.

Definition withColumn (table : StatTable) (offset : Z)
    (f : StatColumn -> outcome rangeStep) : outcome rangeStep :=
  match index (TColumns table) offset with
  | Returned col => f col
  | Panicked => Panicked
  end.

Definition rangeRowCount (sc : StatementContext) (table : StatTable)
    (indexInfo : IndexInfo) (indexRange : IndexRange) : outcome rangeStep :=
  let i := len (LowVal indexRange) - 1 in
  match index (LowVal indexRange) i with
  | Panicked => Panicked
  | Returned l =>
  match index (HighVal indexRange) i with
  | Panicked => Panicked
  | Returned r =>
  match index (IdxColumns indexInfo) i with
  | Panicked => Panicked
  | Returned indexColumn =>
      let offset := icOffset indexColumn in
      if Kind_eqb (k l) KindNull && Kind_eqb (k r) KindMaxValue then
        Returned (StepReturn (wrap_uint64 (TCount table), None))
      else if Kind_eqb (k l) KindMinNotNull then
        withColumn table offset (fun col =>
          let '(rowCount, err) := EqualRowCount col nullDatum in
          if Kind_eqb (k r) KindMaxValue then
            scaleRowCount table i (wrap_int64 (TCount table - rowCount)) err
          else
            match err with
            | None =>
                let '(lessCount, err1) := LessRowCount col r in
                scaleRowCount table i (wrap_int64 (lessCount - rowCount)) err1
            | Some _ => scaleRowCount table i rowCount err
            end)
      else if Kind_eqb (k r) KindMaxValue then
        withColumn table offset (fun col =>
          let '(rowCount, err) := GreaterRowCount col l in
          scaleRowCount table i rowCount err)
      else
        let '(compare, err1) := CompareDatum sc l r in
        match err1 with
        | Some e => Returned (StepReturn (0, Some e))
        | None =>
            withColumn table offset (fun col =>
              let '(rowCount, err) :=
                if compare =? 0 then EqualRowCount col l
                else BetweenRowCount col l r in
              scaleRowCount table i rowCount err)
        end
  end end end.

(** The loop: [totalCount] accumulates the per-range counts. *)
Fixpoint sumRanges (sc : StatementContext) (table : StatTable)
    (indexInfo : IndexInfo) (indexRanges : list IndexRange)
    (totalCount : float64) : outcome rangeStep :=
  match indexRanges with
  | [] => Returned (StepCount totalCount)
  | indexRange :: rest =>
      match rangeRowCount sc table indexInfo indexRange with
      | Panicked => Panicked
      | Returned (StepReturn r) => Returned (StepReturn r)
      | Returned (StepCount count) =>
          sumRanges sc table indexInfo rest (add totalCount count)
      end
  end.

Definition getRowCountByIndexRanges (sc : StatementContext)
    (table : StatTable) (indexRanges : list IndexRange)
    (indexInfo : IndexInfo) : outcome (Z * option error) :=
  match sumRanges sc table indexInfo indexRanges (of_Z 0) with
  | Panicked => Panicked
  | Returned (StepReturn r) => Returned r
  | Returned (StepCount totalCount) =>
      let totalCount :=
        if to_uint64 totalCount <? 1000 then of_Z 1000 else totalCount in
      let totalCount :=
        if ltb (of_Z (TCount table)) totalCount
        then div (of_Z (TCount table)) (of_Z 3)
        else totalCount in
      Returned (to_uint64 totalCount, None)
  end.

(** A range that the full-table short-circuit recognises: its last bound
    dimension runs from NULL to the maximal value. *)
Definition coversWholeTable (indexRange : IndexRange) : bool :=
  let i := len (LowVal indexRange) - 1 in
  match index (LowVal indexRange) i, index (HighVal indexRange) i with
  | Returned l, Returned r =>
      Kind_eqb (k l) KindNull && Kind_eqb (k r) KindMaxValue
  | _, _ => false
  end.

(** The same test on the leading dimension of the range. *)
Definition leadingCoversWholeTable (indexRange : IndexRange) : bool :=
  match index (LowVal indexRange) 0, index (HighVal indexRange) 0 with
  | Returned l, Returned r =>
      Kind_eqb (k l) KindNull && Kind_eqb (k r) KindMaxValue
  | _, _ => false
  end.

(** ** Cardinality of a list of handle ranges *)

Definition tableRangeRowCount (statsTbl : StatTable) (offset : Z) (rg : TableRange)
    : outcome (Z * option error) :=
  if (trLowVal rg =? MinInt64) && (trHighVal rg =? MaxInt64) then
    Returned (TCount statsTbl, None)
  else
    match index (TColumns statsTbl) offset with
    | Panicked => Panicked
    | Returned c =>
        Returned
          (if trLowVal rg =? MinInt64 then LessRowCount c (NewDatum (trHighVal rg))
           else if trHighVal rg =? MaxInt64 then GreaterRowCount c (NewDatum (trLowVal rg))
           else if trLowVal rg =? trHighVal rg then EqualRowCount c (NewDatum (trLowVal rg))
           else BetweenRowCount c (NewDatum (trLowVal rg)) (NewDatum (trHighVal rg)))
    end.

Fixpoint sumTableRanges (statsTbl : StatTable) (offset : Z)
    (ranges : list TableRange) (rowCount : Z) : outcome (Z * option error) :=
  match ranges with
  | [] => Returned (rowCount, None)
  | rg :: rest =>
      match tableRangeRowCount statsTbl offset rg with
      | Panicked => Panicked
      | Returned (_, Some e) => Returned (0, Some e)
      | Returned (cnt, None) =>
          sumTableRanges statsTbl offset rest (wrap_uint64 (rowCount + wrap_uint64 cnt))
      end
  end.

Definition getRowCountByTableRange (sc : StatementContext) (statsTbl : StatTable)
    (ranges : list TableRange) (offset : Z) : outcome (Z * option error) :=
  match sumTableRanges statsTbl offset ranges 0 with
  | Returned (rowCount, None) =>
      Returned (if wrap_uint64 (TCount statsTbl) <? rowCount
                then wrap_uint64 (TCount statsTbl) else rowCount, None)
  | r => r
  end.

(** ** Expressions and schemas (package [expression]) *)

Record Column : Type := { FromID : string; Position : Z }.

Definition Column_eqb (a b : Column) : bool :=
  String.eqb (FromID a) (FromID b) && (Position a =? Position b).

Definition Schema : Type := list Column.

Fixpoint GetIndexFrom (s : Schema) (col : Column) (i : Z) : Z :=
  match s with
  | [] => -1
  | c :: s' => if Column_eqb c col then i else GetIndexFrom s' col (i + 1)
  end.

(** [Schema.GetIndex]: the position of the column, or [-1]. *)
Definition GetIndex (s : Schema) (col : Column) : Z := GetIndexFrom s col 0.

Inductive Expression : Type :=
| ExprColumn (c : Column)
| ExprScalarFunction (FuncName : string) (Args : list Expression)
| ExprConstant (Value : Datum).

Inductive AggFunctionMode : Type := CompleteMode | FinalMode.

(** An aggregate function, by what [GetMode] and [IsDistinct] return. *)
Record AggregationFunction : Type := {
  AggName : string;
  AggArgs : list Expression;
  GetMode : AggFunctionMode;
  IsDistinct : bool
}.

(** ** Required properties and plan infos *)

Record Limit : Type := { Offset : Z; Count : Z }.

Record columnProp : Type := { col : Column; desc : bool }.

Record requiredProperty : Type := {
  props : list columnProp;
  sortKeyLen : Z;
  limit : option Limit
}.

(** [&requiredProperty{}]. *)
Definition emptyProperty : requiredProperty :=
  {| props := []; sortKeyLen := 0; limit := None |}.

Record ByItems : Type := { Expr : Expression; Desc : bool }.

Inductive JoinType : Type :=
| InnerJoin | LeftOuterJoin | RightOuterJoin | SemiJoin | SemiJoinWithAux.

Definition JoinType_eqb (a b : JoinType) : bool :=
  match a, b with
  | InnerJoin, InnerJoin | LeftOuterJoin, LeftOuterJoin
  | RightOuterJoin, RightOuterJoin | SemiJoin, SemiJoin
  | SemiJoinWithAux, SemiJoinWithAux => true
  | _, _ => false
  end.

Inductive AggregationType : Type := StreamedAgg | FinalAgg | CompleteAgg.

Record HashJoinParams : Type := {
  hjEqualConditions : list Expression;
  hjLeftConditions : list Expression;
  hjRightConditions : list Expression;
  hjOtherConditions : list Expression;
  hjSmallTable : Z;
  hjConcurrency : Z;
  hjDefaultValues : list Datum;
  hjJoinType : JoinType
}.

Record SemiJoinParams : Type := {
  sjWithAux : bool;
  sjEqualConditions : list Expression;
  sjLeftConditions : list Expression;
  sjRightConditions : list Expression;
  sjOtherConditions : list Expression;
  sjAnti : bool
}.

Record AggParams : Type := {
  paAggType : AggregationType;
  paAggFuncs : list AggregationFunction;
  paGroupByItems : list Expression;
  paHasGby : bool
}.

(** Tables and their columns (package [model]).  [ciPriKey] is
    [mysql.HasPriKeyFlag] of the flag of the column. *)
Record ColumnInfo : Type := { ciName : string; ciOffset : Z; ciPriKey : bool }.

Record TableInfo : Type := {
  TableName : string;
  TableColumns : list ColumnInfo;
  TableIndices : list IndexInfo;
  PKIsHandle : bool
}.

(** The storage client and the transaction (package [kv]). *)
Inductive RequestType : Type := ReqTypeSelect | ReqTypeIndex.
Record Client : Type := { SupportRequestType : RequestType -> Z -> bool }.
Record Txn : Type := { IsReadOnly : bool }.

(** A serialized condition ([tipb.Expr]). *)
Definition PBExpr : Type := string.

(** [physicalTableSource]: what a scan hands to the storage layer. *)
Record TableSource : Type := {
  srcClient : option Client;
  srcReadOnly : bool;
  srcAccessCondition : list Expression;
  srcConditionPBExpr : option PBExpr;
  srcConditions : list Expression;
  srcLimitCount : option Z;
  srcSortItems : list ByItems;
  srcAggregated : bool
}.

Record TableScanParams : Type := {
  tsTable : TableInfo;
  tsColumns : list ColumnInfo;
  tsTableAsName : string;
  tsDBName : string;
  tsSource : TableSource;
  tsRanges : list TableRange;
  tsPkCol : option Column
}.

Record IndexScanParams : Type := {
  isIndex : IndexInfo;
  isTable : TableInfo;
  isColumns : list ColumnInfo;
  isTableAsName : string;
  isOutOfOrder : bool;
  isDBName : string;
  isSource : TableSource;
  isRanges : list IndexRange;
  isDoubleRead : bool
}.

(** The operator of a physical plan node with its own parameters. *)
Inductive PhysOp : Type :=
| PhysicalTableScan (tsp : TableScanParams)
| PhysicalIndexScan (isp : IndexScanParams)
| PhysicalDummyScan
| PhysicalHashJoin (hj : HashJoinParams)
| PhysicalHashSemiJoin (sj : SemiJoinParams)
| PhysicalAggregation (pa : AggParams)
| PhysicalApply (OuterSchema : list Column) (Checker : option string)
| Cache
| OpSelection (conds : list Expression) (onTbl : bool)
| OpProjection (exprs : list Expression)
| OpSort (items : list ByItems) (execLimit : option Limit)
| OpLimit (l : Limit)
| OpDistinct
| OpUnion.

(** A physical plan node: its type tag, operator, correlation flag, schema
    and children.  A child can be the nil plan. *)
Inductive PhysicalPlan : Type :=
| Plan (ptp : string) (op : PhysOp) (pcorrelated : bool) (pschema : Schema)
       (pchildren : list (option PhysicalPlan)).

Definition PlanOp (p : PhysicalPlan) : PhysOp := let '(Plan _ o _ _ _) := p in o.
Definition IsCorrelated (p : PhysicalPlan) : bool := let '(Plan _ _ c _ _) := p in c.
Definition PGetSchema (p : PhysicalPlan) : Schema := let '(Plan _ _ _ s _) := p in s.
Definition GetChildren (p : PhysicalPlan) : list (option PhysicalPlan) :=
  let '(Plan _ _ _ _ cs) := p in cs.
Definition SetChildren (p : PhysicalPlan) (cs : list (option PhysicalPlan)) : PhysicalPlan :=
  let '(Plan t o c s _) := p in Plan t o c s cs.
Definition SetSchema (p : PhysicalPlan) (s : Schema) : PhysicalPlan :=
  let '(Plan t o c _ cs) := p in Plan t o c s cs.
Definition SetCorrelated (p : PhysicalPlan) (c : bool) : PhysicalPlan :=
  let '(Plan t o _ s cs) := p in Plan t o c s cs.

Record physicalPlanInfo : Type := {
  p : option PhysicalPlan;
  cost : float64;
  count : Z
}.

(** [&physicalPlanInfo{cost: math.MaxFloat64}], the plan info of a
    property that cannot be satisfied. *)
Definition unsatisfiable : physicalPlanInfo :=
  {| p := None; cost := MaxFloat64; count := 0 |}.

(** The pair a conversion returns. *)
Definition planResult : Type := option physicalPlanInfo * option error.

(** ** Logical plan nodes *)

Record basePlan : Type := {
  tp : string;
  id : string;
  schema : Schema;
  correlated : bool
}.

Record Selection : Type := {
  selBase : basePlan;
  Conditions : list Expression;
  onTable : bool
}.

(** The session context of a node, by what the conversion reads from it. *)
Record Context : Type := {
  GetClient : option Client;
  StmtCtx : StatementContext;
  GetTxn : option Txn * option error
}.

(** A parent of a node, by what the conversion of a DataSource asks of
    it: whether it is a [*Selection]. *)
Inductive Parent : Type :=
| ParentSelection (sel : Selection)
| ParentOther.

(** A base table, with the parents of its base plan. *)
Record DataSource : Type := {
  dsBase : basePlan;
  dsCtx : Context;
  dsTable : TableInfo;
  dsColumns : list ColumnInfo;
  dsTableAsName : string;
  dsDBName : string;
  dsStatisticTable : StatTable;
  dsParents : list Parent
}.

(** [p.GetParentByIndex(0)] asserted to be a [*Selection]: the first
    parent when it is a Selection.  The accessor (declared with the
    plans) checks the index and returns nil for a node without parents,
    so that the assertion fails without a panic. *)
Definition dsParent (n : DataSource) : option Selection :=
  match dsParents n with
  | ParentSelection sel :: _ => Some sel
  | _ => None
  end.

Record Projection : Type := { projBase : basePlan; Exprs : list Expression }.

Record Join : Type := {
  joinBase : basePlan;
  JoinTp : JoinType;
  EqualConditions : list Expression;
  LeftConditions : list Expression;
  RightConditions : list Expression;
  OtherConditions : list Expression;
  anti : bool;
  DefaultValues : list Datum
}.

Record Aggregation : Type := {
  aggBase : basePlan;
  AggFuncs : list AggregationFunction;
  GroupByItems : list Expression;
  groupByCols : list Column
}.

Record Sort : Type := {
  sortBase : basePlan;
  SortByItems : list ByItems;
  ExecLimit : option Limit
}.

Record LimitNode : Type := { limBase : basePlan; limOffset : Z; limCount : Z }.

Record Union : Type := { unionBase : basePlan }.

Record Distinct : Type := { distBase : basePlan }.

Record Apply : Type := {
  applyBase : basePlan;
  corCols : list Column;
  applyChecker : option string
}.

(** ** The memo of a logical node *)

(** Structural equality of required properties: same columns, same
    directions, same [sortKeyLen], same limit. *)
Definition requiredProperty_eq_dec (a b : requiredProperty) : {a = b} + {a <> b}.
Proof.
  decide equality.
  - decide equality. decide equality; apply Z.eq_dec.
  - apply Z.eq_dec.
  - decide equality. decide equality.
    + apply bool_dec.
    + decide equality; [apply Z.eq_dec | apply string_dec].
Defined.

Definition planMap : Type := list (requiredProperty * physicalPlanInfo).

(** The memos of all logical nodes, by node id (each node of a plan has
    its own id). *)
Definition Store : Type := list (string * planMap).

Fixpoint lookupPlan (m : planMap) (prop : requiredProperty) : option physicalPlanInfo :=
  match m with
  | [] => None
  | (q, info) :: m' =>
      if requiredProperty_eq_dec q prop then Some info else lookupPlan m' prop
  end.

Fixpoint planMapOf (s : Store) (node : string) : planMap :=
  match s with
  | [] => []
  | (n, m) :: s' => if String.eqb n node then m else planMapOf s' node
  end.

Fixpoint setPlanMap (s : Store) (node : string) (m : planMap) : Store :=
  match s with
  | [] => [(node, m)]
  | (n, m0) :: s' =>
      if String.eqb n node then (n, m) :: s' else (n, m0) :: setPlanMap s' node m
  end.

(** ** Computations over the store *)

Definition M (A : Type) : Type := Store -> outcome (A * Store).

Definition ret {A : Type} (a : A) : M A := fun s => Returned (a, s).

Definition bind {A B : Type} (m : M A) (f : A -> M B) : M B :=
  fun s =>
    match m s with
    | Returned (a, s') => f a s'
    | Panicked => Panicked
    end.

Definition panic {A : Type} : M A := fun _ => Panicked.

(** Reading a field through a pointer that may be nil. *)
Definition deref {A : Type} (x : option A) : M A :=
  match x with
  | Some a => ret a
  | None => panic
  end.

Definition lift {A : Type} (o : outcome A) : M A :=
  match o with
  | Returned a => ret a
  | Panicked => panic
  end.

Declare Scope go_scope.
Delimit Scope go_scope with go.
Notation "x <- m ;; f" := (bind m (fun x => f))
  (at level 61, m at next level, right associativity) : go_scope.
Notation "' pat <- m ;; f" := (bind m (fun x => match x with pat => f end))
  (at level 61, pat pattern, m at next level, right associativity) : go_scope.
Open Scope go_scope.

(** The store after the node has recorded [info] under [prop]. *)
Definition memoize (s : Store) (node : basePlan) (prop : requiredProperty)
    (info : physicalPlanInfo) : Store :=
  setPlanMap s (id node) ((prop, info) :: planMapOf s (id node)).

(** What the memo of the node holds under [prop]. *)
Definition memoized (s : Store) (node : basePlan) (prop : requiredProperty)
    : option physicalPlanInfo :=
  lookupPlan (planMapOf s (id node)) prop.

(** Modelled from the spec: [getPlanInfo], the lookup in the memo of the
    node (the helper is declared with the base logical plan, outside this
    file).  The memo maps a required property to a plan info and two
    properties are the same key only when structurally equal. *)
Definition getPlanInfo (node : basePlan) (prop : requiredProperty) : M planResult :=
  fun s => Returned ((memoized s node prop, None), s).

(** Modelled from the spec: [storePlanInfo], the insertion in the memo of
    the node.  An entry is a plan info: storing through a nil pointer
    panics. *)
Definition storePlanInfo (node : basePlan) (prop : requiredProperty)
    (info : option physicalPlanInfo) : M (option error) :=
  match info with
  | None => panic
  | Some i => fun s => Returned (None, memoize s node prop i)
  end.

(** ** The logical plan interface *)

(** A logical plan as its parent sees it: its schema, whether it is a
    [*DataSource], and its conversion. *)
Record LogicalPlan : Type := {
  GetSchema : Schema;
  IsDataSource : bool;
  convert2PhysicalPlan : requiredProperty -> M planResult
}.

(** ** What the file takes from the rest of the package *)

Record Externals : Type := {
  (** [math.Log2]. *)
  Log2 : float64 -> float64;
  (** [expression.EvalBool] on a constant, under the context of the node. *)
  EvalBool : Datum -> bool * option error;
  (** [availableIndices]: the usable indices and whether a table scan is
      a candidate. *)
  availableIndices : TableInfo -> list IndexInfo * bool;
  (** [infoschema.IsMemoryDB]. *)
  IsMemoryDB : string -> bool;
  (** The splitting of the conditions of a filter into access conditions
      and the rest, and their serialization for the storage layer
      (pushed expression, pushed conditions, remaining conditions). *)
  detachTableScanConditions :
    list Expression -> TableInfo -> list Expression * list Expression;
  detachIndexScanConditions :
    list Expression -> IndexScanParams -> list Expression * list Expression;
  expressionsToPB :
    StatementContext -> list Expression -> Client ->
    option PBExpr * list Expression * list Expression;
  (** The range builders: the ranges they leave in the scan and their
      error; the ranges of a whole index. *)
  buildTableRange : TableScanParams -> list TableRange * option error;
  buildIndexRange : StatementContext -> IndexScanParams -> list IndexRange * option error;
  fullIndexRanges : StatementContext -> list IndexRange;
  (** [PhysicalPlan.matchProperty] of the receiver. *)
  matchProperty : PhysicalPlan -> requiredProperty -> list physicalPlanInfo -> physicalPlanInfo;
  (** Whether the plan implements [physicalDistSQLPlan], and the methods
      of that interface; each returns the receiver as it has changed it. *)
  isDistSQLPlan : PhysicalPlan -> bool;
  addLimit : PhysicalPlan -> Limit -> PhysicalPlan;
  addTopN : PhysicalPlan -> requiredProperty -> PhysicalPlan;
  addAggregation : PhysicalPlan -> PhysicalPlan -> Schema * PhysicalPlan;
  calculateCost : PhysicalPlan -> Z -> float64
}.

(** ** The conversion rules *)

Section Conversion.

Variable X : Externals.

Definition sortCost (cnt : Z) : float64 :=
  if cnt =? 0 then zero
  else add (mul (mul (of_Z cnt) (Log2 X (of_Z cnt))) cpuFactor)
           (mul memoryFactor (of_Z cnt)).

(** [addPlanToResponse]: a copy of [parent] over the plan of [info]. *)
Definition addPlanToResponse (parent : PhysicalPlan) (info : physicalPlanInfo)
    : physicalPlanInfo :=
  {| p := Some (SetChildren parent [p info]); cost := cost info; count := count info |}.

Definition byItemsOf (ps : list columnProp) : list ByItems :=
  map (fun c => {| Expr := ExprColumn (col c); Desc := desc c |}) ps.

(** [enforceProperty]: a sort or a limit above the plan of [info]. *)
Definition enforceProperty (prop : requiredProperty) (info : physicalPlanInfo)
    : physicalPlanInfo :=
  match p info with
  | None => info
  | Some ip =>
      let info :=
        if negb (len (props prop) =? 0) then
          let sort := Plan "" (OpSort (byItemsOf (props prop)) (limit prop))
                           (IsCorrelated ip) (PGetSchema ip) [] in
          let info := addPlanToResponse sort info in
          let cnt := match limit prop with
                     | Some l => wrap_uint64 (Offset l + Count l)
                     | None => count info
                     end in
          {| p := p info; cost := add (cost info) (sortCost cnt); count := count info |}
        else
          match limit prop with
          | Some l =>
              addPlanToResponse
                (Plan "" (OpLimit l) (IsCorrelated ip) (PGetSchema ip) []) info
          | None => info
          end in
      match limit prop with
      | Some l =>
          if Count l <? count info
          then {| p := p info; cost := cost info; count := Count l |}
          else info
      | None => info
      end
  end.

Definition removeLimit (prop : requiredProperty) : requiredProperty :=
  {| props := props prop; sortKeyLen := sortKeyLen prop; limit := None |}.

Definition convertLimitOffsetToCount (prop : requiredProperty) : requiredProperty :=
  {| props := props prop;
     sortKeyLen := sortKeyLen prop;
     limit := match limit prop with
              | Some l => Some {| Offset := 0; Count := wrap_uint64 (Offset l + Count l) |}
              | None => None
              end |}.

Definition limitProperty (l : option Limit) : requiredProperty :=
  {| props := []; sortKeyLen := 0; limit := l |}.

(** A logical node in its role of physical plan, before its children are
    set. *)
Definition asPhysical (b : basePlan) (o : PhysOp) : PhysicalPlan :=
  Plan (tp b) o (correlated b) (schema b) [].

Definition setCost (info : physicalPlanInfo) (c : float64) : physicalPlanInfo :=
  {| p := p info; cost := c; count := count info |}.
Definition setCount (info : physicalPlanInfo) (n : Z) : physicalPlanInfo :=
  {| p := p info; cost := cost info; count := n |}.
Definition setPlan (info : physicalPlanInfo) (q : option PhysicalPlan) : physicalPlanInfo :=
  {| p := q; cost := cost info; count := count info |}.

(** *** Limit *)

Definition Limit_convert2PhysicalPlan (n : LimitNode) (child : LogicalPlan)
    (prop : requiredProperty) : M planResult :=
  '(info, err) <- getPlanInfo (limBase n) prop ;;
  match err, info with
  | Some e, _ => ret (None, Some e)
  | None, Some i => ret (Some i, None)
  | None, None =>
      '(info, err) <- convert2PhysicalPlan child
          (limitProperty (Some {| Offset := limOffset n; Count := limCount n |})) ;;
      match err with
      | Some e => ret (None, Some e)
      | None =>
          info <- deref info ;;
          let info := enforceProperty prop info in
          _ <- storePlanInfo (limBase n) prop (Some info) ;;
          ret (Some info, None)
      end
  end.

(** *** Join *)

(** Whether every requested column is found in the schema. *)
Definition allInSchema (s : Schema) (ps : list columnProp) : bool :=
  forallb (fun c => negb (GetIndex s (col c) =? -1)) ps.

(** The join takes the correlation of its children. *)
Definition joinCorrelated (join : PhysicalPlan) (lInfo rInfo : physicalPlanInfo)
    : PhysicalPlan :=
  let join := match p lInfo with
              | Some lp => SetCorrelated join (IsCorrelated join || IsCorrelated lp)
              | None => join
              end in
  match p rInfo with
  | Some rp => SetCorrelated join (IsCorrelated join || IsCorrelated rp)
  | None => join
  end.

Definition Join_convert2PhysicalPlanSemi (n : Join) (lChild rChild : LogicalPlan)
    (prop : requiredProperty) : M planResult :=
  let allLeft := allInSchema (GetSchema lChild) (props prop) in
  let join :=
    Plan "HashSemiJoin"
      (PhysicalHashSemiJoin
         {| sjWithAux := JoinType_eqb SemiJoinWithAux (JoinTp n);
            sjEqualConditions := EqualConditions n;
            sjLeftConditions := LeftConditions n;
            sjRightConditions := RightConditions n;
            sjOtherConditions := OtherConditions n;
            sjAnti := anti n |})
      (correlated (joinBase n)) (schema (joinBase n)) [] in
  let lProp := if allLeft then prop else emptyProperty in
  let lProp := if JoinType_eqb (JoinTp n) SemiJoin then removeLimit lProp else lProp in
  '(lInfo, err) <- convert2PhysicalPlan lChild lProp ;;
  match err with
  | Some e => ret (None, Some e)
  | None =>
  '(rInfo, err) <- convert2PhysicalPlan rChild emptyProperty ;;
  match err with
  | Some e => ret (None, Some e)
  | None =>
      lInfo <- deref lInfo ;;
      rInfo <- deref rInfo ;;
      let join := joinCorrelated join lInfo rInfo in
      let resultInfo := matchProperty X join prop [lInfo; rInfo] in
      let resultInfo :=
        if JoinType_eqb (JoinTp n) SemiJoin
        then setCount resultInfo (to_uint64 (mul (of_Z (count lInfo)) selectionFactor))
        else setCount resultInfo (count lInfo) in
      let resultInfo :=
        if negb allLeft then enforceProperty prop resultInfo
        else if JoinType_eqb (JoinTp n) SemiJoin
             then enforceProperty (limitProperty (limit prop)) resultInfo
             else resultInfo in
      ret (Some resultInfo, None)
  end end.

Definition hashJoin (n : Join) (tag : string) (small : Z) (innerJoin : bool)
    (outer : JoinType) : PhysicalPlan :=
  Plan tag
    (PhysicalHashJoin
       {| hjEqualConditions := EqualConditions n;
          hjLeftConditions := LeftConditions n;
          hjRightConditions := RightConditions n;
          hjOtherConditions := OtherConditions n;
          hjSmallTable := small;
          hjConcurrency := JoinConcurrency;
          hjDefaultValues := DefaultValues n;
          hjJoinType := if innerJoin then InnerJoin else outer |})
    (correlated (joinBase n)) (schema (joinBase n)) [].

Definition Join_convert2PhysicalPlanLeft (n : Join) (lChild rChild : LogicalPlan)
    (prop : requiredProperty) (innerJoin : bool) : M planResult :=
  let allLeft := allInSchema (GetSchema lChild) (props prop) in
  let join := hashJoin n "HashLeftJoin" 1 innerJoin LeftOuterJoin in
  let lProp := if allLeft then prop else emptyProperty in
  '(lInfo, err) <- convert2PhysicalPlan lChild
      (if innerJoin then removeLimit lProp else convertLimitOffsetToCount lProp) ;;
  match err with
  | Some e => ret (None, Some e)
  | None =>
  '(rInfo, err) <- convert2PhysicalPlan rChild emptyProperty ;;
  match err with
  | Some e => ret (None, Some e)
  | None =>
      lInfo <- deref lInfo ;;
      rInfo <- deref rInfo ;;
      let join := joinCorrelated join lInfo rInfo in
      let resultInfo := matchProperty X join prop [lInfo; rInfo] in
      let resultInfo :=
        if negb allLeft then enforceProperty prop resultInfo
        else enforceProperty (limitProperty (limit prop)) resultInfo in
      ret (Some resultInfo, None)
  end end.

(** [replaceColsInPropBySchema]: each requested column is replaced by the
    column of the schema at its position; a column that is not found
    indexes the schema at [-1]. *)
Fixpoint replaceCols (ps : list columnProp) (s : Schema) : outcome (list columnProp) :=
  match ps with
  | [] => Returned []
  | c :: ps' =>
      match index s (GetIndex s (col c)) with
      | Panicked => Panicked
      | Returned sc =>
          match replaceCols ps' s with
          | Panicked => Panicked
          | Returned r => Returned ({| col := sc; desc := desc c |} :: r)
          end
      end
  end.

Definition replaceColsInPropBySchema (prop : requiredProperty) (s : Schema)
    : outcome requiredProperty :=
  match replaceCols (props prop) s with
  | Panicked => Panicked
  | Returned newProps =>
      Returned {| props := newProps; sortKeyLen := sortKeyLen prop; limit := limit prop |}
  end.

Definition Join_convert2PhysicalPlanRight (n : Join) (lChild rChild : LogicalPlan)
    (prop : requiredProperty) (innerJoin : bool) : M planResult :=
  let allRight := allInSchema (GetSchema rChild) (props prop) in
  let join := hashJoin n "HashRightJoin" 0 innerJoin RightOuterJoin in
  '(lInfo, err) <- convert2PhysicalPlan lChild emptyProperty ;;
  match err with
  | Some e => ret (None, Some e)
  | None =>
  rProp <- (if allRight then lift (replaceColsInPropBySchema prop (GetSchema rChild))
            else ret emptyProperty) ;;
  '(rInfo, err) <- convert2PhysicalPlan rChild
      (if innerJoin then removeLimit rProp else convertLimitOffsetToCount rProp) ;;
  match err with
  | Some e => ret (None, Some e)
  | None =>
      lInfo <- deref lInfo ;;
      rInfo <- deref rInfo ;;
      let join := joinCorrelated join lInfo rInfo in
      let resultInfo := matchProperty X join prop [lInfo; rInfo] in
      let resultInfo :=
        if negb allRight then enforceProperty prop resultInfo
        else enforceProperty (limitProperty (limit prop)) resultInfo in
      ret (Some resultInfo, None)
  end end.

Definition Join_convert2PhysicalPlan (n : Join) (lChild rChild : LogicalPlan)
    (prop : requiredProperty) : M planResult :=
  '(info, err) <- getPlanInfo (joinBase n) prop ;;
  match err, info with
  | Some e, _ => ret (None, Some e)
  | None, Some i => ret (Some i, None)
  | None, None =>
      '(info, err) <-
        match JoinTp n with
        | SemiJoin | SemiJoinWithAux => Join_convert2PhysicalPlanSemi n lChild rChild prop
        | LeftOuterJoin => Join_convert2PhysicalPlanLeft n lChild rChild prop false
        | RightOuterJoin => Join_convert2PhysicalPlanRight n lChild rChild prop false
        | InnerJoin =>
            '(lInfo, err) <- Join_convert2PhysicalPlanLeft n lChild rChild prop true ;;
            match err with
            | Some e => ret (None, Some e)
            | None =>
            '(rInfo, err) <- Join_convert2PhysicalPlanRight n lChild rChild prop true ;;
            match err with
            | Some e => ret (None, Some e)
            | None =>
                rInfo <- deref rInfo ;;
                lInfo <- deref lInfo ;;
                ret (Some (if ltb (cost rInfo) (cost lInfo) then rInfo else lInfo), None)
            end end
        end ;;
      match err with
      | Some e => ret (None, Some e)
      | None =>
          _ <- storePlanInfo (joinBase n) prop info ;;
          ret (info, None)
      end
  end.

(** *** Aggregation *)

Definition setNth {A : Type} (l : list A) (i : Z) (a : A) : outcome (list A) :=
  if i <? 0 then Panicked
  else if len l <=? i then Panicked
  else Returned (firstn (Z.to_nat i) l ++ a :: skipn (S (Z.to_nat i)) l).

(** Modelled from the spec: [getGbyColIndex] (declared with the logical
    plans): the position of the column among the group-by columns, [-1]
    when it is not one of them. *)
Definition getGbyColIndex (n : Aggregation) (c : Column) : Z :=
  GetIndex (groupByCols n) c.

(** The loop of the streamed strategy over the requested columns: [None]
    when a requested column is not a group-by column. *)
Fixpoint streamSortKeys (n : Aggregation) (ps : list columnProp)
    (isSortKey : list bool) (newProps : list columnProp)
    : outcome (option (list bool * list columnProp)) :=
  match ps with
  | [] => Returned (Some (isSortKey, newProps))
  | pro :: ps' =>
      let idx := getGbyColIndex n (col pro) in
      if idx =? -1 then Returned None
      else
        match setNth isSortKey idx true, index (groupByCols n) idx with
        | Returned isSortKey', Returned c =>
            streamSortKeys n ps' isSortKey' (newProps ++ [{| col := c; desc := desc pro |}])
        | _, _ => Panicked
        end
  end.

(** The group-by columns that are not sort keys, as an unordered tail. *)
Fixpoint restOfGroupBy (gbyCols : list Column) (isSortKey : list bool) : list columnProp :=
  match gbyCols, isSortKey with
  | c :: cs, b :: bs =>
      if b then restOfGroupBy cs bs
      else {| col := c; desc := false |} :: restOfGroupBy cs bs
  | _, _ => []
  end.

Definition physicalAggregation (n : Aggregation) (tag : string)
    (t : AggregationType) : PhysicalPlan :=
  Plan tag
    (PhysicalAggregation
       {| paAggType := t;
          paAggFuncs := AggFuncs n;
          paGroupByItems := GroupByItems n;
          paHasGby := 0 <? len (GroupByItems n) |})
    (correlated (aggBase n)) (schema (aggBase n)) [].

Definition isFinalMode (f : AggregationFunction) : bool :=
  match GetMode f with FinalMode => true | CompleteMode => false end.

(** The child property of the streamed strategy, [None] when the strategy
    does not apply. *)
Definition streamChildProperty (n : Aggregation) (prop : requiredProperty)
    : outcome (option requiredProperty) :=
  let gbyCols := groupByCols n in
  match streamSortKeys n (props prop) (repeat false (List.length gbyCols)) [] with
  | Panicked => Panicked
  | Returned None => Returned None
  | Returned (Some (isSortKey, newProps)) =>
      Returned (Some {| props := newProps ++ restOfGroupBy gbyCols isSortKey;
                        sortKeyLen := len newProps;
                        limit := None |})
  end.

Definition Aggregation_convert2PhysicalPlanStream (n : Aggregation)
    (child : LogicalPlan) (prop : requiredProperty) : M planResult :=
  if existsb isFinalMode (AggFuncs n) then ret (Some unsatisfiable, None)
  else
    let agg := physicalAggregation n "StreamAgg" StreamedAgg in
    if negb (len (groupByCols n) =? len (GroupByItems n))
    then ret (Some unsatisfiable, None)
    else
      newProp <- lift (streamChildProperty n prop) ;;
      match newProp with
      | None => ret (Some unsatisfiable, None)
      | Some newProp =>
          '(childInfo, err) <- convert2PhysicalPlan child newProp ;;
          match err with
          | Some e => ret (None, Some e)
          | None =>
              childInfo <- deref childInfo ;;
              let info := addPlanToResponse agg childInfo in
              let info := setCost info (add (cost info) (mul (of_Z (count info)) cpuFactor)) in
              let info := setCount info (to_uint64 (mul (of_Z (count info)) aggFactor)) in
              ret (Some info, None)
          end
      end.

Definition aggCorrelated (agg : PhysicalPlan) (childInfo : physicalPlanInfo) : PhysicalPlan :=
  match p childInfo with
  | Some cp => SetCorrelated agg (IsCorrelated agg || IsCorrelated cp)
  | None => agg
  end.

(** The final aggregation above a scan [x] that takes the partial
    aggregation; nil when the scan returns no schema (the scan is then
    taken as unchanged). *)
Definition Aggregation_convert2PhysicalPlanFinalHash (n : Aggregation)
    (x : PhysicalPlan) (childInfo : physicalPlanInfo) : option physicalPlanInfo :=
  let agg := aggCorrelated (physicalAggregation n "HashAgg" FinalAgg) childInfo in
  let '(sch, x') := addAggregation X x agg in
  if len sch =? 0 then None
  else
    let info := addPlanToResponse agg (setPlan childInfo (Some (SetSchema x' sch))) in
    let info := setCount info (to_uint64 (mul (of_Z (count info)) aggFactor)) in
    Some (setCost info zero).

Definition Aggregation_convert2PhysicalPlanCompleteHash (n : Aggregation)
    (childInfo : physicalPlanInfo) : physicalPlanInfo :=
  let agg := aggCorrelated (physicalAggregation n "HashAgg" CompleteAgg) childInfo in
  let info := addPlanToResponse agg childInfo in
  let info := setCost info (add (cost info) (mul (of_Z (count info)) memoryFactor)) in
  setCount info (to_uint64 (mul (of_Z (count info)) aggFactor)).

Definition Aggregation_convert2PhysicalPlanHash (n : Aggregation)
    (child : LogicalPlan) : M planResult :=
  '(childInfo, err) <- convert2PhysicalPlan child emptyProperty ;;
  match err with
  | Some e => ret (None, Some e)
  | None =>
      childInfo <- deref childInfo ;;
      let distinct := existsb IsDistinct (AggFuncs n) in
      let final :=
        if distinct then None
        else match p childInfo with
             | Some x =>
                 if isDistSQLPlan X x
                 then Aggregation_convert2PhysicalPlanFinalHash n x childInfo
                 else None
             | None => None
             end in
      match final with
      | Some info => ret (Some info, None)
      | None => ret (Some (Aggregation_convert2PhysicalPlanCompleteHash n childInfo), None)
      end
  end.

Definition Aggregation_convert2PhysicalPlan (n : Aggregation)
    (child : LogicalPlan) (prop : requiredProperty) : M planResult :=
  '(planInfo, err) <- getPlanInfo (aggBase n) prop ;;
  match err, planInfo with
  | Some e, _ => ret (None, Some e)
  | None, Some i => ret (Some i, None)
  | None, None =>
      '(planInfo, err) <-
        (if len (props prop) =? 0 then Aggregation_convert2PhysicalPlanHash n child
         else ret (None, None)) ;;
      match err with
      | Some e => ret (None, Some e)
      | None =>
          '(streamInfo, _) <- Aggregation_convert2PhysicalPlanStream n child (removeLimit prop) ;;
          planInfo <-
            match planInfo with
            | None => ret streamInfo
            | Some hashInfo =>
                streamInfo <- deref streamInfo ;;
                ret (Some (if ltb (cost streamInfo) (cost hashInfo)
                           then streamInfo else hashInfo))
            end ;;
          planInfo <- deref planInfo ;;
          let planInfo := enforceProperty (limitProperty (limit prop)) planInfo in
          err <- storePlanInfo (aggBase n) prop (Some planInfo) ;;
          ret (Some planInfo, err)
      end
  end.

(** *** Union *)

(** The requested columns in the positions of a branch. *)
Fixpoint unionChildProps (sch childSchema : Schema) (ps : list columnProp)
    : outcome (list columnProp) :=
  match ps with
  | [] => Returned []
  | c :: ps' =>
      match index childSchema (GetIndex sch (col c)) with
      | Panicked => Panicked
      | Returned cc =>
          match unionChildProps sch childSchema ps' with
          | Panicked => Panicked
          | Returned r => Returned ({| col := cc; desc := desc c |} :: r)
          end
      end
  end.

(** The loop over the branches; it leaves the function on an error. *)
Fixpoint unionChildren (n : Union) (prop : requiredProperty)
    (children : list LogicalPlan) (childInfos : list physicalPlanInfo)
    (cnt : Z) : M (error + list physicalPlanInfo * Z) :=
  match children with
  | [] => ret (inr (childInfos, cnt))
  | child :: rest =>
      newProps <- lift (unionChildProps (schema (unionBase n)) (GetSchema child) (props prop)) ;;
      let newProp := {| props := newProps;
                        sortKeyLen := sortKeyLen prop;
                        limit := limit (convertLimitOffsetToCount prop) |} in
      '(info, err) <- convert2PhysicalPlan child newProp ;;
      info <- deref info ;;
      let cnt := wrap_uint64 (cnt + count info) in
      match err with
      | Some e => ret (inl e)
      | None => unionChildren n prop rest (childInfos ++ [info]) cnt
      end
  end.

Definition Union_convert2PhysicalPlan (n : Union) (children : list LogicalPlan)
    (prop : requiredProperty) : M planResult :=
  '(info, err) <- getPlanInfo (unionBase n) prop ;;
  match err, info with
  | Some e, _ => ret (None, Some e)
  | None, Some i => ret (Some i, None)
  | None, None =>
      r <- unionChildren n prop children [] 0 ;;
      match r with
      | inl e => ret (None, Some e)
      | inr (childInfos, cnt) =>
          let info := matchProperty X (asPhysical (unionBase n) OpUnion) prop childInfos in
          let info := enforceProperty (limitProperty (limit prop)) info in
          let info := setCount info cnt in
          _ <- storePlanInfo (unionBase n) prop (Some info) ;;
          ret (Some info, None)
      end
  end.

(** *** Selection *)

Definition Selection_convert2PhysicalPlanPushOrder (n : Selection)
    (child : LogicalPlan) (prop : requiredProperty) : M planResult :=
  '(info, err) <- convert2PhysicalPlan child (removeLimit prop) ;;
  match err with
  | Some e => ret (None, Some e)
  | None =>
      match limit prop with
      | None => ret (info, None)
      | Some l =>
          info <- deref info ;;
          match p info with
          | None => ret (Some info, None)
          | Some ip =>
              if isDistSQLPlan X ip then
                let np := addLimit X ip l in
                let info := setCount (setPlan info (Some np)) (Count l) in
                ret (Some (setCost info (calculateCost X np (count info))), None)
              else
                ret (Some (enforceProperty (limitProperty (Some l)) info), None)
          end
      end
  end.

Definition Selection_convert2PhysicalPlanEnforce (n : Selection)
    (child : LogicalPlan) (prop : requiredProperty) : M planResult :=
  '(info, err) <- convert2PhysicalPlan child emptyProperty ;;
  match err with
  | Some e => ret (None, Some e)
  | None =>
      match limit prop with
      | Some _ =>
          if 0 <? len (props prop) then
            info <- deref info ;;
            let info :=
              match p info with
              | Some t => if isDistSQLPlan X t
                          then setPlan info (Some (addTopN X t prop)) else info
              | None => info
              end in
            ret (Some (enforceProperty prop info), None)
          else ret (info, None)
      | None =>
          if negb (len (props prop) =? 0) then
            info <- deref info ;;
            ret (Some (setCost info MaxFloat64), None)
          else ret (info, None)
      end
  end.

Definition Selection_convert2PhysicalPlan (n : Selection) (child : LogicalPlan)
    (prop : requiredProperty) : M planResult :=
  '(info, err) <- getPlanInfo (selBase n) prop ;;
  match err, info with
  | Some e, _ => ret (None, Some e)
  | None, Some i => ret (Some i, None)
  | None, None =>
      '(info, err) <- Selection_convert2PhysicalPlanPushOrder n child prop ;;
      match err with
      | Some e => ret (None, Some e)
      | None =>
          r <- (if 0 <? len (props prop) then
                  '(infoEnforce, err) <- Selection_convert2PhysicalPlanEnforce n child prop ;;
                  match err with
                  | Some e => ret (inl e)
                  | None =>
                      infoEnforce <- deref infoEnforce ;;
                      info <- deref info ;;
                      ret (inr (Some (if ltb (cost infoEnforce) (cost info)
                                      then infoEnforce else info)))
                  end
                else ret (inr info)) ;;
          match r with
          | inl e => ret (None, Some e)
          | inr info =>
              info <- (if IsDataSource child then ret info
                       else
                         info <- deref info ;;
                         ret (Some (matchProperty X
                                      (asPhysical (selBase n) (OpSelection (Conditions n) (onTable n)))
                                      prop [info]))) ;;
              _ <- storePlanInfo (selBase n) prop info ;;
              ret (info, None)
          end
      end
  end.

(** *** Projection *)

Definition isUsed (usedCols : list bool) (i : Z) : outcome bool := index usedCols i.

(** The loop over the requested columns.  It yields the child property,
    or [None] as soon as a requested column is computed by a scalar
    function. *)
Fixpoint projectProps (n : Projection) (childSchema : Schema)
    (ps : list columnProp) (usedCols : list bool)
    (newProps : list columnProp) (keyLen : Z)
    : outcome (option (list columnProp * Z)) :=
  match ps with
  | [] => Returned (Some (newProps, keyLen))
  | c :: ps' =>
      let idx := GetIndex (schema (projBase n)) (col c) in
      match index (Exprs n) idx with
      | Panicked => Panicked
      | Returned (ExprColumn v) =>
          let childIdx := GetIndex childSchema v in
          match isUsed usedCols childIdx with
          | Panicked => Panicked
          | Returned true => projectProps n childSchema ps' usedCols newProps keyLen
          | Returned false =>
              match setNth usedCols childIdx true with
              | Panicked => Panicked
              | Returned usedCols' =>
                  projectProps n childSchema ps' usedCols'
                    (newProps ++ [{| col := v; desc := desc c |}]) keyLen
              end
          end
      | Returned (ExprScalarFunction _ _) => Returned None
      | Returned (ExprConstant _) =>
          projectProps n childSchema ps' usedCols newProps (keyLen - 1)
      end
  end.

Definition Projection_convert2PhysicalPlan (n : Projection) (child : LogicalPlan)
    (prop : requiredProperty) : M planResult :=
  '(info, err) <- getPlanInfo (projBase n) prop ;;
  match err, info with
  | Some e, _ => ret (None, Some e)
  | None, Some i => ret (Some i, None)
  | None, None =>
      let childSchema := GetSchema child in
      r <- lift (projectProps n childSchema (props prop)
                   (repeat false (List.length childSchema)) [] (sortKeyLen prop)) ;;
      match r with
      | None => ret (Some unsatisfiable, None)
      | Some (newProps, keyLen) =>
          '(info, err) <- convert2PhysicalPlan child
              {| props := newProps; sortKeyLen := keyLen; limit := limit prop |} ;;
          match err with
          | Some e => ret (None, Some e)
          | None =>
              info <- deref info ;;
              let info := addPlanToResponse (asPhysical (projBase n) (OpProjection (Exprs n))) info in
              _ <- storePlanInfo (projBase n) prop (Some info) ;;
              ret (Some info, None)
          end
      end
  end.

(** *** Sort *)

(** [columnProp.equal]: same column and same direction. *)
Definition columnProp_equal (a b : columnProp) : bool :=
  Column_eqb (col a) (col b) && Bool.eqb (desc a) (desc b).

(** The first loop of [matchProp], over the positions below [sortKeyLen]. *)
Fixpoint matchPrefix (target new : list columnProp) (i : Z) (steps : nat) : outcome bool :=
  match steps with
  | O => Returned true
  | S steps' =>
      match index target i, index new i with
      | Returned a, Returned b =>
          if columnProp_equal a b then matchPrefix target new (i + 1) steps'
          else Returned false
      | _, _ => Panicked
      end
  end.

(** The second loop of [matchProp], over the positions from [sortKeyLen]. *)
Fixpoint matchTail (target new : list columnProp) (i : Z) (steps : nat) : outcome bool :=
  match steps with
  | O => Returned true
  | S steps' =>
      match index target i with
      | Returned a =>
          if existsb (fun pro => Column_eqb (col pro) (col a)) new
          then matchTail target new (i + 1) steps'
          else Returned false
      | Panicked => Panicked
      end
  end.

Definition matchProp (target new : requiredProperty) : outcome bool :=
  if len (props new) <? sortKeyLen target then Returned false
  else
    match matchPrefix (props target) (props new) 0 (Z.to_nat (sortKeyLen target)) with
    | Panicked => Panicked
    | Returned false => Returned false
    | Returned true =>
        matchTail (props target) (props new) (sortKeyLen target)
          (Z.to_nat (len (props target) - sortKeyLen target))
    end.

(** The keys of the sort as a property: empty as soon as one key is not a
    column. *)
Fixpoint sortSelfProps (items : list ByItems) (acc : list columnProp) : list columnProp :=
  match items with
  | [] => acc
  | by_ :: rest =>
      match Expr by_ with
      | ExprColumn c => sortSelfProps rest (acc ++ [{| col := c; desc := Desc by_ |}])
      | _ => []
      end
  end.

Definition Sort_convert2PhysicalPlan (n : Sort) (child : LogicalPlan)
    (prop : requiredProperty) : M planResult :=
  '(info, err) <- getPlanInfo (sortBase n) prop ;;
  match err, info with
  | Some e, _ => ret (None, Some e)
  | None, Some i => ret (Some i, None)
  | None, None =>
      let selfProps := sortSelfProps (SortByItems n) [] in
      let selfProp :=
        {| props := selfProps;
           sortKeyLen := len selfProps;
           limit := if negb (len selfProps =? 0) && (len (props prop) =? 0)
                    then limit prop else None |} in
      '(sortedPlanInfo, err) <- convert2PhysicalPlan child selfProp ;;
      match err with
      | Some e => ret (None, Some e)
      | None =>
      '(unSortedPlanInfo, err) <- convert2PhysicalPlan child emptyProperty ;;
      match err with
      | Some e => ret (None, Some e)
      | None =>
          unSortedPlanInfo <- deref unSortedPlanInfo ;;
          let sortCost := sortCost (count unSortedPlanInfo) in
          sortedPlanInfo <- deref sortedPlanInfo ;;
          let sortedPlanInfo :=
            if len selfProps =? 0 then
              addPlanToResponse
                (asPhysical (sortBase n) (OpSort (SortByItems n) (limit prop)))
                sortedPlanInfo
            else if ltb (add sortCost (cost unSortedPlanInfo)) (cost sortedPlanInfo) then
              addPlanToResponse
                (asPhysical (sortBase n) (OpSort (SortByItems n) (limit selfProp)))
                unSortedPlanInfo
            else sortedPlanInfo in
          matched <- lift (matchProp prop selfProp) ;;
          let sortedPlanInfo :=
            if matched then sortedPlanInfo else setCost sortedPlanInfo MaxFloat64 in
          _ <- storePlanInfo (sortBase n) prop (Some sortedPlanInfo) ;;
          ret (Some sortedPlanInfo, None)
      end end
  end.

(** *** Apply *)

(** [addCachePlan]: a [Cache] above every child that is not correlated,
    recursively through the correlated ones. *)
Fixpoint addCachePlan (pl : PhysicalPlan) : outcome PhysicalPlan :=
  match pl with
  | Plan t o c s children =>
      match children with
      | [] => Returned pl
      | _ :: _ =>
          let fix loop (l : list (option PhysicalPlan))
              : outcome (list (option PhysicalPlan)) :=
            match l with
            | [] => Returned []
            | None :: _ => Panicked
            | Some child :: rest =>
                let newChild :=
                  if IsCorrelated child then addCachePlan child
                  else Returned (Plan "" Cache false (PGetSchema child) [Some child]) in
                match newChild, loop rest with
                | Returned nc, Returned r => Returned (Some nc :: r)
                | _, _ => Panicked
                end
            end in
          match loop children with
          | Returned newChildren => Returned (Plan t o c s newChildren)
          | Panicked => Panicked
          end
      end
  end.

(** [addChild] (declared with the plans): the child is appended to the
    children of the parent unless one of the two is nil. *)
Definition addChild (parent child : option PhysicalPlan) : option PhysicalPlan :=
  match parent, child with
  | Some pp, Some c => Some (SetChildren pp (GetChildren pp ++ [Some c]))
  | _, _ => parent
  end.

Definition Apply_convert2PhysicalPlan (n : Apply) (child innerPlan : LogicalPlan)
    (prop : requiredProperty) : M planResult :=
  '(info, err) <- getPlanInfo (applyBase n) prop ;;
  match err, info with
  | Some e, _ => ret (info, Some e)
  | None, Some i => ret (Some i, None)
  | None, None =>
      let allFromOuter :=
        forallb (fun c => GetIndex (GetSchema innerPlan) (col c) =? -1) (props prop) in
      if negb allFromOuter then ret (Some unsatisfiable, None)
      else
        '(innerInfo, err) <- convert2PhysicalPlan innerPlan emptyProperty ;;
        innerInfo <- deref innerInfo ;;
        innerP <- deref (p innerInfo) ;;
        cached <- lift (addCachePlan innerP) ;;
        let innerInfo := setPlan innerInfo (Some cached) in
        match err with
        | Some e => ret (None, Some e)
        | None =>
            let np := Plan "PhysicalApply" (PhysicalApply (corCols n) (applyChecker n))
                           (correlated (applyBase n)) (schema (applyBase n)) [] in
            '(info, err) <- convert2PhysicalPlan child (removeLimit prop) ;;
            match err with
            | Some e => ret (None, Some e)
            | None =>
                info <- deref info ;;
                let info := addPlanToResponse np info in
                let info := setPlan info (addChild (p info) (p innerInfo)) in
                let info := enforceProperty (limitProperty (limit prop)) info in
                _ <- storePlanInfo (applyBase n) prop (Some info) ;;
                ret (Some info, None)
            end
        end
  end.

(** *** Distinct *)

Definition Distinct_convert2PhysicalPlan (n : Distinct) (child : LogicalPlan)
    (prop : requiredProperty) : M planResult :=
  '(info, err) <- getPlanInfo (distBase n) prop ;;
  match err, info with
  | Some e, _ => ret (None, Some e)
  | None, Some i => ret (Some i, None)
  | None, None =>
      '(info, err) <- convert2PhysicalPlan child (removeLimit prop) ;;
      match err with
      | Some e => ret (None, Some e)
      | None =>
          info <- deref info ;;
          let info := addPlanToResponse (asPhysical (distBase n) OpDistinct) info in
          let info := setCount info (to_uint64 (mul (of_Z (count info)) distinctFactor)) in
          let info := enforceProperty (limitProperty (limit prop)) info in
          _ <- storePlanInfo (distBase n) prop (Some info) ;;
          ret (Some info, None)
      end
  end.

(** *** DataSource *)

Definition readOnlyOf (txn : option Txn) : bool :=
  match txn with
  | Some t => IsReadOnly t
  | None => true
  end.

(** The scan source of a fresh scan. *)
Definition newTableSource (n : DataSource) (txn : option Txn) : TableSource :=
  {| srcClient := GetClient (dsCtx n);
     srcReadOnly := readOnlyOf txn;
     srcAccessCondition := [];
     srcConditionPBExpr := None;
     srcConditions := [];
     srcLimitCount := None;
     srcSortItems := [];
     srcAggregated := false |}.

Definition withConditions (src : TableSource) (access : list Expression)
    (pb : option PBExpr) (pushed : list Expression) : TableSource :=
  {| srcClient := srcClient src;
     srcReadOnly := srcReadOnly src;
     srcAccessCondition := access;
     srcConditionPBExpr := pb;
     srcConditions := pushed;
     srcLimitCount := srcLimitCount src;
     srcSortItems := srcSortItems src;
     srcAggregated := srcAggregated src |}.

(** The conditions left to the filter, pushed to the storage layer when
    there is a client that takes them for this kind of request. *)
Definition pushDownConditions (n : DataSource) (req : RequestType)
    (conds : list Expression) : option PBExpr * list Expression * list Expression :=
  match GetClient (dsCtx n) with
  | Some client =>
      if negb (IsMemoryDB X (dsDBName n)) && SupportRequestType client req 0
      then expressionsToPB X (StmtCtx (dsCtx n)) conds client
      else (None, [], conds)
  | None => (None, [], conds)
  end.

(** The plan a scan builder returns: the scan, below a copy of the parent
    filter when conditions are left to it. *)
Definition scanResultPlan (scan : PhysicalPlan)
    (filter : option (Selection * list Expression)) : PhysicalPlan :=
  match filter with
  | Some (sel, rest) =>
      if 0 <? len rest
      then Plan (tp (selBase sel)) (OpSelection rest true)
                (correlated (selBase sel)) (schema (selBase sel)) [Some scan]
      else scan
  | None => scan
  end.

Fixpoint priKeyPosition (cols : list ColumnInfo) (i : Z) : option Z :=
  match cols with
  | [] => None
  | c :: rest => if ciPriKey c then Some i else priKeyPosition rest (i + 1)
  end.

Definition priKeyOffset (cols : list ColumnInfo) : Z :=
  match find ciPriKey cols with
  | Some c => ciOffset c
  | None => 0
  end.

Definition convert2TableScan (n : DataSource) (prop : requiredProperty)
    : outcome planResult :=
  let table := dsTable n in
  let sc := StmtCtx (dsCtx n) in
  match GetTxn (dsCtx n) with
  | (_, Some e) => Returned (None, Some e)
  | (txn, None) =>
      let scanned : error + TableSource * list TableRange * option (Selection * list Expression) :=
        match dsParent n with
        | Some sel =>
            let '(access, rest) := detachTableScanConditions X (Conditions sel) table in
            let '(pb, pushed, rest) := pushDownConditions n ReqTypeSelect rest in
            let src := withConditions (newTableSource n txn) access pb pushed in
            match buildTableRange X
                    {| tsTable := table; tsColumns := dsColumns n;
                       tsTableAsName := dsTableAsName n; tsDBName := dsDBName n;
                       tsSource := src; tsRanges := []; tsPkCol := None |} with
            | (_, Some e) => inl e
            | (ranges, None) => inr (src, ranges, Some (sel, rest))
            end
        | None =>
            inr (newTableSource n txn,
                 [{| trLowVal := MinInt64; trHighVal := MaxInt64 |}], None)
        end in
      match scanned with
      | inl e => Returned (None, Some e)
      | inr (src, ranges, filter) =>
          let statsTbl := dsStatisticTable n in
          let finish (pkCol : option Column) (rowCount : Z) : outcome planResult :=
            let rowCount :=
              match srcConditionPBExpr src with
              | Some _ => to_uint64 (mul (of_Z rowCount) selectionFactor)
              | None => rowCount
              end in
            let ts := Plan "TableScan"
                        (PhysicalTableScan
                           {| tsTable := table; tsColumns := dsColumns n;
                              tsTableAsName := dsTableAsName n; tsDBName := dsDBName n;
                              tsSource := src; tsRanges := ranges; tsPkCol := pkCol |})
                        false (schema (dsBase n)) [] in
            Returned (Some (matchProperty X (scanResultPlan ts filter) prop
                              [{| p := None; cost := zero; count := rowCount |}]), None) in
          if PKIsHandle table then
            match (match priKeyPosition (dsColumns n) 0 with
                   | Some i =>
                       match index (schema (dsBase n)) i with
                       | Returned c => Returned (Some c)
                       | Panicked => Panicked
                       end
                   | None => Returned None
                   end) with
            | Panicked => Panicked
            | Returned pkCol =>
                match getRowCountByTableRange sc statsTbl ranges
                        (priKeyOffset (TableColumns table)) with
                | Panicked => Panicked
                | Returned (_, Some e) => Returned (None, Some e)
                | Returned (rowCount, None) => finish pkCol rowCount
                end
            end
          else finish None (wrap_uint64 (TCount statsTbl))
      end
  end.

Definition isCoveringIndex (columns : list ColumnInfo)
    (indexColumns : list IndexColumn) (pkIsHandle : bool) : bool :=
  forallb
    (fun colInfo =>
       (pkIsHandle && ciPriKey colInfo)
       || existsb (fun indexCol =>
                     String.eqb (ciName colInfo) (icName indexCol)
                     && (icLength indexCol =? UnspecifiedLength))
                  indexColumns)
    columns.

Definition convert2IndexScan (n : DataSource) (prop : requiredProperty)
    (idx : IndexInfo) : outcome planResult :=
  let statsTbl := dsStatisticTable n in
  let sc := StmtCtx (dsCtx n) in
  match GetTxn (dsCtx n) with
  | (_, Some e) => Returned (None, Some e)
  | (txn, None) =>
      let scan (src : TableSource) (ranges : list IndexRange) (doubleRead : bool)
          : IndexScanParams :=
        {| isIndex := idx; isTable := dsTable n; isColumns := dsColumns n;
           isTableAsName := dsTableAsName n; isOutOfOrder := true;
           isDBName := dsDBName n; isSource := src; isRanges := ranges;
           isDoubleRead := doubleRead |} in
      let doubleRead :=
        negb (isCoveringIndex (dsColumns n) (IdxColumns idx) (PKIsHandle (dsTable n))) in
      let finish (src : TableSource) (ranges : list IndexRange)
          (filter : option (Selection * list Expression)) (rowCount : Z)
          : outcome planResult :=
        let indexScan := Plan "IndexScan" (PhysicalIndexScan (scan src ranges doubleRead))
                              false (schema (dsBase n)) [] in
        Returned (Some (matchProperty X (scanResultPlan indexScan filter) prop
                          [{| p := None; cost := zero; count := rowCount |}]), None) in
      match dsParent n with
      | Some sel =>
          let '(access, rest) :=
            detachIndexScanConditions X (Conditions sel)
              (scan (newTableSource n txn) [] false) in
          let '(pb, pushed, rest) := pushDownConditions n ReqTypeIndex rest in
          let src := withConditions (newTableSource n txn) access pb pushed in
          let '(ranges, err) := buildIndexRange X sc (scan src [] false) in
          match (match err with
                 | Some e => if String.eqb e ErrTruncated then None else Some e
                 | None => None
                 end) with
          | Some e => Returned (None, Some e)
          | None =>
              match getRowCountByIndexRanges sc statsTbl ranges idx with
              | Panicked => Panicked
              | Returned (_, Some e) => Returned (None, Some e)
              | Returned (rowCount, None) => finish src ranges (Some (sel, rest)) rowCount
              end
          end
      | None =>
          finish (newTableSource n txn) (fullIndexRanges X sc) None
                 (wrap_uint64 (TCount statsTbl))
      end
  end.

(** [need2ConsiderIndex] reads [p.parents[0]] itself: it panics on a
    node without parents. *)
Definition need2ConsiderIndex (n : DataSource) (prop : requiredProperty) : outcome bool :=
  match index (dsParents n) 0 with
  | Panicked => Panicked
  | Returned (ParentSelection _) => Returned true
  | Returned ParentOther => Returned (0 <? len (props prop))
  end.

(** What the loop of [tryToConvert2DummyScan] finds among the conditions
    of the parent filter, in their order. *)
Inductive constantScan : Type :=
| EvalError (e : error)
| ConstantFalse
| NoConstantFalse.

Fixpoint scanConstants (conds : list Expression) : constantScan :=
  match conds with
  | [] => NoConstantFalse
  | ExprConstant con :: rest =>
      match EvalBool X con with
      | (_, Some e) => EvalError e
      | (false, None) => ConstantFalse
      | (true, None) => scanConstants rest
      end
  | _ :: rest => scanConstants rest
  end.

Definition dummyScanInfo (n : DataSource) : physicalPlanInfo :=
  {| p := Some (Plan "Dummy" PhysicalDummyScan false (schema (dsBase n)) []);
     cost := zero;
     count := 0 |}.

Definition tryToConvert2DummyScan (n : DataSource) (prop : requiredProperty)
    : M planResult :=
  match dsParent n with
  | None => ret (None, None)
  | Some sel =>
      match scanConstants (Conditions sel) with
      | EvalError e => ret (None, Some e)
      | ConstantFalse =>
          let info := dummyScanInfo n in
          _ <- storePlanInfo (dsBase n) prop (Some info) ;;
          ret (Some info, None)
      | NoConstantFalse => ret (None, None)
      end
  end.

(** The loop over the indices: the cheapest candidate so far, or the
    error of a scan builder. *)
Fixpoint cheapestIndexScan (n : DataSource) (prop : requiredProperty)
    (indices : list IndexInfo) (info : option physicalPlanInfo)
    : outcome (error + option physicalPlanInfo) :=
  match indices with
  | [] => Returned (inr info)
  | idx :: rest =>
      match convert2IndexScan n prop idx with
      | Panicked => Panicked
      | Returned (_, Some e) => Returned (inl e)
      | Returned (indexInfo, None) =>
          match info with
          | None => cheapestIndexScan n prop rest indexInfo
          | Some i =>
              match indexInfo with
              | None => Panicked
              | Some ii =>
                  cheapestIndexScan n prop rest
                    (Some (if ltb (cost ii) (cost i) then ii else i))
              end
          end
      end
  end.

Definition DataSource_convert2PhysicalPlan (n : DataSource)
    (prop : requiredProperty) : M planResult :=
  '(info, err) <- getPlanInfo (dsBase n) prop ;;
  match err, info with
  | Some e, _ => ret (None, Some e)
  | None, Some i => ret (Some i, None)
  | None, None =>
      '(info, err) <- tryToConvert2DummyScan n prop ;;
      match info, err with
      | None, None =>
          let '(indices, includeTableScan) := availableIndices X (dsTable n) in
          scanned <- lift (if includeTableScan then convert2TableScan n prop
                           else Returned (None, None)) ;;
          match scanned with
          | (_, Some e) => ret (None, Some e)
          | (info, None) =>
              consider <- lift (if negb includeTableScan then Returned true
                                else need2ConsiderIndex n prop) ;;
              r <- (if consider
                    then lift (cheapestIndexScan n prop indices info)
                    else ret (inr info)) ;;
              match r with
              | inl e => ret (None, Some e)
              | inr info =>
                  err <- storePlanInfo (dsBase n) prop info ;;
                  ret (info, err)
              end
          end
      | _, _ => ret (info, err)
      end
  end.

(** ** Logical plan trees *)

(** The closed set of logical nodes over their children. *)
Inductive LogicalTree : Type :=
| TDataSource (n : DataSource)
| TSelection (n : Selection) (child : LogicalTree)
| TProjection (n : Projection) (child : LogicalTree)
| TJoin (n : Join) (lChild rChild : LogicalTree)
| TAggregation (n : Aggregation) (child : LogicalTree)
| TSort (n : Sort) (child : LogicalTree)
| TLimit (n : LimitNode) (child : LogicalTree)
| TUnion (n : Union) (children : list LogicalTree)
| TDistinct (n : Distinct) (child : LogicalTree)
| TApply (n : Apply) (child innerPlan : LogicalTree).

Definition baseOf (t : LogicalTree) : basePlan :=
  match t with
  | TDataSource n => dsBase n
  | TSelection n _ => selBase n
  | TProjection n _ => projBase n
  | TJoin n _ _ => joinBase n
  | TAggregation n _ => aggBase n
  | TSort n _ => sortBase n
  | TLimit n _ => limBase n
  | TUnion n _ => unionBase n
  | TDistinct n _ => distBase n
  | TApply n _ _ => applyBase n
  end.

Definition isDataSource (t : LogicalTree) : bool :=
  match t with TDataSource _ => true | _ => false end.

(** The conversion of a tree: each node converts through the rule of its
    kind, over the conversions of its children. *)
Fixpoint convert (t : LogicalTree) : requiredProperty -> M planResult :=
  let plan (c : LogicalTree) : LogicalPlan :=
    {| GetSchema := schema (baseOf c);
       IsDataSource := isDataSource c;
       convert2PhysicalPlan := convert c |} in
  match t with
  | TDataSource n => DataSource_convert2PhysicalPlan n
  | TSelection n c => Selection_convert2PhysicalPlan n (plan c)
  | TProjection n c => Projection_convert2PhysicalPlan n (plan c)
  | TJoin n l r => Join_convert2PhysicalPlan n (plan l) (plan r)
  | TAggregation n c => Aggregation_convert2PhysicalPlan n (plan c)
  | TSort n c => Sort_convert2PhysicalPlan n (plan c)
  | TLimit n c => Limit_convert2PhysicalPlan n (plan c)
  | TUnion n cs => Union_convert2PhysicalPlan n (map plan cs)
  | TDistinct n c => Distinct_convert2PhysicalPlan n (plan c)
  | TApply n c i => Apply_convert2PhysicalPlan n (plan c) (plan i)
  end.

End Conversion.

(** The interface of a tree, as its parent sees it. *)
Definition logicalPlan (X : Externals) (t : LogicalTree) : LogicalPlan :=
  {| GetSchema := schema (baseOf t);
     IsDataSource := isDataSource t;
     convert2PhysicalPlan := convert X t |}.

(** The conversions that return without recording their result: a
    projection asked for an order on a column that it computes, and an
    Apply asked for an order on a column of its inner child. *)
Definition leavesUnrecorded (t : LogicalTree) (prop : requiredProperty) : bool :=
  match t with
  | TProjection n c =>
      match projectProps n (schema (baseOf c)) (props prop)
              (repeat false (List.length (schema (baseOf c)))) [] (sortKeyLen prop) with
      | Returned None => true
      | _ => false
      end
  | TApply n _ i =>
      negb (forallb (fun c => GetIndex (schema (baseOf i)) (col c) =? -1) (props prop))
  | _ => false
  end.

(** A computation records its result: whenever it returns a plan info
    and no error, the memo of the node holds that plan info under the
    property. *)
Definition records (node : basePlan) (prop : requiredProperty) (m : M planResult) : Prop :=
  forall s info s1,
    m s = Returned ((Some info, None), s1) -> memoized s1 node prop = Some info.

(** ** A small world for the examples *)

Module Example.

Definition intDatum (v : Z) : Datum := NewDatum v.
Definition stringDatum (v : string) : Datum := {| k := KindString; i64 := 0; str := v |}.
Definition nullValue : Datum := nullDatum.
Definition minNotNull : Datum := {| k := KindMinNotNull; i64 := 0; str := "" |}.
Definition maxValue : Datum := {| k := KindMaxValue; i64 := 0; str := "" |}.

(** Integers compare by value; a comparison between an integer and a
    string fails. *)
Definition sc : StatementContext :=
  {| CompareDatum := fun a b =>
       match k a, k b with
       | KindInt64, KindInt64 =>
           (match i64 a ?= i64 b with Lt => -1 | Eq => 0 | Gt => 1 end, None)
       | _, _ => (0, Some "cannot compare")
       end |}.

(** A histogram that answers every range question with [g] rows and
    every equality question with [e] rows. *)
Definition histogram (e g : Z) : StatColumn :=
  {| EqualRowCount := fun _ => (e, None);
     LessRowCount := fun _ => (g, None);
     GreaterRowCount := fun _ => (g, None);
     BetweenRowCount := fun _ _ => (g, None) |}.

Definition table10000 : StatTable :=
  {| TCount := 10000; TColumns := [histogram 1 5000; histogram 1 100] |}.
Definition table600 : StatTable :=
  {| TCount := 600; TColumns := [histogram 1 50; histogram 1 10] |}.

Definition table1000 : StatTable :=
  {| TCount := 1000; TColumns := [histogram 1 100; histogram 1 100] |}.

Definition indexColumn (name : string) (offset : Z) : IndexColumn :=
  {| icName := name; icOffset := offset; icLength := UnspecifiedLength |}.

Definition indexA : IndexInfo :=
  {| IdxName := "idx_a"; IdxColumns := [indexColumn "a" 0] |}.
Definition indexAB : IndexInfo :=
  {| IdxName := "idx_a_b"; IdxColumns := [indexColumn "a" 0; indexColumn "b" 1] |}.

(** [a > 5]. *)
Definition greaterThan5 : IndexRange :=
  {| LowVal := [intDatum 5]; HighVal := [maxValue] |}.
(** The whole index, [(NULL, +inf)]. *)
Definition fullRange : IndexRange :=
  {| LowVal := [nullValue]; HighVal := [maxValue] |}.
(** A range whose bounds cannot be compared. *)
Definition mixedRange : IndexRange :=
  {| LowVal := [intDatum 1]; HighVal := [stringDatum "x"] |}.
(** Two dimensions: the leading one unbounded, the last one [3..9]. *)
Definition leadingFull : IndexRange :=
  {| LowVal := [nullValue; intDatum 3]; HighVal := [maxValue; intDatum 9] |}.

(** An instance of the externals. *)

(** The integer part of the base-2 logarithm; it is [math.Log2] on the
    powers of two. *)
Definition floorLog2 (f : float64) : float64 :=
  match f with
  | S754_finite false m e => of_Z (Z.log2 (Zpos m) + e)
  | _ => S754_nan
  end.

(** NULL is false, an integer is true when it is not zero, and a
    constant of another kind cannot be converted to a boolean. *)
Definition evalBool (d : Datum) : bool * option error :=
  match k d with
  | KindNull => (false, None)
  | KindInt64 => (negb (i64 d =? 0), None)
  | _ => (false, Some "cannot convert to bool")
  end.

Definition isScan (pl : PhysicalPlan) : bool :=
  match PlanOp pl with
  | PhysicalTableScan _ | PhysicalIndexScan _ => true
  | _ => false
  end.

Definition updateSource (f : TableSource -> TableSource) (pl : PhysicalPlan) : PhysicalPlan :=
  match pl with
  | Plan t (PhysicalTableScan ts) c s cs =>
      Plan t (PhysicalTableScan
                {| tsTable := tsTable ts; tsColumns := tsColumns ts;
                   tsTableAsName := tsTableAsName ts; tsDBName := tsDBName ts;
                   tsSource := f (tsSource ts); tsRanges := tsRanges ts;
                   tsPkCol := tsPkCol ts |}) c s cs
  | Plan t (PhysicalIndexScan ix) c s cs =>
      Plan t (PhysicalIndexScan
                {| isIndex := isIndex ix; isTable := isTable ix; isColumns := isColumns ix;
                   isTableAsName := isTableAsName ix; isOutOfOrder := isOutOfOrder ix;
                   isDBName := isDBName ix; isSource := f (isSource ix);
                   isRanges := isRanges ix; isDoubleRead := isDoubleRead ix |}) c s cs
  | _ => pl
  end.

Definition pushed (limitCount : option Z) (sortItems : list ByItems) (aggregated : bool)
    (src : TableSource) : TableSource :=
  {| srcClient := srcClient src;
     srcReadOnly := srcReadOnly src;
     srcAccessCondition := srcAccessCondition src;
     srcConditionPBExpr := srcConditionPBExpr src;
     srcConditions := srcConditions src;
     srcLimitCount := limitCount;
     srcSortItems := sortItems;
     srcAggregated := aggregated |}.

Definition sumCosts (infos : list physicalPlanInfo) : float64 :=
  fold_left (fun acc i => add acc (cost i)) infos zero.

(** A table scan costs 1.5 per row and delivers no order; an index scan
    costs 3 per row and delivers the requested order; a scan below its
    filter is costed as the scan; any other plan takes the plans of the
    given plan infos as children and sums their costs. *)
Definition matchPlan (receiver : PhysicalPlan) (prop : requiredProperty)
    (infos : list physicalPlanInfo) : physicalPlanInfo :=
  let cnt := match infos with i :: _ => count i | [] => 0 end in
  let scanCost (scan : PhysicalPlan) : float64 :=
    match PlanOp scan with
    | PhysicalIndexScan _ => mul (of_Z cnt) (of_Z 3)
    | _ => if len (props prop) =? 0 then mul (of_Z cnt) netWorkFactor else MaxFloat64
    end in
  match receiver with
  | Plan _ (PhysicalTableScan _) _ _ _ | Plan _ (PhysicalIndexScan _) _ _ _ =>
      {| p := Some receiver; cost := scanCost receiver; count := cnt |}
  | Plan _ (OpSelection _ true) _ _ [Some scan] =>
      {| p := Some receiver; cost := scanCost scan; count := cnt |}
  | _ =>
      {| p := Some (SetChildren receiver (map p infos));
         cost := sumCosts infos;
         count := cnt |}
  end.

Definition externals : Externals :=
  {| Log2 := floorLog2;
     EvalBool := evalBool;
     availableIndices := fun t => (TableIndices t, true);
     IsMemoryDB := fun _ => false;
     detachTableScanConditions := fun conds _ => ([], conds);
     detachIndexScanConditions := fun conds _ => ([], conds);
     expressionsToPB := fun _ conds _ => (None, [], conds);
     buildTableRange := fun _ => ([{| trLowVal := MinInt64; trHighVal := MaxInt64 |}], None);
     buildIndexRange := fun _ _ => ([fullRange], None);
     fullIndexRanges := fun _ => [fullRange];
     matchProperty := matchPlan;
     isDistSQLPlan := isScan;
     addLimit := fun pl l =>
       updateSource (fun src => pushed (Some (Count l)) (srcSortItems src) (srcAggregated src) src) pl;
     addTopN := fun pl prop =>
       updateSource (fun src => pushed (option_map Count (limit prop))
                                       (byItemsOf (props prop)) (srcAggregated src) src) pl;
     addAggregation := fun pl agg =>
       (PGetSchema agg,
        updateSource (fun src => pushed (srcLimitCount src) (srcSortItems src) true src) pl);
     calculateCost := fun pl n => mul (of_Z n) netWorkFactor |}.

(** The same externals with a range builder for indices that leaves the
    given ranges in the scan and returns the given error. *)
Definition failingIndexRange (ranges : list IndexRange) (e : error) : Externals :=
  {| Log2 := Log2 externals;
     EvalBool := EvalBool externals;
     availableIndices := availableIndices externals;
     IsMemoryDB := IsMemoryDB externals;
     detachTableScanConditions := detachTableScanConditions externals;
     detachIndexScanConditions := detachIndexScanConditions externals;
     expressionsToPB := expressionsToPB externals;
     buildTableRange := buildTableRange externals;
     buildIndexRange := fun _ _ => (ranges, Some e);
     fullIndexRanges := fullIndexRanges externals;
     matchProperty := matchProperty externals;
     isDistSQLPlan := isDistSQLPlan externals;
     addLimit := addLimit externals;
     addTopN := addTopN externals;
     addAggregation := addAggregation externals;
     calculateCost := calculateCost externals |}.

(** Nodes and trees. *)

Definition colA : Column := {| FromID := "t"; Position := 0 |}.
Definition colB : Column := {| FromID := "t"; Position := 1 |}.
Definition colU : Column := {| FromID := "u"; Position := 0 |}.
Definition colV : Column := {| FromID := "u"; Position := 1 |}.
Definition out0 : Column := {| FromID := "out"; Position := 0 |}.
Definition out1 : Column := {| FromID := "out"; Position := 1 |}.

Definition base (tag name : string) (sch : Schema) : basePlan :=
  {| tp := tag; id := name; schema := sch; correlated := false |}.

Definition orderBy (cols : list Column) : requiredProperty :=
  {| props := map (fun c => {| col := c; desc := false |}) cols;
     sortKeyLen := len cols;
     limit := None |}.

Definition plus (x y : Column) : Expression :=
  ExprScalarFunction "plus" [ExprColumn x; ExprColumn y].

Definition countStar : AggregationFunction :=
  {| AggName := "count"; AggArgs := [ExprConstant (intDatum 1)];
     GetMode := CompleteMode; IsDistinct := false |}.

(** Table [t(a, b)] with an index on [(a, b)], and table [u(u, v)]. *)
Definition client : Client := {| SupportRequestType := fun _ _ => true |}.

Definition ctx : Context :=
  {| GetClient := Some client; StmtCtx := sc; GetTxn := (None, None) |}.

Definition columnInfo (name : string) (offset : Z) : ColumnInfo :=
  {| ciName := name; ciOffset := offset; ciPriKey := false |}.

Definition dataSource (name tbl : string) (sch : Schema) (cols : list ColumnInfo)
    (indices : list IndexInfo) (parent : option Selection) : DataSource :=
  {| dsBase := base "DataSource" name sch;
     dsCtx := ctx;
     dsTable := {| TableName := tbl; TableColumns := cols;
                   TableIndices := indices; PKIsHandle := false |};
     dsColumns := cols;
     dsTableAsName := tbl;
     dsDBName := "test";
     dsStatisticTable := table1000;
     dsParents := match parent with
                  | Some sel => [ParentSelection sel]
                  | None => [ParentOther]
                  end |}.

Definition tableT : DataSource :=
  dataSource "t" "t" [colA; colB] [columnInfo "a" 0; columnInfo "b" 1] [indexAB] None.
Definition tableU : DataSource :=
  dataSource "u" "u" [colU; colV] [columnInfo "u" 0; columnInfo "v" 1] [] None.

(** The plan info of the table scan of a table of this world under no
    required property: 1000 rows at cost 1500. *)
Definition tableScanInfo (n : DataSource) : physicalPlanInfo :=
  match convert2TableScan externals n emptyProperty with
  | Returned (Some info, _) => info
  | _ => unsatisfiable
  end.

Definition whereFalse : Selection :=
  {| selBase := base "Selection" "sel0" [colA; colB];
     Conditions := [ExprConstant (intDatum 0)];
     onTable := false |}.

Definition whereBadThenFalse : Selection :=
  {| selBase := base "Selection" "sel1" [colA; colB];
     Conditions := [ExprConstant (stringDatum "abc"); ExprConstant (intDatum 0)];
     onTable := false |}.

(** [t] below the filter [WHERE 0]. *)
Definition filteredFalse : DataSource :=
  dataSource "t0" "t" [colA; colB] [columnInfo "a" 0; columnInfo "b" 1] []
    (Some whereFalse).

(** [t] below the filter [WHERE 'abc' AND 0]. *)
Definition filteredBadThenFalse : DataSource :=
  dataSource "t1" "t" [colA; colB] [columnInfo "a" 0; columnInfo "b" 1] []
    (Some whereBadThenFalse).

(** A subtree whose conversion returns an error. *)
Definition failingTree : LogicalTree :=
  TSelection whereBadThenFalse (TDataSource filteredBadThenFalse).

(** [SELECT a, a + b FROM t]. *)
Definition projectSum : Projection :=
  {| projBase := base "Projection" "proj" [out0; out1];
     Exprs := [ExprColumn colA; plus colA colB] |}.
Definition projectSumTree : LogicalTree := TProjection projectSum (TDataSource tableT).

(** [SELECT count FROM t GROUP BY a + b]. *)
Definition groupBySum : Aggregation :=
  {| aggBase := base "Aggregation" "agg0" [out0];
     AggFuncs := [countStar];
     GroupByItems := [plus colA colB];
     groupByCols := [] |}.

(** [SELECT count FROM t GROUP BY a, b]. *)
Definition groupByAB : Aggregation :=
  {| aggBase := base "Aggregation" "agg1" [out0];
     AggFuncs := [countStar];
     GroupByItems := [ExprColumn colA; ExprColumn colB];
     groupByCols := [colA; colB] |}.

Definition semiJoin (jt : JoinType) : Join :=
  {| joinBase := base "Join" "join" [colA; colB];
     JoinTp := jt;
     EqualConditions := [];
     LeftConditions := [];
     RightConditions := [];
     OtherConditions := [];
     anti := false;
     DefaultValues := [] |}.

Definition unionNode : Union := {| unionBase := base "Union" "union" [colA; colB] |}.

Definition applyNode : Apply :=
  {| applyBase := base "Apply" "apply" [colA; colB; colU; colV];
     corCols := [colA];
     applyChecker := None |}.

End Example.

(** * Properties *)

(** ** binary64 facts used below *)

Lemma mul_comm (x y : float64) : mul x y = mul y x.
Proof.
  unfold mul, SFmul.
  destruct x as [sx | sx | | sx mx ex], y as [sy | sy | | sy my ey];
    try reflexivity; try (rewrite xorb_comm; reflexivity).
  rewrite xorb_comm, Pos.mul_comm, Z.add_comm. reflexivity.
Qed.

(** [<] on binary64 is asymmetric. *)
Lemma ltb_asym (x y : float64) : ltb x y = true -> ltb y x = false.
Proof.
  unfold ltb, SFltb, SFcompare.
  destruct x as [sx | sx | | sx mx ex], y as [sy | sy | | sy my ey];
    try discriminate; try reflexivity;
    try (destruct sx; try destruct sy; simpl; congruence).
  destruct sx, sy; try discriminate; try reflexivity.
  - rewrite (Z.compare_antisym ex ey).
    destruct (ex ?= ey) eqn:E; simpl; try discriminate; try reflexivity.
    change (Pos.compare_cont Eq mx my) with (Pos.compare mx my).
    change (Pos.compare_cont Eq my mx) with (Pos.compare my mx).
    rewrite (Pos.compare_antisym mx my).
    destruct (Pos.compare mx my); simpl; congruence.
  - rewrite (Z.compare_antisym ex ey).
    destruct (ex ?= ey) eqn:E; simpl; try discriminate; try reflexivity.
    change (Pos.compare_cont Eq mx my) with (Pos.compare mx my).
    change (Pos.compare_cont Eq my mx) with (Pos.compare my mx).
    rewrite (Pos.compare_antisym mx my).
    destruct (Pos.compare mx my); simpl; congruence.
Qed.

(** ** Sort cost *)

(** C8.  The cost of sorting [n] rows is zero when [n = 0], and
    [n * log2(n) * cpuFactor + n * memoryFactor] when [n > 0], the products and
    the sum being those of binary64 on [float64(n)]. *)
Theorem sortCost_formula (X : Externals) (n : Z) :
  (n = 0 -> sortCost X n = zero) /\
  (0 < n ->
   sortCost X n =
     add (mul (mul (of_Z n) (Log2 X (of_Z n))) cpuFactor)
         (mul (of_Z n) memoryFactor)).
Proof.
  unfold sortCost. split; intros H.
  - subst n. reflexivity.
  - destruct (n =? 0) eqn:E.
    + apply Z.eqb_eq in E. lia.
    + rewrite (mul_comm memoryFactor). reflexivity.
Qed.

(** ** Cardinality of index ranges *)

Lemma scaleRowCount_return table i rowCount err v :
  scaleRowCount table i rowCount err <> Returned (StepReturn (v, None)).
Proof. unfold scaleRowCount. destruct err; discriminate. Qed.

Lemma withColumn_return table offset f v :
  (forall c, f c <> Returned (StepReturn (v, None))) ->
  withColumn table offset f <> Returned (StepReturn (v, None)).
Proof.
  unfold withColumn. intros H. destruct (index (TColumns table) offset); [apply H | discriminate].
Qed.

(** Only the full-table short-circuit leaves the loop without an error. *)
Lemma rangeRowCount_return sc table indexInfo r v :
  rangeRowCount sc table indexInfo r = Returned (StepReturn (v, None)) ->
  coversWholeTable r = true.
Proof.
  unfold rangeRowCount, coversWholeTable.
  destruct (index (LowVal r) _) as [l |]; [| discriminate].
  destruct (index (HighVal r) _) as [h |]; [| discriminate].
  destruct (index (IdxColumns indexInfo) _) as [ic |]; [| discriminate].
  cbv zeta.
  destruct (Kind_eqb (k l) KindNull && Kind_eqb (k h) KindMaxValue); [reflexivity |].
  intros H. exfalso. revert H.
  destruct (Kind_eqb (k l) KindMinNotNull).
  { apply withColumn_return. intros c.
    destruct (EqualRowCount c nullDatum) as [rc err].
    destruct (Kind_eqb (k h) KindMaxValue); [apply scaleRowCount_return |].
    destruct err; [apply scaleRowCount_return |].
    destruct (LessRowCount c h). apply scaleRowCount_return. }
  destruct (Kind_eqb (k h) KindMaxValue).
  { apply withColumn_return. intros c.
    destruct (GreaterRowCount c l). apply scaleRowCount_return. }
  destruct (CompareDatum sc l h) as [cmp [e |]]; [discriminate |].
  apply withColumn_return. intros c.
  destruct (if cmp =? 0 then EqualRowCount c l else BetweenRowCount c l h).
  apply scaleRowCount_return.
Qed.

Lemma sumRanges_return sc table indexInfo ranges total v :
  sumRanges sc table indexInfo ranges total = Returned (StepReturn (v, None)) ->
  existsb coversWholeTable ranges = true.
Proof.
  revert total. induction ranges as [| r rest IH]; intros total; simpl.
  - discriminate.
  - destruct (rangeRowCount sc table indexInfo r) as [[res | c] |] eqn:E;
      try discriminate.
    + intros H. injection H as ->. rewrite (rangeRowCount_return _ _ _ _ _ E).
      reflexivity.
    + intros H. rewrite (IH _ H). apply orb_true_r.
Qed.

(** [uint64(f)] on the values the conversion is defined for, and on the
    others. *)
Lemma to_uint64_cases (f : float64) :
  (forall z, trunc f = Some z -> 0 <= z < 2 ^ 64 -> to_uint64 f = z)
  /\ (forall z, trunc f = Some z -> - 2 ^ 63 <= z < 0 -> to_uint64 f = 2 ^ 64 + z)
  /\ ((forall z, trunc f = Some z -> z < - 2 ^ 63 \/ 2 ^ 64 <= z) -> to_uint64 f = 2 ^ 63).
Proof.
  unfold to_uint64. destruct (trunc f) as [z0 |].
  - split; [| split].
    + intros z H Hz. injection H as ->.
      replace ((- 2 ^ 63 <=? z) && (z <? 2 ^ 64)) with true
        by (symmetry; apply andb_true_iff; split; [apply Z.leb_le | apply Z.ltb_lt]; lia).
      unfold wrap_uint64. apply Z.mod_small. exact Hz.
    + intros z H Hz. injection H as ->.
      replace ((- 2 ^ 63 <=? z) && (z <? 2 ^ 64)) with true
        by (symmetry; apply andb_true_iff; split; [apply Z.leb_le | apply Z.ltb_lt]; lia).
      unfold wrap_uint64. symmetry. apply (Z.mod_unique_pos z (2 ^ 64) (-1)); lia.
    + intros H. destruct (H z0 eq_refl) as [Hz | Hz].
      * replace (- 2 ^ 63 <=? z0) with false by (symmetry; apply Z.leb_gt; lia). reflexivity.
      * replace (z0 <? 2 ^ 64) with false by (symmetry; apply Z.ltb_ge; lia).
        rewrite andb_false_r. reflexivity.
  - split; [| split]; [discriminate | discriminate | reflexivity].
Qed.

(** C1, as amended.  When no range takes the full-table short-circuit and
    the estimate is returned without an error, let the sum of the
    per-range counts be replaced by 1000 if its conversion to uint64 is
    below 1000.  The estimate is the conversion to uint64 of that sum
    when it is not greater than the table count, and it is then at least
    1000; it is the conversion of a third of the table count when the
    sum is greater.  The conversion is the integer part of the float
    whenever that lies in [[0, 2^64)]; an integer part [z] in
    [[-2^63, 0)] gives [2^64 + z], and any other float gives [2^63]. *)
Theorem getRowCountByIndexRanges_floor_or_third
    (sc : StatementContext) (table : StatTable) (ranges : list IndexRange)
    (indexInfo : IndexInfo) (v : Z) :
  existsb coversWholeTable ranges = false ->
  getRowCountByIndexRanges sc table ranges indexInfo = Returned (v, None) ->
  exists total : float64,
    sumRanges sc table indexInfo ranges (of_Z 0) = Returned (StepCount total)
    /\ let raised := if to_uint64 total <? 1000 then of_Z 1000 else total in
       let final := if ltb (of_Z (TCount table)) raised
                    then div (of_Z (TCount table)) (of_Z 3) else raised in
       v = to_uint64 final
       /\ (ltb (of_Z (TCount table)) raised = false -> 1000 <= v)
       /\ (forall z, trunc final = Some z -> 0 <= z < 2 ^ 64 -> v = z)
       /\ (forall z, trunc final = Some z -> - 2 ^ 63 <= z < 0 -> v = 2 ^ 64 + z)
       /\ ((forall z, trunc final = Some z -> z < - 2 ^ 63 \/ 2 ^ 64 <= z) -> v = 2 ^ 63).
Proof.
  intros Hno. unfold getRowCountByIndexRanges.
  destruct (sumRanges sc table indexInfo ranges (of_Z 0)) as [[res | total] |] eqn:E;
    try discriminate.
  - intros H. injection H as ->.
    apply sumRanges_return in E. congruence.
  - cbv zeta. intros H. exists total. split; [reflexivity |]. cbv zeta.
    destruct (to_uint64 total <? 1000) eqn:Hlow.
    + destruct (ltb (of_Z (TCount table)) (of_Z 1000)) eqn:Hgt; injection H as <-;
        (split; [reflexivity |]); (split; [| apply to_uint64_cases]).
      * discriminate.
      * intros _. vm_compute. discriminate.
    + destruct (ltb (of_Z (TCount table)) total) eqn:Hgt; injection H as <-;
        (split; [reflexivity |]); (split; [| apply to_uint64_cases]).
      * discriminate.
      * intros _. apply Z.ltb_ge. exact Hlow.
Qed.

(** C1, refuted as stated.  A table of 10000 rows and the range [a > 5],
    estimated at 5000 rows: the estimate is 5000, above a third of the
    table.  A table of 600 rows and no range: the estimate is 200, below
    [min(1000, 600)].  Neither takes the short-circuit. *)
Lemma getRowCountByIndexRanges_outside_claimed_bounds :
  (getRowCountByIndexRanges Example.sc Example.table10000
     [Example.greaterThan5] Example.indexA = Returned (5000, None)
   /\ existsb coversWholeTable [Example.greaterThan5] = false
   /\ ~ 5000 <= TCount Example.table10000 / 3)
  /\
  (getRowCountByIndexRanges Example.sc Example.table600 [] Example.indexA
     = Returned (200, None)
   /\ ~ Z.min 1000 (TCount Example.table600) <= 200).
Proof.
  repeat split; try reflexivity; vm_compute; intros H; apply H; reflexivity.
Qed.

Lemma getRowCountByIndexRanges_floor_or_third_witness :
  exists total : float64,
    sumRanges Example.sc Example.table10000 Example.indexA [Example.greaterThan5] (of_Z 0)
      = Returned (StepCount total)
    /\ let raised := if to_uint64 total <? 1000 then of_Z 1000 else total in
       let final := if ltb (of_Z 10000) raised then div (of_Z 10000) (of_Z 3) else raised in
       5000 = to_uint64 final
       /\ (ltb (of_Z 10000) raised = false -> 1000 <= 5000)
       /\ (forall z, trunc final = Some z -> 0 <= z < 2 ^ 64 -> 5000 = z)
       /\ (forall z, trunc final = Some z -> - 2 ^ 63 <= z < 0 -> 5000 = 2 ^ 64 + z)
       /\ ((forall z, trunc final = Some z -> z < - 2 ^ 63 \/ 2 ^ 64 <= z) -> 5000 = 2 ^ 63).
Proof.
  apply (getRowCountByIndexRanges_floor_or_third Example.sc Example.table10000
           [Example.greaterThan5] Example.indexA 5000); reflexivity.
Defined.

(** The conversion at work.  Two ranges of [MaxInt64] rows each on a
    table of 10000 rows sum to [2^64]: the sum converts to [2^63], is
    not raised, is greater than the table count, and the estimate is
    3333.  A histogram that counts 10005 NULLs in that table makes the
    range [(NULL, +inf)] without NULL count -5 rows: the estimate is
    [2^64 - 5]. *)
Lemma getRowCountByIndexRanges_conversion_edges :
  getRowCountByIndexRanges Example.sc
    {| TCount := 10000; TColumns := [Example.histogram 1 MaxInt64] |}
    [Example.greaterThan5; Example.greaterThan5] Example.indexA
  = Returned (3333, None)
  /\ getRowCountByIndexRanges Example.sc
       {| TCount := 10000; TColumns := [Example.histogram 10005 0] |}
       [{| LowVal := [Example.minNotNull]; HighVal := [Example.maxValue] |}] Example.indexA
     = Returned (2 ^ 64 - 5, None).
Proof. split; vm_compute; reflexivity. Qed.

Lemma sortCost_formula_witness :
  sortCost Example.externals 8 =
    add (mul (mul (of_Z 8) (Example.floorLog2 (of_Z 8))) cpuFactor)
        (mul (of_Z 8) memoryFactor).
Proof.
  apply (proj2 (sortCost_formula Example.externals 8)). lia.
Defined.

Lemma index_Returned {A : Type} (l : list A) (i : Z) (a : A) :
  index l i = Returned a -> 0 <= i < len l.
Proof.
  unfold index, len. destruct (i <? 0) eqn:E; [discriminate |].
  apply Z.ltb_ge in E.
  destruct (nth_error l (Z.to_nat i)) eqn:N; [| discriminate].
  intros _. assert (Z.to_nat i < List.length l)%nat by (apply nth_error_Some; congruence).
  lia.
Qed.

Lemma index_in_range {A : Type} (l : list A) (i : Z) :
  0 <= i < len l -> exists a, index l i = Returned a.
Proof.
  unfold index, len. intros H. destruct (i <? 0) eqn:E.
  - apply Z.ltb_lt in E. lia.
  - destruct (nth_error l (Z.to_nat i)) eqn:N; [eauto |].
    apply nth_error_None in N. lia.
Qed.

Lemma rangeRowCount_whole_table sc table indexInfo r :
  coversWholeTable r = true ->
  len (LowVal r) <= len (IdxColumns indexInfo) ->
  rangeRowCount sc table indexInfo r
    = Returned (StepReturn (wrap_uint64 (TCount table), None)).
Proof.
  unfold coversWholeTable, rangeRowCount. intros H Hlen.
  destruct (index (LowVal r) _) as [l |] eqn:El; [| discriminate].
  destruct (index (HighVal r) _) as [h |] eqn:Eh; [| discriminate].
  apply index_Returned in El.
  destruct (index_in_range (IdxColumns indexInfo) (len (LowVal r) - 1)) as [o ->]; [lia |].
  cbv zeta. rewrite H. reflexivity.
Qed.

Lemma sumRanges_counted_prefix sc table indexInfo pre rest :
  Forall (fun q => exists c, rangeRowCount sc table indexInfo q = Returned (StepCount c)) pre ->
  forall total, exists total',
    sumRanges sc table indexInfo (pre ++ rest) total
      = sumRanges sc table indexInfo rest total'.
Proof.
  induction 1 as [| q pre [c Hq] _ IH]; intros total; simpl.
  - eauto.
  - rewrite Hq. apply IH.
Qed.

(** C3, as amended.  If a range has [(NULL, +inf)] on its last bound
    dimension (the leading one when the range has a single dimension),
    the index has a column for that dimension, and every range before it
    in the list is estimated without error, the function returns the
    total row count of the table. *)
Theorem getRowCountByIndexRanges_whole_table
    (sc : StatementContext) (table : StatTable) (pre post : list IndexRange)
    (r : IndexRange) (indexInfo : IndexInfo) :
  coversWholeTable r = true ->
  len (LowVal r) <= len (IdxColumns indexInfo) ->
  Forall (fun q => exists c, rangeRowCount sc table indexInfo q = Returned (StepCount c)) pre ->
  0 <= TCount table < 2 ^ 63 ->
  getRowCountByIndexRanges sc table (pre ++ r :: post) indexInfo
    = Returned (TCount table, None).
Proof.
  intros Hr Hlen Hpre HT. unfold getRowCountByIndexRanges.
  destruct (sumRanges_counted_prefix sc table indexInfo pre (r :: post) Hpre (of_Z 0))
    as [total' ->].
  simpl. rewrite (rangeRowCount_whole_table sc table indexInfo r Hr Hlen).
  unfold wrap_uint64. rewrite Z.mod_small by lia. reflexivity.
Qed.

Lemma getRowCountByIndexRanges_whole_table_witness :
  getRowCountByIndexRanges Example.sc Example.table10000
    ([Example.greaterThan5] ++ Example.fullRange :: [Example.mixedRange])
    Example.indexA
  = Returned (10000, None).
Proof.
  apply (getRowCountByIndexRanges_whole_table Example.sc Example.table10000
           [Example.greaterThan5] [Example.mixedRange] Example.fullRange Example.indexA).
  - reflexivity.
  - vm_compute. discriminate.
  - constructor; [| constructor]. eexists. vm_compute. reflexivity.
  - vm_compute. split; [discriminate | reflexivity].
Defined.

(** C3, refuted as stated.  A range whose bounds cannot be compared,
    followed by the full range: the function returns the error.  A range
    of two dimensions whose leading dimension is [(NULL, +inf)] and whose
    last dimension is [3..9]: the estimate is 1000, not the 10000 rows of
    the table. *)
Lemma getRowCountByIndexRanges_leading_full_not_total :
  (leadingCoversWholeTable Example.fullRange = true
   /\ getRowCountByIndexRanges Example.sc Example.table10000
        [Example.mixedRange; Example.fullRange] Example.indexA
      = Returned (0, Some "cannot compare"))
  /\
  (leadingCoversWholeTable Example.leadingFull = true
   /\ getRowCountByIndexRanges Example.sc Example.table10000
        [Example.leadingFull] Example.indexAB
      = Returned (1000, None)
   /\ TCount Example.table10000 = 10000).
Proof. repeat split. Qed.

(** ** Running computations over the store *)

Lemma bind_Returned {A B : Type} (m : M A) (f : A -> M B) s a s' :
  m s = Returned (a, s') -> bind m f s = f a s'.
Proof. unfold bind. intros ->. reflexivity. Qed.

Lemma bind_Panicked {A B : Type} (m : M A) (f : A -> M B) s :
  m s = Panicked -> bind m f s = Panicked.
Proof. unfold bind. intros ->. reflexivity. Qed.

Lemma bind_getPlanInfo {B : Type} node prop (f : planResult -> M B) s :
  bind (getPlanInfo node prop) f s = f (memoized s node prop, None) s.
Proof. reflexivity. Qed.

Lemma String_eqb_refl (a : string) : String.eqb a a = true.
Proof. apply String.eqb_eq. reflexivity. Qed.

Lemma planMapOf_setPlanMap s node m : planMapOf (setPlanMap s node m) node = m.
Proof.
  induction s as [| [n m0] s IH]; simpl.
  - rewrite String_eqb_refl. reflexivity.
  - destruct (String.eqb n node) eqn:E; simpl; rewrite E; auto.
Qed.

Lemma memoized_memoize s node prop info :
  memoized (memoize s node prop info) node prop = Some info.
Proof.
  unfold memoized, memoize. rewrite planMapOf_setPlanMap. simpl.
  destruct (requiredProperty_eq_dec prop prop); congruence.
Qed.

(** ** Apply over an order on inner columns *)

Lemma forallb_not_found (s : Schema) (ps : list columnProp) :
  existsb (fun c => negb (GetIndex s (col c) =? -1)) ps = true ->
  forallb (fun c => GetIndex s (col c) =? -1) ps = false.
Proof.
  induction ps as [| c ps IH]; simpl; [discriminate |].
  destruct (GetIndex s (col c) =? -1); simpl; auto.
Qed.

(** C9.  When the memo of an Apply node has no entry for the property and
    one of the requested columns is found in the schema of the inner
    child, the conversion returns the plan info of cost [MaxFloat64] (the
    code's infinite cost) and no plan.  This holds whatever the
    conversions of the two children would do, and the store is left as it
    was: neither child is converted. *)
Theorem Apply_inner_column_unsatisfiable
    (X : Externals) (n : Apply) (child innerPlan : LogicalPlan)
    (prop : requiredProperty) (s : Store) :
  memoized s (applyBase n) prop = None ->
  existsb (fun c => negb (GetIndex (GetSchema innerPlan) (col c) =? -1)) (props prop) = true ->
  Apply_convert2PhysicalPlan X n child innerPlan prop s
    = Returned ((Some {| p := None; cost := MaxFloat64; count := 0 |}, None), s).
Proof.
  intros Hmiss Hin. unfold Apply_convert2PhysicalPlan.
  rewrite bind_getPlanInfo, Hmiss.
  rewrite (forallb_not_found _ _ Hin). reflexivity.
Qed.

Lemma Apply_inner_column_unsatisfiable_witness :
  Apply_convert2PhysicalPlan Example.externals Example.applyNode
    (logicalPlan Example.externals (TDataSource Example.tableT))
    (logicalPlan Example.externals (TDataSource Example.tableU))
    (Example.orderBy [Example.colU]) []
  = Returned ((Some {| p := None; cost := MaxFloat64; count := 0 |}, None), []).
Proof.
  apply (Apply_inner_column_unsatisfiable Example.externals Example.applyNode
           (logicalPlan Example.externals (TDataSource Example.tableT))
           (logicalPlan Example.externals (TDataSource Example.tableU))
           (Example.orderBy [Example.colU]) []); reflexivity.
Defined.

(** ** Projection over an order on a computed column *)

Lemma GetIndexFrom_range (s : Schema) (c : Column) (i : Z) :
  GetIndexFrom s c i = -1 \/ i <= GetIndexFrom s c i < i + len s.
Proof.
  revert i. induction s as [| c0 s IH]; intros i; simpl.
  - left. reflexivity.
  - unfold len in *. simpl List.length. destruct (Column_eqb c0 c).
    + right. lia.
    + destruct (IH (i + 1)) as [-> | H]; [left; reflexivity | right; lia].
Qed.

Lemma GetIndex_range (s : Schema) (c : Column) :
  GetIndex s c <> -1 -> 0 <= GetIndex s c < len s.
Proof.
  unfold GetIndex. intros H. destruct (GetIndexFrom_range s c 0); [contradiction | lia].
Qed.

Lemma index_In {A : Type} (l : list A) (i : Z) (a : A) :
  index l i = Returned a -> In a l.
Proof.
  unfold index. destruct (i <? 0); [discriminate |].
  destruct (nth_error l (Z.to_nat i)) eqn:N; [| discriminate].
  intros H. injection H as <-. eapply nth_error_In. exact N.
Qed.

Lemma setNth_in_range {A : Type} (l : list A) (i : Z) (a : A) :
  0 <= i < len l -> exists l', setNth l i a = Returned l' /\ len l' = len l.
Proof.
  intros H. unfold setNth.
  destruct (i <? 0) eqn:E1; [apply Z.ltb_lt in E1; lia |].
  destruct (len l <=? i) eqn:E2; [apply Z.leb_le in E2; lia |].
  eexists. split; [reflexivity |].
  unfold len in *. rewrite length_app, length_cons, length_firstn, length_skipn. lia.
Qed.

(** In a well-formed projection the loop over the requested columns
    stops, without a panic, at the first column computed by a scalar
    function. *)
Lemma projectProps_scalar (n : Projection) (childSchema : Schema) (ps : list columnProp) :
  len (Exprs n) = len (schema (projBase n)) ->
  (forall c, In c ps -> GetIndex (schema (projBase n)) (col c) <> -1) ->
  (forall v, In (ExprColumn v) (Exprs n) -> GetIndex childSchema v <> -1) ->
  (exists c f args, In c ps /\
     index (Exprs n) (GetIndex (schema (projBase n)) (col c))
       = Returned (ExprScalarFunction f args)) ->
  forall usedCols newProps keyLen,
    len usedCols = len childSchema ->
    projectProps n childSchema ps usedCols newProps keyLen = Returned None.
Proof.
  intros Hlen. induction ps as [| c ps IH]; intros Hin Hchild Hex usedCols newProps keyLen Hused.
  - destruct Hex as (c & _ & _ & [] & _).
  - simpl.
    assert (Hc : 0 <= GetIndex (schema (projBase n)) (col c) < len (Exprs n)).
    { rewrite Hlen. apply GetIndex_range. apply Hin. left. reflexivity. }
    destruct (index_in_range _ _ Hc) as [e He]. rewrite He.
    assert (Htail : forall c', In c' ps -> GetIndex (schema (projBase n)) (col c') <> -1).
    { intros c' H. apply Hin. right. exact H. }
    assert (Hrest : (forall f args, e <> ExprScalarFunction f args) ->
              exists c' f' args', In c' ps /\
                index (Exprs n) (GetIndex (schema (projBase n)) (col c'))
                  = Returned (ExprScalarFunction f' args')).
    { intros Hne. destruct Hex as (c' & f' & args' & [<- | H] & Hc').
      - rewrite He in Hc'. injection Hc' as ->. exfalso. eapply Hne. reflexivity.
      - eauto 6. }
    destruct e as [v | f args | d].
    + assert (Hv : 0 <= GetIndex childSchema v < len usedCols).
      { rewrite Hused. apply GetIndex_range. apply Hchild. eapply index_In. exact He. }
      unfold isUsed. destruct (index_in_range _ _ Hv) as [b ->].
      destruct b.
      * apply IH; auto. apply Hrest. discriminate.
      * destruct (setNth_in_range usedCols _ true Hv) as (u' & -> & Hu').
        apply IH; auto; [| congruence].
        apply Hrest. discriminate.
    + reflexivity.
    + apply IH; auto. apply Hrest. discriminate.
Qed.

Lemma len_repeat {A B : Type} (a : A) (l : list B) :
  len (repeat a (List.length l)) = len l.
Proof. unfold len. rewrite repeat_length. reflexivity. Qed.

(** C5.  In a well-formed projection (one expression per output column,
    every requested column an output column, every referenced column a
    column of the child) whose memo has no entry for the property, if a
    requested sort column is computed by a scalar function, the
    conversion returns the plan info of cost [MaxFloat64] (the code's
    infinite cost) and no plan, whatever the child's conversion would do,
    and leaves the store as it was. *)
Theorem Projection_computed_column_unsatisfiable
    (n : Projection) (child : LogicalPlan)
    (prop : requiredProperty) (s : Store) :
  memoized s (projBase n) prop = None ->
  len (Exprs n) = len (schema (projBase n)) ->
  (forall c, In c (props prop) -> GetIndex (schema (projBase n)) (col c) <> -1) ->
  (forall v, In (ExprColumn v) (Exprs n) -> GetIndex (GetSchema child) v <> -1) ->
  (exists c f args, In c (props prop) /\
     index (Exprs n) (GetIndex (schema (projBase n)) (col c))
       = Returned (ExprScalarFunction f args)) ->
  Projection_convert2PhysicalPlan n child prop s
    = Returned ((Some {| p := None; cost := MaxFloat64; count := 0 |}, None), s).
Proof.
  intros Hmiss Hlen Hin Hchild Hex. unfold Projection_convert2PhysicalPlan.
  rewrite bind_getPlanInfo, Hmiss.
  rewrite (projectProps_scalar n (GetSchema child) (props prop) Hlen Hin Hchild Hex)
    by apply len_repeat.
  reflexivity.
Qed.

Lemma Projection_computed_column_unsatisfiable_witness :
  Projection_convert2PhysicalPlan Example.projectSum
    (logicalPlan Example.externals (TDataSource Example.tableT))
    (Example.orderBy [Example.out0; Example.out1]) []
  = Returned ((Some {| p := None; cost := MaxFloat64; count := 0 |}, None), []).
Proof.
  apply (Projection_computed_column_unsatisfiable Example.projectSum
           (logicalPlan Example.externals (TDataSource Example.tableT))
           (Example.orderBy [Example.out0; Example.out1]) []).
  - reflexivity.
  - reflexivity.
  - intros c [<- | [<- | []]]; vm_compute; discriminate.
  - intros v [H | [H | []]]; inversion H; subst; vm_compute; discriminate.
  - exists {| col := Example.out1; desc := false |}, "plus"%string,
      [ExprColumn Example.colA; ExprColumn Example.colB].
    split; [right; left; reflexivity | reflexivity].
Defined.

(** ** The dummy scan of a provably empty table *)

Lemma scanConstants_false (X : Externals) (pre post : list Expression) (d : Datum) :
  EvalBool X d = (false, None) ->
  (forall d', In (ExprConstant d') pre -> EvalBool X d' = (true, None)) ->
  scanConstants X (pre ++ ExprConstant d :: post) = ConstantFalse.
Proof.
  intros Hd. induction pre as [| e pre IH]; intros Hpre; simpl.
  - rewrite Hd. reflexivity.
  - destruct e as [c | f args | d'].
    + apply IH. intros d' H. apply Hpre. right. exact H.
    + apply IH. intros d' H. apply Hpre. right. exact H.
    + rewrite (Hpre d') by (left; reflexivity).
      apply IH. intros d'' H. apply Hpre. right. exact H.
Qed.

(** C7, as amended.  Let the parent of a DataSource be a Selection with
    a constant condition that evaluates to false, every constant
    condition before it evaluating to true, and let the memo of the node
    have no entry for the property.  Then, for every property, the
    conversion returns the dummy scan alone (no sort, no limit above it)
    with cost zero and count zero, and the store it leaves holds this
    plan info under the property. *)
Theorem DataSource_constant_false_dummy_scan
    (X : Externals) (n : DataSource) (prop : requiredProperty) (s : Store)
    (sel : Selection) (pre post : list Expression) (d : Datum) :
  memoized s (dsBase n) prop = None ->
  dsParent n = Some sel ->
  Conditions sel = pre ++ ExprConstant d :: post ->
  EvalBool X d = (false, None) ->
  (forall d', In (ExprConstant d') pre -> EvalBool X d' = (true, None)) ->
  let info := {| p := Some (Plan "Dummy" PhysicalDummyScan false (schema (dsBase n)) []);
                 cost := zero;
                 count := 0 |} in
  exists s',
    DataSource_convert2PhysicalPlan X n prop s = Returned ((Some info, None), s')
    /\ memoized s' (dsBase n) prop = Some info.
Proof.
  intros Hmiss Hparent Hconds Hd Hpre info.
  exists (memoize s (dsBase n) prop info). split.
  - unfold DataSource_convert2PhysicalPlan.
    rewrite bind_getPlanInfo, Hmiss.
    unfold tryToConvert2DummyScan. rewrite Hparent, Hconds.
    rewrite (scanConstants_false X pre post d Hd Hpre). reflexivity.
  - apply memoized_memoize.
Qed.

Lemma DataSource_constant_false_dummy_scan_witness :
  exists s',
    DataSource_convert2PhysicalPlan Example.externals Example.filteredFalse
      {| props := [{| col := Example.colB; desc := true |}];
         sortKeyLen := 1;
         limit := Some {| Offset := 10; Count := 5 |} |} []
    = Returned
        ((Some {| p := Some (Plan "Dummy" PhysicalDummyScan false
                               [Example.colA; Example.colB] []);
                  cost := zero;
                  count := 0 |}, None), s')
    /\ memoized s' (dsBase Example.filteredFalse)
         {| props := [{| col := Example.colB; desc := true |}];
            sortKeyLen := 1;
            limit := Some {| Offset := 10; Count := 5 |} |}
       = Some {| p := Some (Plan "Dummy" PhysicalDummyScan false
                              [Example.colA; Example.colB] []);
                 cost := zero;
                 count := 0 |}.
Proof.
  apply (DataSource_constant_false_dummy_scan Example.externals Example.filteredFalse
           {| props := [{| col := Example.colB; desc := true |}];
              sortKeyLen := 1;
              limit := Some {| Offset := 10; Count := 5 |} |} []
           Example.whereFalse [] [] (Example.intDatum 0)).
  - reflexivity.
  - reflexivity.
  - reflexivity.
  - reflexivity.
  - intros d' [].
Defined.

(** C7, refuted as stated.  Below the filter [WHERE 'abc' AND 0] the
    second condition is a constant that evaluates to false, but the
    first one cannot be evaluated: the conversion returns that error and
    no plan, and stores nothing. *)
Lemma DataSource_constant_false_after_error :
  In (ExprConstant (Example.intDatum 0))
     [ExprConstant (Example.stringDatum "abc"); ExprConstant (Example.intDatum 0)]
  /\ EvalBool Example.externals (Example.intDatum 0) = (false, None)
  /\ option_map Conditions (dsParent Example.filteredBadThenFalse)
       = Some [ExprConstant (Example.stringDatum "abc"); ExprConstant (Example.intDatum 0)]
  /\ DataSource_convert2PhysicalPlan Example.externals Example.filteredBadThenFalse
       emptyProperty []
     = Returned ((None, Some "cannot convert to bool"), []).
Proof. repeat split. right. left. reflexivity. Qed.

(** ** Errors of a child in Union and Apply *)

(** C10, the code at the failing input.  A child whose conversion
    returns an error returns no plan info with it.  Union reads the count
    of that plan info, and Apply writes its plan, before the error is
    tested: as the first branch of a Union, or as the inner plan of an
    Apply whose requested columns all come from the outer side, such a
    child makes the conversion panic instead of returning the error. *)
Theorem Union_Apply_child_error_panics
    (X : Externals) (u : Union) (a : Apply) (failing outer : LogicalPlan)
    (rest : list LogicalPlan) (prop : requiredProperty) (s s' : Store) (e : error) :
  memoized s (unionBase u) prop = None ->
  memoized s (applyBase a) prop = None ->
  forallb (fun c => GetIndex (GetSchema failing) (col c) =? -1) (props prop) = true ->
  (forall q, convert2PhysicalPlan failing q s = Returned ((None, Some e), s')) ->
  Union_convert2PhysicalPlan X u (failing :: rest) prop s = Panicked
  /\ Apply_convert2PhysicalPlan X a outer failing prop s = Panicked.
Proof.
  intros Hu Ha Houter Hfail. split.
  - unfold Union_convert2PhysicalPlan. rewrite bind_getPlanInfo, Hu.
    apply bind_Panicked. simpl.
    unfold bind at 1.
    destruct (lift (unionChildProps (schema (unionBase u)) (GetSchema failing) (props prop)) s)
      as [[newProps s0] |] eqn:E; [| reflexivity].
    assert (s0 = s) as ->.
    { unfold lift in E. destruct (unionChildProps _ _ _); [| discriminate].
      unfold ret in E. congruence. }
    unfold bind at 1. rewrite Hfail. reflexivity.
  - unfold Apply_convert2PhysicalPlan. rewrite bind_getPlanInfo, Ha, Houter.
    simpl. unfold bind at 1. rewrite Hfail. reflexivity.
Qed.

Lemma Union_Apply_child_error_panics_witness :
  Union_convert2PhysicalPlan Example.externals Example.unionNode
    [logicalPlan Example.externals Example.failingTree] emptyProperty [] = Panicked
  /\ Apply_convert2PhysicalPlan Example.externals Example.applyNode
       (logicalPlan Example.externals (TDataSource Example.tableT))
       (logicalPlan Example.externals Example.failingTree) emptyProperty [] = Panicked.
Proof.
  apply (Union_Apply_child_error_panics Example.externals Example.unionNode
           Example.applyNode (logicalPlan Example.externals Example.failingTree)
           (logicalPlan Example.externals (TDataSource Example.tableT))
           [] emptyProperty [] [] "cannot convert to bool"%string).
  - reflexivity.
  - reflexivity.
  - reflexivity.
  - intros q. reflexivity.
Defined.

(** ** Row count of a semi join *)

(** Enforcing a property keeps the count, or lowers it to the count of
    the requested limit. *)
Lemma enforceProperty_count (X : Externals) (prop : requiredProperty)
    (info : physicalPlanInfo) :
  count (enforceProperty X prop info) = count info
  \/ exists l, limit prop = Some l /\ Count l < count info
               /\ count (enforceProperty X prop info) = Count l.
Proof.
  unfold enforceProperty. destruct (p info) as [ip |]; [| left; reflexivity].
  destruct (negb (len (props prop) =? 0)); destruct (limit prop) as [l |];
    simpl; try (left; reflexivity).
  - destruct (Count l <? count info) eqn:E; simpl; [| left; reflexivity].
    right. exists l. apply Z.ltb_lt in E. auto.
  - destruct (Count l <? count info) eqn:E; simpl; [| left; reflexivity].
    right. exists l. apply Z.ltb_lt in E. auto.
Qed.

(** The count that [enforceProperty] leaves, and the plan it keeps nil. *)
Lemma enforceProperty_exact (X : Externals) (prop : requiredProperty)
    (info : physicalPlanInfo) :
  count (enforceProperty X prop info)
  = match limit prop, p info with
    | Some l, Some _ => if Count l <? count info then Count l else count info
    | _, _ => count info
    end
  /\ (p (enforceProperty X prop info) = None <-> p info = None).
Proof.
  unfold enforceProperty. destruct (p info) as [ip |] eqn:Hp.
  - destruct (negb (len (props prop) =? 0)); destruct (limit prop) as [l |]; simpl;
      try (destruct (Count l <? count info)); simpl; rewrite ?Hp;
      (split; [reflexivity | split; discriminate]).
  - destruct (limit prop); rewrite Hp; split; try reflexivity; split; auto.
Qed.

(** C4, as amended.  When both children of a semi join are converted
    without error, the estimated count of the result starts from the
    count of the left side: times [selectionFactor], converted to
    uint64, for the semi join without the auxiliary marker, and
    unchanged for the semi join with the marker.  A requested limit with
    a smaller count replaces it when the plan of the result is not nil
    and a property is enforced above the join, which is the case when a
    requested column is not a column of the left side or the join has no
    marker.  A semi join with the marker whose requested columns are all
    columns of the left side keeps the count of the left side whatever
    the limit. *)
Theorem Join_semi_row_count
    (X : Externals) (n : Join) (lChild rChild : LogicalPlan)
    (prop : requiredProperty) (s s1 s2 : Store) (lInfo rInfo : physicalPlanInfo) :
  let allLeft := allInSchema (GetSchema lChild) (props prop) in
  let lProp := if allLeft then prop else emptyProperty in
  let lProp := if JoinType_eqb (JoinTp n) SemiJoin then removeLimit lProp else lProp in
  let estimate :=
    if JoinType_eqb (JoinTp n) SemiJoin
    then to_uint64 (mul (of_Z (count lInfo)) selectionFactor)
    else count lInfo in
  let enforced := negb allLeft || JoinType_eqb (JoinTp n) SemiJoin in
  convert2PhysicalPlan lChild lProp s = Returned ((Some lInfo, None), s1) ->
  convert2PhysicalPlan rChild emptyProperty s1 = Returned ((Some rInfo, None), s2) ->
  exists info,
    Join_convert2PhysicalPlanSemi X n lChild rChild prop s = Returned ((Some info, None), s2)
    /\ count info
       = match limit prop, p info with
         | Some l, Some _ =>
             if enforced && (Count l <? estimate) then Count l else estimate
         | _, _ => estimate
         end.
Proof.
  intros allLeft lProp0 lProp estimate enforced Hl Hr.
  unfold Join_convert2PhysicalPlanSemi.
  fold allLeft. fold lProp0. fold lProp.
  rewrite (bind_Returned _ _ _ _ _ Hl). cbv beta iota.
  rewrite (bind_Returned _ _ _ _ _ Hr). cbv beta iota.
  unfold deref, bind, ret. cbv beta iota zeta.
  eexists. split; [reflexivity |].
  unfold estimate, enforced.
  destruct (JoinType_eqb (JoinTp n) SemiJoin); destruct allLeft;
    cbv beta iota delta [negb orb];
    try match goal with
        | |- context [enforceProperty X ?q ?i] =>
            destruct (enforceProperty_exact X q i) as [-> Hnil];
            destruct (p (enforceProperty X q i)) as [top |] eqn:Htop;
            [ destruct (p i) as [ip |] eqn:Hip;
              [| exfalso; assert (H : @None PhysicalPlan = None) by reflexivity;
                 apply Hnil in H; discriminate]
            | rewrite (proj1 Hnil eq_refl) ]
        end;
    simpl; destruct (limit prop) as [l |]; try reflexivity.
  destruct (p (matchProperty X _ prop [lInfo; rInfo])); reflexivity.
Qed.

Lemma Join_semi_row_count_witness :
  (exists info s2,
     Join_convert2PhysicalPlanSemi Example.externals (Example.semiJoin SemiJoin)
       (logicalPlan Example.externals (TDataSource Example.tableT))
       (logicalPlan Example.externals (TDataSource Example.tableU))
       (limitProperty (Some {| Offset := 0; Count := 10 |})) []
     = Returned ((Some info, None), s2)
     /\ count info = 10)
  /\ (exists info s2,
        Join_convert2PhysicalPlanSemi Example.externals (Example.semiJoin SemiJoinWithAux)
          (logicalPlan Example.externals (TDataSource Example.tableT))
          (logicalPlan Example.externals (TDataSource Example.tableU))
          (limitProperty (Some {| Offset := 0; Count := 10 |})) []
        = Returned ((Some info, None), s2)
        /\ count info = 1000).
Proof.
  split.
  - evar (lInfo : physicalPlanInfo). evar (rInfo : physicalPlanInfo).
    evar (s1 : Store). evar (s2 : Store).
    assert (Hl : convert2PhysicalPlan
                   (logicalPlan Example.externals (TDataSource Example.tableT))
                   emptyProperty [] = Returned ((Some lInfo, None), s1))
      by (vm_compute; reflexivity).
    assert (Hr : convert2PhysicalPlan
                   (logicalPlan Example.externals (TDataSource Example.tableU))
                   emptyProperty s1 = Returned ((Some rInfo, None), s2))
      by (vm_compute; reflexivity).
    destruct (Join_semi_row_count Example.externals (Example.semiJoin SemiJoin)
                (logicalPlan Example.externals (TDataSource Example.tableT))
                (logicalPlan Example.externals (TDataSource Example.tableU))
                (limitProperty (Some {| Offset := 0; Count := 10 |})) [] s1 s2 lInfo rInfo
                Hl Hr) as (info & Hrun & Hcount).
    exists info, s2. split; [exact Hrun |].
    rewrite Hcount. vm_compute in Hrun. injection Hrun as <-. reflexivity.
  - evar (lInfo : physicalPlanInfo). evar (rInfo : physicalPlanInfo).
    evar (s1 : Store). evar (s2 : Store).
    assert (Hl : convert2PhysicalPlan
                   (logicalPlan Example.externals (TDataSource Example.tableT))
                   (limitProperty (Some {| Offset := 0; Count := 10 |})) []
                 = Returned ((Some lInfo, None), s1))
      by (vm_compute; reflexivity).
    assert (Hr : convert2PhysicalPlan
                   (logicalPlan Example.externals (TDataSource Example.tableU))
                   emptyProperty s1 = Returned ((Some rInfo, None), s2))
      by (vm_compute; reflexivity).
    destruct (Join_semi_row_count Example.externals (Example.semiJoin SemiJoinWithAux)
                (logicalPlan Example.externals (TDataSource Example.tableT))
                (logicalPlan Example.externals (TDataSource Example.tableU))
                (limitProperty (Some {| Offset := 0; Count := 10 |})) [] s1 s2 lInfo rInfo
                Hl Hr) as (info & Hrun & Hcount).
    exists info, s2. split; [exact Hrun |].
    rewrite Hcount. vm_compute in Hrun. injection Hrun as <-. reflexivity.
Defined.

(** C4, refuted as stated.  A semi join with the auxiliary marker over a
    left side of 1000 rows: the estimated count is 1000, not the 800 rows
    that [selectionFactor] gives. *)
Lemma Join_semi_with_aux_keeps_count :
  (match convert2PhysicalPlan
           (logicalPlan Example.externals (TDataSource Example.tableT))
           emptyProperty [] with
   | Returned ((Some lInfo, None), _) => Some (count lInfo)
   | _ => None
   end) = Some 1000
  /\
  (match Join_convert2PhysicalPlanSemi Example.externals
           (Example.semiJoin SemiJoinWithAux)
           (logicalPlan Example.externals (TDataSource Example.tableT))
           (logicalPlan Example.externals (TDataSource Example.tableU))
           emptyProperty [] with
   | Returned ((Some info, None), _) => Some (count info)
   | _ => None
   end) = Some 1000
  /\ to_uint64 (mul (of_Z 1000) selectionFactor) = 800.
Proof. repeat split. Qed.

(** ** The two strategies of an aggregation *)

Lemma len_cons_nonzero {A : Type} (a : A) (l : list A) : (len (a :: l) =? 0) = false.
Proof. apply Z.eqb_neq. unfold len. simpl List.length. lia. Qed.

(** C2, as amended.  On a conversion that the memo does not answer:
    when the property requests no order, both strategies are evaluated
    and the streamed one is kept only if its cost is strictly lower, so
    that the other candidate is never cheaper than the kept one; when the
    property requests an order, the streamed strategy alone is evaluated
    and its result is returned whatever its cost.  In both cases the
    limit is enforced above the kept candidate and the result is stored. *)
Theorem Aggregation_strategy_choice
    (X : Externals) (n : Aggregation) (child : LogicalPlan)
    (prop : requiredProperty) (s : Store) :
  memoized s (aggBase n) prop = None ->
  match props prop with
  | [] =>
      forall hashInfo s1 streamInfo s2,
        Aggregation_convert2PhysicalPlanHash X n child s
          = Returned ((Some hashInfo, None), s1) ->
        Aggregation_convert2PhysicalPlanStream n child (removeLimit prop) s1
          = Returned ((Some streamInfo, None), s2) ->
        let kept := if ltb (cost streamInfo) (cost hashInfo) then streamInfo else hashInfo in
        let other := if ltb (cost streamInfo) (cost hashInfo) then hashInfo else streamInfo in
        let result := enforceProperty X (limitProperty (limit prop)) kept in
        ltb (cost other) (cost kept) = false
        /\ Aggregation_convert2PhysicalPlan X n child prop s
           = Returned ((Some result, None), memoize s2 (aggBase n) prop result)
  | _ :: _ =>
      forall streamInfo s2,
        Aggregation_convert2PhysicalPlanStream n child (removeLimit prop) s
          = Returned ((Some streamInfo, None), s2) ->
        let result := enforceProperty X (limitProperty (limit prop)) streamInfo in
        Aggregation_convert2PhysicalPlan X n child prop s
          = Returned ((Some result, None), memoize s2 (aggBase n) prop result)
  end.
Proof.
  intros Hmiss. unfold Aggregation_convert2PhysicalPlan.
  destruct (props prop) as [| c ps] eqn:Hprops.
  - intros hashInfo s1 streamInfo s2 Hhash Hstream.
    split.
    + destruct (ltb (cost streamInfo) (cost hashInfo)) eqn:E; [| exact E].
      apply ltb_asym. exact E.
    + rewrite bind_getPlanInfo, Hmiss. change (len [] =? 0) with true. cbv iota.
      rewrite (bind_Returned _ _ _ _ _ Hhash). cbv beta iota.
      rewrite (bind_Returned _ _ _ _ _ Hstream). reflexivity.
  - intros streamInfo s2 Hstream.
    rewrite bind_getPlanInfo, Hmiss, len_cons_nonzero. cbv iota.
    unfold bind at 1. unfold ret at 1. cbv beta iota.
    rewrite (bind_Returned _ _ _ _ _ Hstream). reflexivity.
Qed.

Lemma Aggregation_strategy_choice_witness :
  exists result s2,
    Aggregation_convert2PhysicalPlan Example.externals Example.groupByAB
      (logicalPlan Example.externals (TDataSource Example.tableT)) emptyProperty []
    = Returned ((Some result, None),
                memoize s2 (aggBase Example.groupByAB) emptyProperty result)
    /\ cost result = zero.
Proof.
  eexists. eexists. split.
  - refine (proj2 (Aggregation_strategy_choice Example.externals Example.groupByAB
                     (logicalPlan Example.externals (TDataSource Example.tableT))
                     emptyProperty [] eq_refl _ _ _ _ _ _)).
    + vm_compute. reflexivity.
    + vm_compute. reflexivity.
  - reflexivity.
Defined.

(** C2, refuted as stated.  Under a requested order the hashed strategy
    is not a candidate.  Grouping by [a + b] under a requested order: the
    streamed strategy does not apply, and its plan info of cost
    [MaxFloat64] is returned although the hashed strategy costs less.
    Grouping by [a, b] over a child that delivers the order [a, b], under
    that requested order: stream aggregation is returned with cost 3900,
    which is not lower than the cost, zero, of the hashed alternative. *)
Lemma Aggregation_ordered_ignores_hash :
  (exists info s' hashInfo s1,
     Aggregation_convert2PhysicalPlan Example.externals Example.groupBySum
       (logicalPlan Example.externals (TDataSource Example.tableT))
       (Example.orderBy [Example.out0]) []
     = Returned ((Some info, None), s')
     /\ cost info = MaxFloat64
     /\ Aggregation_convert2PhysicalPlanHash Example.externals Example.groupBySum
          (logicalPlan Example.externals (TDataSource Example.tableT)) []
        = Returned ((Some hashInfo, None), s1)
     /\ ltb (cost hashInfo) (cost info) = true)
  /\
  (exists info s' streamPlan hashInfo s1,
     Aggregation_convert2PhysicalPlan Example.externals Example.groupByAB
       (logicalPlan Example.externals (TDataSource Example.tableT))
       (Example.orderBy [Example.colA; Example.colB]) []
     = Returned ((Some info, None), s')
     /\ p info = Some streamPlan
     /\ PlanOp streamPlan
        = PhysicalAggregation
            {| paAggType := StreamedAgg;
               paAggFuncs := AggFuncs Example.groupByAB;
               paGroupByItems := GroupByItems Example.groupByAB;
               paHasGby := true |}
     /\ cost info = of_Z 3900
     /\ Aggregation_convert2PhysicalPlanHash Example.externals Example.groupByAB
          (logicalPlan Example.externals (TDataSource Example.tableT)) []
        = Returned ((Some hashInfo, None), s1)
     /\ cost hashInfo = zero
     /\ ltb (cost info) (cost hashInfo) = false).
Proof.
  split.
  - do 4 eexists. split; [vm_compute; reflexivity |].
    split; [reflexivity |].
    split; [vm_compute; reflexivity |]. reflexivity.
  - do 5 eexists. split; [vm_compute; reflexivity |].
    split; [reflexivity |].
    split; [reflexivity |].
    split; [reflexivity |].
    split; [vm_compute; reflexivity |].
    split; reflexivity.
Qed.

(** ** The memo *)

Lemma records_bind {A : Type} node prop (m : M A) (f : A -> M planResult) :
  (forall a, records node prop (f a)) -> records node prop (bind m f).
Proof.
  intros H s info s1. unfold bind. destruct (m s) as [[a s'] |]; [| discriminate].
  apply H.
Qed.

Lemma records_ret_nil node prop (e : option error) : records node prop (ret (None, e)).
Proof. intros s info s1. unfold ret. discriminate. Qed.

Lemma records_ret_error node prop (i : option physicalPlanInfo) (e : error) :
  records node prop (ret (i, Some e)).
Proof. intros s info s1. unfold ret. discriminate. Qed.

Lemma records_panic node prop : records node prop panic.
Proof. intros s info s1. unfold panic. discriminate. Qed.

Lemma records_store node prop (o : option physicalPlanInfo) :
  records node prop (bind (storePlanInfo node prop o) (fun _ => ret (o, None))).
Proof.
  intros s info s1. destruct o as [i |]; [| discriminate].
  unfold bind, storePlanInfo, ret. intros H. injection H as <- <-.
  apply memoized_memoize.
Qed.

Lemma records_store_error node prop (o : option physicalPlanInfo) :
  records node prop (bind (storePlanInfo node prop o) (fun err => ret (o, err))).
Proof.
  intros s info s1. destruct o as [i |]; [| discriminate].
  unfold bind, storePlanInfo, ret. intros H. injection H as <- <-.
  apply memoized_memoize.
Qed.

(** One step through a computation that ends by recording its result. *)
Ltac records_step :=
  first
    [ apply records_ret_nil
    | apply records_ret_error
    | apply records_panic
    | apply records_store
    | apply records_store_error
    | apply records_bind; intros
    | match goal with
      | |- records _ _ (match ?x with _ => _ end) => destruct x
      end ].

(** The prologue of every conversion: an entry of the memo is returned
    as it is; what is left is the conversion proper. *)
Ltac records_memo :=
  intros s info s1; rewrite bind_getPlanInfo;
  let Hm := fresh "Hm" in
  destruct (memoized s _ _) eqn:Hm; cbv beta iota;
  [ unfold ret; intros H; injection H as <- <-; exact Hm
  | clear Hm; revert s info s1;
    match goal with
    | |- forall s info s1, ?m s = _ -> memoized s1 ?node ?prop = _ =>
        change (records node prop m)
    end ].

Lemma Limit_records X n child prop :
  records (limBase n) prop (Limit_convert2PhysicalPlan X n child prop).
Proof. unfold Limit_convert2PhysicalPlan. records_memo. repeat records_step. Qed.

Lemma Join_records X n lChild rChild prop :
  records (joinBase n) prop (Join_convert2PhysicalPlan X n lChild rChild prop).
Proof. unfold Join_convert2PhysicalPlan. records_memo. repeat records_step. Qed.

Lemma Aggregation_records X n child prop :
  records (aggBase n) prop (Aggregation_convert2PhysicalPlan X n child prop).
Proof. unfold Aggregation_convert2PhysicalPlan. records_memo. repeat records_step. Qed.

Lemma Union_records X n children prop :
  records (unionBase n) prop (Union_convert2PhysicalPlan X n children prop).
Proof. unfold Union_convert2PhysicalPlan. records_memo. repeat records_step. Qed.

Lemma Selection_records X n child prop :
  records (selBase n) prop (Selection_convert2PhysicalPlan X n child prop).
Proof. unfold Selection_convert2PhysicalPlan. records_memo. repeat records_step. Qed.

Lemma Sort_records X n child prop :
  records (sortBase n) prop (Sort_convert2PhysicalPlan X n child prop).
Proof. unfold Sort_convert2PhysicalPlan. records_memo. repeat records_step. Qed.

Lemma Distinct_records X n child prop :
  records (distBase n) prop (Distinct_convert2PhysicalPlan X n child prop).
Proof. unfold Distinct_convert2PhysicalPlan. records_memo. repeat records_step. Qed.

Lemma records_bind_ret {A : Type} node prop (a : A) (f : A -> M planResult) :
  records node prop (f a) -> records node prop (bind (ret a) f).
Proof. intros H s info s1. unfold bind, ret. apply H. Qed.

Lemma records_bind_lift {A : Type} node prop (o : outcome A) (f : A -> M planResult) :
  (forall a, o = Returned a -> records node prop (f a)) ->
  records node prop (bind (lift o) f).
Proof.
  intros H. destruct o as [a |].
  - apply records_bind_ret. apply H. reflexivity.
  - intros s info s1. unfold bind, lift, panic. discriminate.
Qed.

Lemma Projection_records n child prop :
  projectProps n (GetSchema child) (props prop)
    (repeat false (List.length (GetSchema child))) [] (sortKeyLen prop) <> Returned None ->
  records (projBase n) prop (Projection_convert2PhysicalPlan n child prop).
Proof.
  intros Hpass. unfold Projection_convert2PhysicalPlan. records_memo.
  apply records_bind_lift. intros [[newProps keyLen] |] E; [| congruence].
  repeat records_step.
Qed.

Lemma Apply_records X n child innerPlan prop :
  forallb (fun c => GetIndex (GetSchema innerPlan) (col c) =? -1) (props prop) = true ->
  records (applyBase n) prop (Apply_convert2PhysicalPlan X n child innerPlan prop).
Proof.
  intros Houter. unfold Apply_convert2PhysicalPlan. records_memo.
  rewrite Houter. cbv beta iota delta [negb]. repeat records_step.
Qed.

Lemma DataSource_records X n prop :
  records (dsBase n) prop (DataSource_convert2PhysicalPlan X n prop).
Proof.
  unfold DataSource_convert2PhysicalPlan. records_memo.
  unfold tryToConvert2DummyScan.
  destruct (dsParent n) as [sel |]; [destruct (scanConstants X (Conditions sel)) |].
  - apply records_bind_ret. apply records_ret_error.
  - intros s info s1. unfold bind, storePlanInfo, ret. cbv beta iota.
    intros H. injection H as <- <-. apply memoized_memoize.
  - apply records_bind_ret. cbv beta iota. repeat records_step.
  - apply records_bind_ret. cbv beta iota. repeat records_step.
Qed.

(** An entry of the memo answers the conversion of the node, whatever
    its kind, its children and the externals are. *)
Lemma convert_hit X t prop s info :
  memoized s (baseOf t) prop = Some info ->
  convert X t prop s = Returned ((Some info, None), s).
Proof.
  intros H. destruct t; simpl in *;
    [ unfold DataSource_convert2PhysicalPlan
    | unfold Selection_convert2PhysicalPlan
    | unfold Projection_convert2PhysicalPlan
    | unfold Join_convert2PhysicalPlan
    | unfold Aggregation_convert2PhysicalPlan
    | unfold Sort_convert2PhysicalPlan
    | unfold Limit_convert2PhysicalPlan
    | unfold Union_convert2PhysicalPlan
    | unfold Distinct_convert2PhysicalPlan
    | unfold Apply_convert2PhysicalPlan ];
    rewrite bind_getPlanInfo, H; reflexivity.
Qed.

Lemma convert_records X t prop :
  leavesUnrecorded t prop = false ->
  records (baseOf t) prop (convert X t prop).
Proof.
  intros H. destruct t; simpl in H |- *.
  - apply DataSource_records.
  - apply Selection_records.
  - apply Projection_records. simpl.
    destruct (projectProps _ _ _ _ _ _) as [[r |] |]; congruence.
  - apply Join_records.
  - apply Aggregation_records.
  - apply Sort_records.
  - apply Limit_records.
  - apply Union_records.
  - apply Distinct_records.
  - apply Apply_records. simpl. apply negb_false_iff. exact H.
Qed.

(** C6, as amended.  For every logical node and every property, after a
    conversion that returned a plan info without error, other than the
    early return of a Projection or of an Apply on an order they cannot
    pass down (which returns the plan info of infinite cost without
    recording it), the memo of the node holds the returned plan info
    under the property, and a second conversion under an equal property
    returns that plan info and leaves the store as it is.  The second
    answer is the same whatever the children of the node and the
    externals are: nothing is converted again. *)
Theorem convert_twice_memoized
    (X : Externals) (t : LogicalTree) (prop : requiredProperty)
    (s s1 : Store) (info : physicalPlanInfo) :
  convert X t prop s = Returned ((Some info, None), s1) ->
  leavesUnrecorded t prop = false ->
  memoized s1 (baseOf t) prop = Some info
  /\ convert X t prop s1 = Returned ((Some info, None), s1)
  /\ (forall X' t', baseOf t' = baseOf t ->
        convert X' t' prop s1 = Returned ((Some info, None), s1)).
Proof.
  intros Hfirst Hrec.
  assert (Hm : memoized s1 (baseOf t) prop = Some info).
  { exact (convert_records X t prop Hrec s info s1 Hfirst). }
  split; [exact Hm |]. split.
  - apply convert_hit. exact Hm.
  - intros X' t' Hbase. apply convert_hit. rewrite Hbase. exact Hm.
Qed.

Lemma convert_twice_memoized_witness :
  exists info s1,
    convert Example.externals
      (TJoin (Example.semiJoin InnerJoin) (TDataSource Example.tableT)
             (TDataSource Example.tableU))
      emptyProperty [] = Returned ((Some info, None), s1)
    /\ memoized s1 (joinBase (Example.semiJoin InnerJoin)) emptyProperty = Some info
    /\ convert Example.externals
         (TJoin (Example.semiJoin InnerJoin) (TDataSource Example.tableT)
                (TDataSource Example.tableU))
         emptyProperty s1 = Returned ((Some info, None), s1).
Proof.
  evar (info : physicalPlanInfo). evar (s1 : Store).
  assert (Hfirst :
    convert Example.externals
      (TJoin (Example.semiJoin InnerJoin) (TDataSource Example.tableT)
             (TDataSource Example.tableU))
      emptyProperty [] = Returned ((Some info, None), s1)).
  { vm_compute. reflexivity. }
  exists info, s1.
  split; [exact Hfirst |].
  destruct (convert_twice_memoized Example.externals _ _ _ _ _ Hfirst eq_refl)
    as (Hm & Hsecond & _).
  split; [exact Hm | exact Hsecond].
Defined.

(** C6, refuted as stated.  The projection [SELECT a, a + b] asked for
    the order of its second column returns the plan info of infinite cost
    and leaves the store empty: nothing is memoized under the property,
    and a second call computes its answer again. *)
Lemma Projection_unsatisfiable_not_memoized :
  convert Example.externals Example.projectSumTree
    (Example.orderBy [Example.out1]) []
  = Returned ((Some {| p := None; cost := MaxFloat64; count := 0 |}, None), [])
  /\ memoized [] (baseOf Example.projectSumTree) (Example.orderBy [Example.out1]) = None
  /\ leavesUnrecorded Example.projectSumTree (Example.orderBy [Example.out1]) = true.
Proof. repeat split. Qed.

(** * Further properties of the conversion rules *)

(** ** More binary64 facts *)

Ltac pos_compare :=
  repeat match goal with
         | |- context [Pos.compare_cont Eq ?a ?b] =>
             change (Pos.compare_cont Eq a b) with (Pos.compare a b)
         end.

(** [<] on binary64 is transitive. *)
Lemma ltb_trans (x y z : float64) :
  ltb x y = true -> ltb y z = true -> ltb x z = true.
Proof.
  unfold ltb, SFltb, SFcompare.
  destruct x as [sx | sx | | sx mx ex], y as [sy | sy | | sy my ey],
           z as [sz | sz | | sz mz ez];
    try discriminate;
    repeat match goal with s : bool |- _ => destruct s end;
    try discriminate; try reflexivity; pos_compare;
    destruct (Z.compare_spec ex ey), (Z.compare_spec ey ez), (Z.compare_spec ex ez);
    try discriminate; try reflexivity; try lia; subst;
    destruct (Pos.compare_spec mx my), (Pos.compare_spec my mz), (Pos.compare_spec mx mz);
    simpl; try discriminate; try reflexivity; try lia.
Qed.

(** ** Cardinality of handle ranges *)

Lemma wrap_uint64_range (z : Z) : 0 <= wrap_uint64 z < 2 ^ 64.
Proof. unfold wrap_uint64. apply Z.mod_pos_bound. lia. Qed.

Lemma zero_uint64 : 0 <= 0 < 2 ^ 64.
Proof. split; [apply Z.le_refl | reflexivity]. Qed.

Lemma sumTableRanges_result statsTbl offset ranges rowCount v err :
  0 <= rowCount < 2 ^ 64 ->
  sumTableRanges statsTbl offset ranges rowCount = Returned (v, err) ->
  match err with
  | None => 0 <= v < 2 ^ 64
  | Some _ => v = 0
  end.
Proof.
  revert rowCount. induction ranges as [| rg rest IH]; intros rowCount Hrc; simpl.
  - intros H. injection H as <- <-. exact Hrc.
  - destruct (tableRangeRowCount statsTbl offset rg) as [[cnt [e |]] |]; try discriminate.
    + intros H. injection H as <- <-. reflexivity.
    + apply IH. apply wrap_uint64_range.
Qed.

(** X1.  Whatever the histograms answer, a handle-range estimate that is
    returned without error lies between 0 and the row count of the table
    (as uint64), and an estimate returned with an error is 0. *)
Theorem getRowCountByTableRange_bounded
    (sc : StatementContext) (statsTbl : StatTable) (ranges : list TableRange)
    (offset v : Z) (err : option error) :
  getRowCountByTableRange sc statsTbl ranges offset = Returned (v, err) ->
  match err with
  | None => 0 <= v <= wrap_uint64 (TCount statsTbl)
  | Some _ => v = 0
  end.
Proof.
  unfold getRowCountByTableRange.
  destruct (sumTableRanges statsTbl offset ranges 0) as [[rowCount [e |]] |] eqn:E;
    try discriminate.
  - intros H. injection H as <- <-.
    exact (sumTableRanges_result _ _ _ _ _ _ zero_uint64 E).
  - pose proof (sumTableRanges_result _ _ _ _ _ _ zero_uint64 E) as Hr. simpl in Hr.
    intros H. injection H as <- <-.
    destruct (wrap_uint64 (TCount statsTbl) <? rowCount) eqn:C.
    + pose proof (wrap_uint64_range (TCount statsTbl)). lia.
    + apply Z.ltb_ge in C. lia.
Qed.

Lemma getRowCountByTableRange_bounded_witness :
  exists v,
    getRowCountByTableRange Example.sc Example.table1000
      [{| trLowVal := 1; trHighVal := 50 |}; {| trLowVal := 7; trHighVal := 7 |};
       {| trLowVal := MinInt64; trHighVal := MaxInt64 |}] 0 = Returned (v, None)
    /\ 0 <= v <= wrap_uint64 (TCount Example.table1000).
Proof.
  evar (v : Z).
  assert (Hrun : getRowCountByTableRange Example.sc Example.table1000
                   [{| trLowVal := 1; trHighVal := 50 |}; {| trLowVal := 7; trHighVal := 7 |};
                    {| trLowVal := MinInt64; trHighVal := MaxInt64 |}] 0
                 = Returned (v, None)).
  { vm_compute. reflexivity. }
  exists v. split; [exact Hrun |].
  exact (getRowCountByTableRange_bounded Example.sc Example.table1000 _ 0 v None Hrun).
Defined.

(** X2.  The whole range of handles alone is estimated at the row count
    of the table without any histogram being read: the offset need not
    name a column of the statistics. *)
Theorem getRowCountByTableRange_whole_range
    (sc : StatementContext) (statsTbl : StatTable) (offset : Z) :
  0 <= TCount statsTbl < 2 ^ 63 ->
  getRowCountByTableRange sc statsTbl
    [{| trLowVal := MinInt64; trHighVal := MaxInt64 |}] offset
  = Returned (TCount statsTbl, None).
Proof.
  intros HT. unfold getRowCountByTableRange. simpl.
  unfold tableRangeRowCount. simpl.
  assert (Hw : wrap_uint64 (TCount statsTbl) = TCount statsTbl).
  { unfold wrap_uint64. apply Z.mod_small. lia. }
  rewrite Hw. change (0 + TCount statsTbl) with (TCount statsTbl). rewrite Hw.
  rewrite Z.ltb_irrefl. reflexivity.
Qed.

Lemma getRowCountByTableRange_whole_range_witness :
  getRowCountByTableRange Example.sc {| TCount := 42; TColumns := [] |}
    [{| trLowVal := MinInt64; trHighVal := MaxInt64 |}] 7
  = Returned (42, None).
Proof.
  apply (getRowCountByTableRange_whole_range Example.sc
           {| TCount := 42; TColumns := [] |} 7).
  simpl. lia.
Defined.

(** ** More on the cardinality of index ranges *)

Lemma scaleRowCount_error table i rowCount err v e :
  scaleRowCount table i rowCount err = Returned (StepReturn (v, Some e)) -> v = 0.
Proof. unfold scaleRowCount. destruct err; intros H; inversion H. reflexivity. Qed.

Lemma withColumn_error table offset f v e :
  (forall c, f c = Returned (StepReturn (v, Some e)) -> v = 0) ->
  withColumn table offset f = Returned (StepReturn (v, Some e)) -> v = 0.
Proof.
  unfold withColumn. intros H. destruct (index (TColumns table) offset); [apply H | discriminate].
Qed.

Lemma rangeRowCount_error sc table indexInfo r v e :
  rangeRowCount sc table indexInfo r = Returned (StepReturn (v, Some e)) -> v = 0.
Proof.
  unfold rangeRowCount.
  destruct (index (LowVal r) _) as [l |]; [| discriminate].
  destruct (index (HighVal r) _) as [h |]; [| discriminate].
  destruct (index (IdxColumns indexInfo) _) as [ic |]; [| discriminate].
  cbv zeta.
  destruct (Kind_eqb (k l) KindNull && Kind_eqb (k h) KindMaxValue); [discriminate |].
  destruct (Kind_eqb (k l) KindMinNotNull).
  { apply withColumn_error. intros c.
    destruct (EqualRowCount c nullDatum) as [rc err].
    destruct (Kind_eqb (k h) KindMaxValue); [apply scaleRowCount_error |].
    destruct err; [apply scaleRowCount_error |].
    destruct (LessRowCount c h). apply scaleRowCount_error. }
  destruct (Kind_eqb (k h) KindMaxValue).
  { apply withColumn_error. intros c.
    destruct (GreaterRowCount c l). apply scaleRowCount_error. }
  destruct (CompareDatum sc l h) as [cmp [e' |]].
  { intros H. inversion H. reflexivity. }
  apply withColumn_error. intros c.
  destruct (if cmp =? 0 then EqualRowCount c l else BetweenRowCount c l h).
  apply scaleRowCount_error.
Qed.

(** X3.  An index-range estimate returned with an error is 0: the error
    of a comparison or of a histogram never comes with a partial sum. *)
Theorem getRowCountByIndexRanges_error_zero
    (sc : StatementContext) (table : StatTable) (ranges : list IndexRange)
    (indexInfo : IndexInfo) (v : Z) (e : error) :
  getRowCountByIndexRanges sc table ranges indexInfo = Returned (v, Some e) ->
  v = 0.
Proof.
  unfold getRowCountByIndexRanges.
  assert (H : forall total,
            sumRanges sc table indexInfo ranges total = Returned (StepReturn (v, Some e)) ->
            v = 0).
  { induction ranges as [| r rest IH]; intros total; simpl; [discriminate |].
    destruct (rangeRowCount sc table indexInfo r) as [[res | c] |] eqn:E; try discriminate.
    - intros H. injection H as ->. eapply rangeRowCount_error. exact E.
    - apply IH. }
  destruct (sumRanges sc table indexInfo ranges (of_Z 0)) as [[res | total] |] eqn:E;
    try discriminate.
  intros Hr. injection Hr as ->. eapply H. exact E.
Qed.

Lemma getRowCountByIndexRanges_error_zero_witness :
  exists v e,
    getRowCountByIndexRanges Example.sc Example.table10000
      [Example.greaterThan5; Example.mixedRange] Example.indexA = Returned (v, Some e)
    /\ v = 0.
Proof.
  evar (v : Z). evar (e : error).
  assert (Hrun : getRowCountByIndexRanges Example.sc Example.table10000
                   [Example.greaterThan5; Example.mixedRange] Example.indexA
                 = Returned (v, Some e)).
  { vm_compute. reflexivity. }
  exists v, e. split; [exact Hrun |].
  exact (getRowCountByIndexRanges_error_zero Example.sc Example.table10000
           [Example.greaterThan5; Example.mixedRange] Example.indexA v e Hrun).
Defined.

(** X4.  A malformed range makes the estimate panic, once the ranges
    before it have been counted: a range with no low value, with fewer
    high values than low values, or with more low values than the index
    has columns. *)
Theorem getRowCountByIndexRanges_malformed_range_panics
    (sc : StatementContext) (table : StatTable) (pre post : list IndexRange)
    (r : IndexRange) (indexInfo : IndexInfo) :
  Forall (fun q => exists c, rangeRowCount sc table indexInfo q = Returned (StepCount c)) pre ->
  LowVal r = [] \/ len (HighVal r) < len (LowVal r)
  \/ len (IdxColumns indexInfo) < len (LowVal r) ->
  getRowCountByIndexRanges sc table (pre ++ r :: post) indexInfo = Panicked.
Proof.
  intros Hpre Hbad. unfold getRowCountByIndexRanges.
  destruct (sumRanges_counted_prefix sc table indexInfo pre (r :: post) Hpre (of_Z 0))
    as [total' ->].
  simpl.
  assert (Hr : rangeRowCount sc table indexInfo r = Panicked).
  { unfold rangeRowCount.
    destruct (index (LowVal r) (len (LowVal r) - 1)) as [l |] eqn:El; [| reflexivity].
    apply index_Returned in El.
    destruct (index (HighVal r) (len (LowVal r) - 1)) as [h |] eqn:Eh; [| reflexivity].
    apply index_Returned in Eh.
    destruct (index (IdxColumns indexInfo) (len (LowVal r) - 1)) as [ic |] eqn:Ei;
      [| reflexivity].
    apply index_Returned in Ei.
    destruct Hbad as [H | [H | H]];
      [rewrite H in El; unfold len in El; simpl in El; lia | lia | lia]. }
  rewrite Hr. reflexivity.
Qed.

Lemma getRowCountByIndexRanges_malformed_range_panics_witness :
  getRowCountByIndexRanges Example.sc Example.table10000
    ([Example.greaterThan5] ++ {| LowVal := []; HighVal := [] |} :: []) Example.indexA
  = Panicked.
Proof.
  apply (getRowCountByIndexRanges_malformed_range_panics Example.sc Example.table10000
           [Example.greaterThan5] [] {| LowVal := []; HighVal := [] |} Example.indexA).
  - constructor; [| constructor]. eexists. vm_compute. reflexivity.
  - left. reflexivity.
Defined.

(** ** Covering indices *)

Lemma existsb_incl {A : Type} (f : A -> bool) (l l' : list A) :
  incl l l' -> existsb f l = true -> existsb f l' = true.
Proof.
  intros Hincl H. apply existsb_exists in H. destruct H as (x & Hx & Hf).
  apply existsb_exists. exists x. split; [apply Hincl; exact Hx | exact Hf].
Qed.

(** X5.  Covering is kept when columns are dropped from the request and
    when columns are added to the index, in any order. *)
Theorem isCoveringIndex_monotone
    (columns columns' : list ColumnInfo) (indexColumns indexColumns' : list IndexColumn)
    (pkIsHandle : bool) :
  incl columns' columns ->
  incl indexColumns indexColumns' ->
  isCoveringIndex columns indexColumns pkIsHandle = true ->
  isCoveringIndex columns' indexColumns' pkIsHandle = true.
Proof.
  unfold isCoveringIndex. intros Hc Hi H.
  rewrite forallb_forall in H |- *. intros c Hin.
  specialize (H c (Hc c Hin)). apply orb_true_iff in H. apply orb_true_iff.
  destruct H as [H | H]; [left; exact H | right].
  eapply existsb_incl; eauto.
Qed.

Lemma isCoveringIndex_monotone_witness :
  isCoveringIndex [Example.columnInfo "b" 1]
    (Example.indexColumn "c" 2 :: IdxColumns Example.indexAB) false = true.
Proof.
  apply (isCoveringIndex_monotone
           [Example.columnInfo "a" 0; Example.columnInfo "b" 1] [Example.columnInfo "b" 1]
           (IdxColumns Example.indexAB)
           (Example.indexColumn "c" 2 :: IdxColumns Example.indexAB) false).
  - intros c [<- | []]. right. left. reflexivity.
  - intros c H. right. exact H.
  - reflexivity.
Defined.

(** X6.  An index column with a prefix length covers nothing: when every
    column of the index has a prefix length, the index is covering only
    if each requested column is the primary key of a table whose primary
    key is the handle. *)
Theorem isCoveringIndex_prefix_columns
    (columns : list ColumnInfo) (indexColumns : list IndexColumn) (pkIsHandle : bool) :
  (forall ic, In ic indexColumns -> icLength ic <> UnspecifiedLength) ->
  isCoveringIndex columns indexColumns pkIsHandle
  = forallb (fun c => pkIsHandle && ciPriKey c) columns.
Proof.
  intros Hprefix. unfold isCoveringIndex.
  assert (E : forall c, existsb (fun indexCol =>
                String.eqb (ciName c) (icName indexCol)
                && (icLength indexCol =? UnspecifiedLength)) indexColumns = false).
  { intros c. induction indexColumns as [| ic ics IH]; simpl; [reflexivity |].
    rewrite IH by (intros ic' H; apply Hprefix; right; exact H).
    assert (icLength ic <> UnspecifiedLength) as Hne by (apply Hprefix; left; reflexivity).
    apply Z.eqb_neq in Hne. rewrite Hne. rewrite andb_false_r. reflexivity. }
  induction columns as [| c cs IH]; simpl; [reflexivity |].
  rewrite E, orb_false_r, IH. reflexivity.
Qed.

Lemma isCoveringIndex_prefix_columns_witness :
  isCoveringIndex [Example.columnInfo "a" 0]
    [{| icName := "a"; icOffset := 0; icLength := 10 |}] true
  = forallb (fun c => true && ciPriKey c) [Example.columnInfo "a" 0].
Proof.
  apply (isCoveringIndex_prefix_columns [Example.columnInfo "a" 0]
           [{| icName := "a"; icOffset := 0; icLength := 10 |}] true).
  intros ic [<- | []]. simpl. discriminate.
Defined.

(** ** The cheapest access path *)

Lemma ltb_irrefl (x : float64) : ltb x x = false.
Proof.
  destruct (ltb x x) eqn:E; [| reflexivity].
  rewrite (ltb_asym x x E) in E. discriminate.
Qed.

Lemma ltb_nan_r (x : float64) : ltb x S754_nan = false.
Proof. destruct x; reflexivity. Qed.

(** Among the floats that are not NaN, "not less than" is transitive. *)
Lemma ltb_false_trans (x y z : float64) :
  y <> S754_nan -> ltb x y = false -> ltb y z = false -> ltb x z = false.
Proof.
  unfold ltb, SFltb, SFcompare.
  destruct x as [sx | sx | | sx mx ex], y as [sy | sy | | sy my ey],
           z as [sz | sz | | sz mz ez];
    intros Hnan; try congruence;
    repeat match goal with s : bool |- _ => destruct s end;
    try discriminate; try reflexivity; pos_compare;
    destruct (Z.compare_spec ex ey), (Z.compare_spec ey ez), (Z.compare_spec ex ez);
    try discriminate; try reflexivity; try lia; subst;
    destruct (Pos.compare_spec mx my), (Pos.compare_spec my mz), (Pos.compare_spec mx mz);
    simpl; try discriminate; try reflexivity; try lia.
Qed.

(** Nothing is cheaper than a plan info whose cost is NaN: it stays the
    candidate kept by the loop. *)
Lemma cheapestIndexScan_nan (X : Externals) (n : DataSource) (prop : requiredProperty)
    (indices : list IndexInfo) (i best : physicalPlanInfo) :
  cost i = S754_nan ->
  cheapestIndexScan X n prop indices (Some i) = Returned (inr (Some best)) ->
  best = i.
Proof.
  intros Hnan. induction indices as [| idx rest IH]; simpl.
  - intros H. injection H as ->. reflexivity.
  - destruct (convert2IndexScan X n prop idx) as [[[ii |] [e |]] |]; try discriminate.
    rewrite Hnan, ltb_nan_r. exact IH.
Qed.

Lemma cheapestIndexScan_minimal (X : Externals) (n : DataSource) (prop : requiredProperty)
    (indices : list IndexInfo) :
  forall (start : option physicalPlanInfo) (best : physicalPlanInfo),
    cheapestIndexScan X n prop indices start = Returned (inr (Some best)) ->
    (start = Some best
     \/ exists idx, In idx indices
                    /\ convert2IndexScan X n prop idx = Returned (Some best, None))
    /\ (forall i0, start = Some i0 -> ltb (cost i0) (cost best) = false)
    /\ (forall idx ii, In idx indices ->
          convert2IndexScan X n prop idx = Returned (Some ii, None) ->
          ltb (cost ii) (cost best) = false).
Proof.
  induction indices as [| idx rest IH]; intros start best; simpl.
  - intros H. injection H as ->. split; [left; reflexivity |]. split.
    + intros i0 H. injection H as ->. apply ltb_irrefl.
    + intros idx ii [].
  - destruct (convert2IndexScan X n prop idx) as [[indexInfo [e |]] |] eqn:E;
      try discriminate.
    destruct start as [i |].
    + destruct indexInfo as [ii |]; [| discriminate].
      intros H. destruct (IH _ _ H) as (Hfrom & Hstart & Hall).
      assert (Hkept : ltb (cost (if ltb (cost ii) (cost i) then ii else i)) (cost best) = false)
        by (apply Hstart; reflexivity).
      split; [| split].
      * destruct Hfrom as [Hs | (idx' & Hin & Hc)].
        -- injection Hs as Hs. revert Hs. clear Hkept.
           destruct (ltb (cost ii) (cost i)); intros Hs.
           ++ right. exists idx. split; [left; reflexivity | subst best; exact E].
           ++ left. subst best. reflexivity.
        -- right. exists idx'. split; [right; exact Hin | exact Hc].
      * intros i0 H0. injection H0 as <-.
        destruct (ltb (cost ii) (cost i)) eqn:C; [| exact Hkept].
        destruct (ltb (cost i) (cost best)) eqn:C'; [| reflexivity].
        rewrite (ltb_trans _ _ _ C C') in Hkept. discriminate.
      * intros idx' ii' [<- | Hin] Hc.
        -- rewrite E in Hc. injection Hc as <-.
           destruct (ltb (cost ii) (cost i)) eqn:C; [exact Hkept |].
           destruct (cost i) as [si | si | | si mi ei] eqn:Ci.
           ++ eapply ltb_false_trans; [| exact C | exact Hkept]. discriminate.
           ++ eapply ltb_false_trans; [| exact C | exact Hkept]. discriminate.
           ++ rewrite (cheapestIndexScan_nan X n prop rest i best Ci H).
              rewrite Ci. apply ltb_nan_r.
           ++ eapply ltb_false_trans; [| exact C | exact Hkept]. discriminate.
        -- eapply Hall; eauto.
    + intros H. destruct (IH _ _ H) as (Hfrom & Hstart & Hall).
      split; [| split].
      * destruct Hfrom as [Hs | (idx' & Hin & Hc)].
        -- rewrite Hs in E. right. exists idx. split; [left; reflexivity | exact E].
        -- right. exists idx'. split; [right; exact Hin | exact Hc].
      * discriminate.
      * intros idx' ii' [<- | Hin] Hc.
        -- rewrite E in Hc. injection Hc as ->. apply Hstart. reflexivity.
        -- eapply Hall; eauto.
Qed.

(** X7.  When the dummy scan does not apply and the memo does not
    answer, the plan info that a DataSource returns is one of its
    candidates, it is recorded in the memo, and no candidate that was
    evaluated is strictly cheaper: not the table scan, when there is one,
    and not the scan of any index, when indices are considered. *)
Theorem DataSource_returns_cheapest
    (X : Externals) (n : DataSource) (prop : requiredProperty) (s s' : Store)
    (indices : list IndexInfo) (includeTableScan : bool) (best : physicalPlanInfo) :
  memoized s (dsBase n) prop = None ->
  tryToConvert2DummyScan X n prop s = Returned ((None, None), s) ->
  availableIndices X (dsTable n) = (indices, includeTableScan) ->
  DataSource_convert2PhysicalPlan X n prop s = Returned ((Some best, None), s') ->
  s' = memoize s (dsBase n) prop best
  /\ ((includeTableScan = true /\ convert2TableScan X n prop = Returned (Some best, None))
      \/ exists idx, In idx indices
                     /\ convert2IndexScan X n prop idx = Returned (Some best, None))
  /\ (includeTableScan = true ->
      forall ti, convert2TableScan X n prop = Returned (Some ti, None) ->
                 ltb (cost ti) (cost best) = false)
  /\ (includeTableScan = false \/ need2ConsiderIndex n prop = Returned true ->
      forall idx ii, In idx indices ->
                     convert2IndexScan X n prop idx = Returned (Some ii, None) ->
                     ltb (cost ii) (cost best) = false).
Proof.
  intros Hmiss Hdummy Hav. unfold DataSource_convert2PhysicalPlan.
  rewrite bind_getPlanInfo, Hmiss. cbv beta iota.
  rewrite (bind_Returned _ _ _ _ _ Hdummy). cbv beta iota. rewrite Hav.
  destruct includeTableScan.
  - destruct (convert2TableScan X n prop) as [[tinfo [e |]] |] eqn:Et;
      unfold bind at 1, lift, ret, panic; try discriminate.
    simpl negb. cbv iota.
    destruct (need2ConsiderIndex n prop) as [[|] |] eqn:Hneed;
      unfold bind at 1, lift, ret, panic; try discriminate.
    + unfold bind at 1, lift.
      destruct (cheapestIndexScan X n prop indices tinfo) as [[e | r] |] eqn:Ec;
        unfold ret, panic; try discriminate.
      destruct r as [r |]; [| discriminate].
      unfold bind, storePlanInfo, ret. intros H. injection H as <- <-.
      destruct (cheapestIndexScan_minimal X n prop indices tinfo r Ec)
        as (Hfrom & Hstart & Hall).
      split; [reflexivity |]. split; [| split].
      * destruct Hfrom as [-> | Hidx]; [left; split; reflexivity | right; exact Hidx].
      * intros _ ti Hti. injection Hti as ->. apply Hstart. reflexivity.
      * intros _. exact Hall.
    + unfold bind at 1, ret. destruct tinfo as [ti |]; [| discriminate].
      unfold bind, storePlanInfo, ret. intros H. injection H as <- <-.
      split; [reflexivity |]. split; [left; split; reflexivity |]. split.
      * intros _ ti' Hti. injection Hti as ->. apply ltb_irrefl.
      * intros [H | H]; discriminate.
  - unfold bind at 1, lift, ret. simpl negb. cbv iota.
    unfold bind at 1, lift, ret.
    unfold bind at 1, lift.
    destruct (cheapestIndexScan X n prop indices None) as [[e | r] |] eqn:Ec;
      unfold ret, panic; try discriminate.
    destruct r as [r |]; [| discriminate].
    unfold bind, storePlanInfo, ret. intros H. injection H as <- <-.
    destruct (cheapestIndexScan_minimal X n prop indices None r Ec)
      as (Hfrom & Hstart & Hall).
    split; [reflexivity |]. split; [| split].
    + destruct Hfrom as [Hs | Hidx]; [discriminate | right; exact Hidx].
    + discriminate.
    + intros _. exact Hall.
Qed.

Lemma DataSource_returns_cheapest_witness :
  exists best s',
    DataSource_convert2PhysicalPlan Example.externals Example.tableT
      (Example.orderBy [Example.colA]) [] = Returned ((Some best, None), s')
    /\ s' = memoize [] (dsBase Example.tableT) (Example.orderBy [Example.colA]) best
    /\ cost best = of_Z 3000.
Proof.
  evar (best : physicalPlanInfo). evar (s' : Store).
  assert (Hrun :
    DataSource_convert2PhysicalPlan Example.externals Example.tableT
      (Example.orderBy [Example.colA]) [] = Returned ((Some best, None), s')).
  { vm_compute. reflexivity. }
  exists best, s'. split; [exact Hrun |].
  destruct (DataSource_returns_cheapest Example.externals Example.tableT
              (Example.orderBy [Example.colA]) [] s' [Example.indexAB] true best
              eq_refl eq_refl eq_refl Hrun) as (Hs & _).
  split; [exact Hs | reflexivity].
Defined.

(** X8.  A DataSource with a table scan, a first parent that is not a
    Selection and no requested order returns the table scan and records
    it: the indices are not examined, whatever their scans would cost.
    A DataSource without any parent panics instead, once its table scan
    is built, on reading its first parent. *)
Theorem DataSource_plain_table_scan
    (X : Externals) (n : DataSource) (prop : requiredProperty) (s : Store)
    (indices : list IndexInfo) (ti : physicalPlanInfo) :
  memoized s (dsBase n) prop = None ->
  props prop = [] ->
  availableIndices X (dsTable n) = (indices, true) ->
  convert2TableScan X n prop = Returned (Some ti, None) ->
  (forall rest, dsParents n = ParentOther :: rest ->
     DataSource_convert2PhysicalPlan X n prop s
     = Returned ((Some ti, None), memoize s (dsBase n) prop ti))
  /\ (dsParents n = [] -> DataSource_convert2PhysicalPlan X n prop s = Panicked).
Proof.
  intros Hmiss Hprops Hav Hscan. unfold DataSource_convert2PhysicalPlan.
  rewrite bind_getPlanInfo, Hmiss. cbv beta iota.
  unfold tryToConvert2DummyScan, need2ConsiderIndex, dsParent. rewrite Hprops.
  split.
  - intros rest Hparents. rewrite Hparents.
    unfold bind at 1, ret at 1. cbv beta iota. rewrite Hav, Hscan. reflexivity.
  - intros Hparents. rewrite Hparents.
    unfold bind at 1, ret at 1. cbv beta iota. rewrite Hav, Hscan. reflexivity.
Qed.

Lemma DataSource_plain_table_scan_witness :
  DataSource_convert2PhysicalPlan Example.externals Example.tableT emptyProperty []
  = Returned ((Some (Example.tableScanInfo Example.tableT), None),
              memoize [] (dsBase Example.tableT) emptyProperty
                (Example.tableScanInfo Example.tableT))
  /\ DataSource_convert2PhysicalPlan Example.externals
       {| dsBase := dsBase Example.tableT;
          dsCtx := dsCtx Example.tableT;
          dsTable := dsTable Example.tableT;
          dsColumns := dsColumns Example.tableT;
          dsTableAsName := dsTableAsName Example.tableT;
          dsDBName := dsDBName Example.tableT;
          dsStatisticTable := dsStatisticTable Example.tableT;
          dsParents := [] |}
       emptyProperty []
     = Panicked.
Proof.
  split.
  - apply (proj1 (DataSource_plain_table_scan Example.externals Example.tableT emptyProperty []
                    [Example.indexAB] (Example.tableScanInfo Example.tableT)
                    eq_refl eq_refl eq_refl eq_refl) []).
    reflexivity.
  - match goal with
    | |- DataSource_convert2PhysicalPlan _ ?n _ _ = _ =>
        apply (proj2 (DataSource_plain_table_scan Example.externals n emptyProperty []
                        [Example.indexAB] (Example.tableScanInfo Example.tableT)
                        eq_refl eq_refl eq_refl eq_refl))
    end.
    reflexivity.
Defined.

(** ** Enforcing a property *)

(** X9.  Enforcing a property never raises the estimated count, and over
    a plan that is not nil the count is at most the count of the
    requested limit. *)
Theorem enforceProperty_caps_count
    (X : Externals) (prop : requiredProperty) (info : physicalPlanInfo) :
  count (enforceProperty X prop info) <= count info
  /\ (forall ip l, p info = Some ip -> limit prop = Some l ->
        count (enforceProperty X prop info) <= Count l).
Proof.
  split.
  - destruct (enforceProperty_count X prop info) as [-> | (l & _ & Hlt & ->)]; lia.
  - intros ip l Hp Hl. unfold enforceProperty. rewrite Hp, Hl.
    destruct (negb (len (props prop) =? 0)); simpl;
      destruct (Count l <? count info) eqn:E; simpl;
      try apply Z.le_refl; apply Z.ltb_ge in E; exact E.
Qed.

Lemma enforceProperty_caps_count_witness :
  count (enforceProperty Example.externals
           (limitProperty (Some {| Offset := 0; Count := 10 |}))
           (Example.tableScanInfo Example.tableT)) <= 10.
Proof.
  change 10 with (Count {| Offset := 0; Count := 10 |}) at 2.
  eapply (proj2 (enforceProperty_caps_count Example.externals
                   (limitProperty (Some {| Offset := 0; Count := 10 |}))
                   (Example.tableScanInfo Example.tableT))); reflexivity.
Defined.

(** X10.  Over a plan that is not nil, enforcing a property yields that
    plan itself or a single node above it with its schema and its
    correlation flag; it yields the plan itself exactly when nothing is
    requested, and it leaves the cost as it is when no order is requested. *)
Theorem enforceProperty_plan
    (X : Externals) (prop : requiredProperty) (info : physicalPlanInfo)
    (ip : PhysicalPlan) :
  p info = Some ip ->
  exists top,
    p (enforceProperty X prop info) = Some top
    /\ PGetSchema top = PGetSchema ip
    /\ IsCorrelated top = IsCorrelated ip
    /\ (props prop = [] -> limit prop = None -> top = ip)
    /\ (props prop <> [] \/ limit prop <> None -> GetChildren top = [Some ip])
    /\ (props prop = [] -> cost (enforceProperty X prop info) = cost info).
Proof.
  intros Hp. unfold enforceProperty. rewrite Hp.
  destruct (props prop) as [| c ps] eqn:Hprops;
    [change (len [] =? 0) with true | rewrite len_cons_nonzero];
    cbv beta iota delta [negb];
    destruct (limit prop) as [l |].
  - eexists. split.
    + destruct (Count l <? count (addPlanToResponse _ info)); reflexivity.
    + rewrite Hp. repeat split; try reflexivity; try discriminate.
      destruct (Count l <? count (addPlanToResponse _ info)); reflexivity.
  - exists ip. repeat split; auto. intros [H | H]; congruence.
  - eexists. split.
    + match goal with |- context [if ?b then _ else _] => destruct b end; reflexivity.
    + rewrite Hp. repeat split; try reflexivity; discriminate.
  - eexists. split; [reflexivity |].
    rewrite Hp. repeat split; try reflexivity; discriminate.
Qed.

Lemma enforceProperty_plan_witness :
  exists top,
    p (enforceProperty Example.externals (limitProperty (Some {| Offset := 0; Count := 10 |}))
         (Example.tableScanInfo Example.tableT)) = Some top
    /\ PGetSchema top = [Example.colA; Example.colB]
    /\ cost (enforceProperty Example.externals
               (limitProperty (Some {| Offset := 0; Count := 10 |}))
               (Example.tableScanInfo Example.tableT)) = of_Z 1500.
Proof.
  destruct (enforceProperty_plan Example.externals
              (limitProperty (Some {| Offset := 0; Count := 10 |}))
              (Example.tableScanInfo Example.tableT) _ eq_refl)
    as (top & Htop & Hschema & _ & _ & _ & Hcost).
  exists top. split; [exact Htop |]. split.
  - rewrite Hschema. reflexivity.
  - rewrite Hcost by reflexivity. reflexivity.
Defined.

(** X11.  Folding the offset of a limit into its count is idempotent,
    and removing the limit afterwards is removing it at once; neither
    changes the requested columns or the length of the sort key. *)
Theorem convertLimitOffsetToCount_idempotent (prop : requiredProperty) :
  convertLimitOffsetToCount (convertLimitOffsetToCount prop)
  = convertLimitOffsetToCount prop
  /\ removeLimit (convertLimitOffsetToCount prop) = removeLimit prop
  /\ props (convertLimitOffsetToCount prop) = props prop
  /\ sortKeyLen (convertLimitOffsetToCount prop) = sortKeyLen prop.
Proof.
  unfold convertLimitOffsetToCount, removeLimit. simpl.
  repeat split. destruct (limit prop) as [l |]; [| reflexivity].
  simpl. unfold wrap_uint64. rewrite Z.mod_mod by (apply Z.pow_nonzero; lia).
  reflexivity.
Qed.

(** ** Matching a delivered order against a requested one *)

Lemma Column_eqb_refl (c : Column) : Column_eqb c c = true.
Proof. unfold Column_eqb. rewrite String_eqb_refl, Z.eqb_refl. reflexivity. Qed.

Lemma columnProp_equal_refl (a : columnProp) : columnProp_equal a a = true.
Proof. unfold columnProp_equal. rewrite Column_eqb_refl, eqb_reflx. reflexivity. Qed.

Lemma index_app_l {A : Type} (l l' : list A) (i : Z) (a : A) :
  index l i = Returned a -> index (l ++ l') i = Returned a.
Proof.
  unfold index. destruct (i <? 0); [discriminate |].
  destruct (nth_error l (Z.to_nat i)) eqn:N; [| discriminate].
  intros H. injection H as <-.
  rewrite nth_error_app1 by (apply nth_error_Some; congruence).
  rewrite N. reflexivity.
Qed.

Lemma matchPrefix_extended (target extra : list columnProp) (steps : nat) (i : Z) :
  0 <= i -> i + Z.of_nat steps <= len target ->
  matchPrefix target (target ++ extra) i steps = Returned true.
Proof.
  revert i. induction steps as [| steps IH]; intros i Hi Hlen; simpl; [reflexivity |].
  destruct (index_in_range target i) as [a Ha]; [lia |].
  rewrite Ha, (index_app_l _ extra _ _ Ha), columnProp_equal_refl.
  apply IH; lia.
Qed.

Lemma matchTail_extended (target extra : list columnProp) (steps : nat) (i : Z) :
  0 <= i -> i + Z.of_nat steps <= len target ->
  matchTail target (target ++ extra) i steps = Returned true.
Proof.
  revert i. induction steps as [| steps IH]; intros i Hi Hlen; simpl; [reflexivity |].
  destruct (index_in_range target i) as [a Ha]; [lia |].
  rewrite Ha.
  assert (E : existsb (fun pro => Column_eqb (col pro) (col a)) (target ++ extra) = true).
  { apply existsb_exists. exists a. split.
    - apply in_or_app. left. eapply index_In. exact Ha.
    - apply Column_eqb_refl. }
  rewrite E. apply IH; lia.
Qed.

(** X12.  A requested property whose sort-key length lies within its
    columns is matched by any delivered property that lists the same
    columns, in the same order and directions, followed by any others;
    in particular it matches itself.  The limits play no part. *)
Theorem matchProp_extended
    (target : requiredProperty) (extra : list columnProp) (keyLen : Z)
    (lim : option Limit) :
  0 <= sortKeyLen target <= len (props target) ->
  matchProp target {| props := props target ++ extra; sortKeyLen := keyLen; limit := lim |}
  = Returned true.
Proof.
  intros Hk. unfold matchProp. simpl.
  assert (Hlen : len (props target ++ extra) = len (props target) + len extra).
  { unfold len. rewrite length_app. lia. }
  assert (0 <= len extra) by (unfold len; lia).
  destruct (len (props target ++ extra) <? sortKeyLen target) eqn:E.
  { apply Z.ltb_lt in E. lia. }
  rewrite matchPrefix_extended by lia.
  apply matchTail_extended; lia.
Qed.

Lemma matchProp_extended_witness :
  matchProp (Example.orderBy [Example.colA])
    {| props := props (Example.orderBy [Example.colA])
                ++ [{| col := Example.colB; desc := true |}];
       sortKeyLen := 2;
       limit := None |}
  = Returned true.
Proof.
  apply (matchProp_extended (Example.orderBy [Example.colA])
           [{| col := Example.colB; desc := true |}] 2 None).
  vm_compute. split; discriminate.
Defined.

Lemma matchPrefix_sound (target new : list columnProp) (steps : nat) (i : Z) :
  0 <= i ->
  matchPrefix target new i steps = Returned true ->
  forall j, i <= j < i + Z.of_nat steps ->
    exists a b, index target j = Returned a /\ index new j = Returned b
                /\ columnProp_equal a b = true.
Proof.
  revert i. induction steps as [| steps IH]; intros i Hi; simpl.
  - intros _ j Hj. lia.
  - destruct (index target i) as [a |] eqn:Ea; [| discriminate].
    destruct (index new i) as [b |] eqn:Eb; [| discriminate].
    destruct (columnProp_equal a b) eqn:Eq; [| discriminate].
    intros H j Hj. destruct (Z.eq_dec j i) as [-> | Hne].
    + exists a, b. auto.
    + apply (IH (i + 1)); [lia | exact H | lia].
Qed.

Lemma matchTail_sound (target new : list columnProp) (steps : nat) (i : Z) :
  matchTail target new i steps = Returned true ->
  forall j, i <= j < i + Z.of_nat steps ->
    exists a, index target j = Returned a
              /\ existsb (fun pro => Column_eqb (col pro) (col a)) new = true.
Proof.
  revert i. induction steps as [| steps IH]; intros i; simpl.
  - intros _ j Hj. lia.
  - destruct (index target i) as [a |] eqn:Ea; [| discriminate].
    destruct (existsb _ new) eqn:Ex; [| discriminate].
    intros H j Hj. destruct (Z.eq_dec j i) as [-> | Hne].
    + exists a. auto.
    + apply (IH (i + 1)); [exact H | lia].
Qed.

(** X13.  When a delivered property matches a requested one, it has at
    least as many columns as the sort key is long, it agrees with the
    request, column and direction, at every position of the sort key,
    and every requested column after the sort key occurs somewhere in
    it. *)
Theorem matchProp_sound (target new : requiredProperty) :
  matchProp target new = Returned true ->
  sortKeyLen target <= len (props new)
  /\ (forall j, 0 <= j < sortKeyLen target ->
        exists a b, index (props target) j = Returned a
                    /\ index (props new) j = Returned b
                    /\ Column_eqb (col a) (col b) = true /\ desc a = desc b)
  /\ (forall j, 0 <= sortKeyLen target <= j -> j < len (props target) ->
        exists a, index (props target) j = Returned a
                  /\ existsb (fun pro => Column_eqb (col pro) (col a)) (props new) = true).
Proof.
  unfold matchProp.
  destruct (len (props new) <? sortKeyLen target) eqn:E; [discriminate |].
  apply Z.ltb_ge in E.
  destruct (matchPrefix (props target) (props new) 0 (Z.to_nat (sortKeyLen target)))
    as [[|] |] eqn:Ep; try discriminate.
  intros Ht. split; [exact E |]. split.
  - intros j Hj.
    destruct (matchPrefix_sound _ _ _ 0 ltac:(lia) Ep j ltac:(lia)) as (a & b & Ha & Hb & Heq).
    exists a, b. unfold columnProp_equal in Heq. apply andb_true_iff in Heq.
    destruct Heq as [Hc Hd]. apply eqb_prop in Hd. auto.
  - intros j Hj Hlen.
    apply (matchTail_sound _ _ _ _ Ht). lia.
Qed.

Lemma matchProp_sound_witness :
  matchProp (Example.orderBy [Example.colA]) (Example.orderBy [Example.colA; Example.colB])
  = Returned true
  /\ sortKeyLen (Example.orderBy [Example.colA])
     <= len (props (Example.orderBy [Example.colA; Example.colB])).
Proof.
  assert (Hrun : matchProp (Example.orderBy [Example.colA])
                   (Example.orderBy [Example.colA; Example.colB]) = Returned true)
    by reflexivity.
  split; [exact Hrun |].
  exact (proj1 (matchProp_sound (Example.orderBy [Example.colA])
                  (Example.orderBy [Example.colA; Example.colB]) Hrun)).
Defined.

(** ** Joins *)

Lemma Column_eqb_eq (a b : Column) : Column_eqb a b = true -> a = b.
Proof.
  unfold Column_eqb. intros H. apply andb_true_iff in H. destruct H as [H1 H2].
  apply String.eqb_eq in H1. apply Z.eqb_eq in H2.
  destruct a, b. simpl in *. congruence.
Qed.

Lemma GetIndexFrom_found (s : Schema) (c : Column) (i : Z) :
  GetIndexFrom s c i <> -1 -> 0 <= i ->
  nth_error s (Z.to_nat (GetIndexFrom s c i - i)) = Some c.
Proof.
  revert i. induction s as [| c0 s IH]; intros i; simpl; [congruence |].
  destruct (Column_eqb c0 c) eqn:E.
  - intros _ _. rewrite Z.sub_diag. simpl. apply Column_eqb_eq in E. congruence.
  - intros H Hi. specialize (IH (i + 1) H ltac:(lia)).
    destruct (GetIndexFrom_range s c (i + 1)) as [Hm | Hr]; [contradiction |].
    replace (Z.to_nat (GetIndexFrom s c (i + 1) - i))
      with (S (Z.to_nat (GetIndexFrom s c (i + 1) - (i + 1)))) by lia.
    simpl. exact IH.
Qed.

(** A column that [GetIndex] finds is at the position it returns. *)
Lemma GetIndex_found (s : Schema) (c : Column) :
  GetIndex s c <> -1 -> index s (GetIndex s c) = Returned c.
Proof.
  intros H. pose proof (GetIndex_range s c H) as Hr.
  pose proof (GetIndexFrom_found s c 0 H ltac:(lia)) as Hn.
  unfold index. fold (GetIndex s c) in Hn. rewrite Z.sub_0_r in Hn.
  destruct (GetIndex s c <? 0) eqn:E; [apply Z.ltb_lt in E; lia |].
  rewrite Hn. reflexivity.
Qed.

Lemma replaceCols_found (ps : list columnProp) (s : Schema) :
  allInSchema s ps = true -> replaceCols ps s = Returned ps.
Proof.
  induction ps as [| c ps IH]; simpl; [reflexivity |].
  intros H. apply andb_true_iff in H. destruct H as [Hc Hps].
  apply negb_true_iff, Z.eqb_neq in Hc.
  rewrite (GetIndex_found s (col c) Hc), (IH Hps).
  destruct c. reflexivity.
Qed.

(** X14.  When every requested column is found in the schema, as the
    right-driven join has checked before it calls the function,
    [replaceColsInPropBySchema] does not index the schema out of range:
    it returns a property with the same sort-key length and limit whose
    columns are columns of the schema, each the one that the schema
    identifies with the requested column, in the requested direction.
    When a requested column is not found, it panics. *)
Theorem replaceColsInPropBySchema_found (prop : requiredProperty) (s : Schema) :
  (allInSchema s (props prop) = true ->
   exists newProp,
     replaceColsInPropBySchema prop s = Returned newProp
     /\ sortKeyLen newProp = sortKeyLen prop
     /\ limit newProp = limit prop
     /\ Forall2 (fun c c' => desc c' = desc c /\ In (col c') s
                             /\ Column_eqb (col c') (col c) = true)
                (props prop) (props newProp))
  /\ (allInSchema s (props prop) = false ->
      replaceColsInPropBySchema prop s = Panicked).
Proof.
  unfold replaceColsInPropBySchema. split; intros H.
  - rewrite (replaceCols_found _ _ H). eexists. split; [reflexivity |].
    split; [reflexivity |]. split; [reflexivity |]. cbn [props].
    induction (props prop) as [| c ps IH]; [constructor |].
    simpl in H. apply andb_true_iff in H. destruct H as [Hc Hps].
    constructor; [| exact (IH Hps)].
    split; [reflexivity |]. split; [| apply Column_eqb_refl].
    apply negb_true_iff, Z.eqb_neq in Hc.
    exact (index_In _ _ _ (GetIndex_found s (col c) Hc)).
  - assert (E : replaceCols (props prop) s = Panicked).
    { induction (props prop) as [| c ps IH]; simpl in *; [discriminate |].
      apply andb_false_iff in H. destruct H as [H | H].
      - apply negb_false_iff, Z.eqb_eq in H. rewrite H. reflexivity.
      - rewrite (IH H). destruct (index s (GetIndex s (col c))); reflexivity. }
    rewrite E. reflexivity.
Qed.

Lemma replaceColsInPropBySchema_found_witness :
  (exists newProp,
     replaceColsInPropBySchema (Example.orderBy [Example.colV]) [Example.colU; Example.colV]
     = Returned newProp
     /\ sortKeyLen newProp = 1)
  /\ replaceColsInPropBySchema (Example.orderBy [Example.colA]) [Example.colU; Example.colV]
     = Panicked.
Proof.
  split.
  - destruct (proj1 (replaceColsInPropBySchema_found (Example.orderBy [Example.colV])
                       [Example.colU; Example.colV]) eq_refl)
      as (newProp & Hrun & Hkey & _).
    exists newProp. split; [exact Hrun | exact Hkey].
  - apply (proj2 (replaceColsInPropBySchema_found (Example.orderBy [Example.colA])
                    [Example.colU; Example.colV])). reflexivity.
Defined.

(** X15.  An inner join not answered from the memo evaluates the
    left-driven and the right-driven candidate and keeps the
    right-driven one only if its cost is strictly lower: the candidate
    that is dropped is never cheaper than the one kept, which is
    recorded in the memo. *)
Theorem Join_inner_keeps_cheaper
    (X : Externals) (n : Join) (lChild rChild : LogicalPlan)
    (prop : requiredProperty) (s s1 s2 : Store) (lInfo rInfo : physicalPlanInfo) :
  JoinTp n = InnerJoin ->
  memoized s (joinBase n) prop = None ->
  Join_convert2PhysicalPlanLeft X n lChild rChild prop true s
    = Returned ((Some lInfo, None), s1) ->
  Join_convert2PhysicalPlanRight X n lChild rChild prop true s1
    = Returned ((Some rInfo, None), s2) ->
  let kept := if ltb (cost rInfo) (cost lInfo) then rInfo else lInfo in
  let dropped := if ltb (cost rInfo) (cost lInfo) then lInfo else rInfo in
  ltb (cost dropped) (cost kept) = false
  /\ Join_convert2PhysicalPlan X n lChild rChild prop s
     = Returned ((Some kept, None), memoize s2 (joinBase n) prop kept).
Proof.
  intros Htp Hmiss Hl Hr. cbv zeta. split.
  - destruct (ltb (cost rInfo) (cost lInfo)) eqn:E; [| exact E].
    apply ltb_asym. exact E.
  - unfold Join_convert2PhysicalPlan. rewrite bind_getPlanInfo, Hmiss, Htp.
    cbv beta iota.
    unfold bind at 1. unfold bind at 1. rewrite Hl. cbv beta iota.
    unfold bind at 1. rewrite Hr. reflexivity.
Qed.

Lemma Join_inner_keeps_cheaper_witness :
  exists kept s2,
    Join_convert2PhysicalPlan Example.externals (Example.semiJoin InnerJoin)
      (logicalPlan Example.externals (TDataSource Example.tableT))
      (logicalPlan Example.externals (TDataSource Example.tableU))
      emptyProperty []
    = Returned ((Some kept, None),
                memoize s2 (joinBase (Example.semiJoin InnerJoin)) emptyProperty kept).
Proof.
  eexists. eexists.
  refine (proj2 (Join_inner_keeps_cheaper Example.externals (Example.semiJoin InnerJoin)
                   (logicalPlan Example.externals (TDataSource Example.tableT))
                   (logicalPlan Example.externals (TDataSource Example.tableU))
                   emptyProperty [] _ _ _ _ eq_refl eq_refl _ _)).
  - vm_compute. reflexivity.
  - vm_compute. reflexivity.
Defined.

(** X16.  Whatever the kind of a join, its left child is converted
    first: when that conversion returns an error, the join returns the
    error in the store the child has left, records nothing, and does not
    convert its right child. *)
Theorem Join_left_child_error
    (X : Externals) (n : Join) (lChild rChild : LogicalPlan)
    (prop : requiredProperty) (s s' : Store) (e : error) :
  memoized s (joinBase n) prop = None ->
  (forall q, exists x, convert2PhysicalPlan lChild q s = Returned ((x, Some e), s')) ->
  Join_convert2PhysicalPlan X n lChild rChild prop s = Returned ((None, Some e), s').
Proof.
  intros Hmiss Hl. unfold Join_convert2PhysicalPlan.
  rewrite bind_getPlanInfo, Hmiss. cbv beta iota.
  assert (Hsemi : Join_convert2PhysicalPlanSemi X n lChild rChild prop s
                  = Returned ((None, Some e), s')).
  { unfold Join_convert2PhysicalPlanSemi. unfold bind at 1.
    match goal with |- context [convert2PhysicalPlan lChild ?q s] =>
      destruct (Hl q) as [x ->] end. reflexivity. }
  assert (Hleft : forall b, Join_convert2PhysicalPlanLeft X n lChild rChild prop b s
                            = Returned ((None, Some e), s')).
  { intros b. unfold Join_convert2PhysicalPlanLeft. unfold bind at 1.
    match goal with |- context [convert2PhysicalPlan lChild ?q s] =>
      destruct (Hl q) as [x ->] end. reflexivity. }
  assert (Hright : Join_convert2PhysicalPlanRight X n lChild rChild prop false s
                   = Returned ((None, Some e), s')).
  { unfold Join_convert2PhysicalPlanRight. unfold bind at 1.
    destruct (Hl emptyProperty) as [x ->]. reflexivity. }
  destruct (JoinTp n).
  - unfold bind at 1. unfold bind at 1. rewrite Hleft. reflexivity.
  - unfold bind at 1. rewrite Hleft. reflexivity.
  - unfold bind at 1. rewrite Hright. reflexivity.
  - unfold bind at 1. rewrite Hsemi. reflexivity.
  - unfold bind at 1. rewrite Hsemi. reflexivity.
Qed.

Lemma Join_left_child_error_witness :
  Join_convert2PhysicalPlan Example.externals (Example.semiJoin LeftOuterJoin)
    (logicalPlan Example.externals Example.failingTree)
    (logicalPlan Example.externals (TDataSource Example.tableU))
    emptyProperty []
  = Returned ((None, Some "cannot convert to bool"%string), []).
Proof.
  apply (Join_left_child_error Example.externals (Example.semiJoin LeftOuterJoin)
           (logicalPlan Example.externals Example.failingTree)
           (logicalPlan Example.externals (TDataSource Example.tableU))
           emptyProperty [] [] "cannot convert to bool"%string).
  - reflexivity.
  - intros q. exists None. reflexivity.
Defined.

(** ** Union *)





(** ** Distinct *)

Lemma enforceProperty_limit_only
    (X : Externals) (lim : option Limit) (info : physicalPlanInfo) (ip : PhysicalPlan) :
  p info = Some ip ->
  cost (enforceProperty X (limitProperty lim) info) = cost info
  /\ count (enforceProperty X (limitProperty lim) info) <= count info
  /\ (forall l, lim = Some l ->
        count (enforceProperty X (limitProperty lim) info) <= Count l).
Proof.
  intros Hp. unfold enforceProperty, limitProperty. rewrite Hp. simpl.
  destruct lim as [l |]; simpl.
  - destruct (Count l <? count info) eqn:E; simpl.
    + apply Z.ltb_lt in E. repeat split; try lia. intros l0 H. injection H as <-. lia.
    + apply Z.ltb_ge in E. repeat split; try lia. intros l0 H. injection H as <-. lia.
  - repeat split; try lia. discriminate.
Qed.

(** X18.  A Distinct whose child is converted without error adds no cost
    to the plan info of its child, and its estimated count is at most
    the count of the child times [distinctFactor], and at most the count
    of the requested limit. *)
Theorem Distinct_cost_and_count
    (X : Externals) (n : Distinct) (child : LogicalPlan)
    (prop : requiredProperty) (s s1 : Store) (childInfo : physicalPlanInfo) :
  memoized s (distBase n) prop = None ->
  convert2PhysicalPlan child (removeLimit prop) s = Returned ((Some childInfo, None), s1) ->
  exists info,
    Distinct_convert2PhysicalPlan X n child prop s
    = Returned ((Some info, None), memoize s1 (distBase n) prop info)
    /\ cost info = cost childInfo
    /\ count info <= to_uint64 (mul (of_Z (count childInfo)) distinctFactor)
    /\ (forall l, limit prop = Some l -> count info <= Count l).
Proof.
  intros Hmiss Hchild. unfold Distinct_convert2PhysicalPlan.
  rewrite bind_getPlanInfo, Hmiss. cbv beta iota.
  rewrite (bind_Returned _ _ _ _ _ Hchild). cbv beta iota.
  unfold deref. unfold bind at 1, ret at 1.
  eexists. split; [reflexivity |].
  set (wrapped := setCount (addPlanToResponse (asPhysical (distBase n) OpDistinct) childInfo)
                    (to_uint64 (mul (of_Z (count (addPlanToResponse
                       (asPhysical (distBase n) OpDistinct) childInfo))) distinctFactor))).
  destruct (enforceProperty_limit_only X (limit prop) wrapped _ eq_refl)
    as (Hcost & Hle & Hcap).
  split; [| split].
  - rewrite Hcost. reflexivity.
  - exact Hle.
  - exact Hcap.
Qed.

Lemma Distinct_cost_and_count_witness :
  exists info,
    Distinct_convert2PhysicalPlan Example.externals
      {| distBase := Example.base "Distinct" "distinct" [Example.colA; Example.colB] |}
      (logicalPlan Example.externals (TDataSource Example.tableT)) emptyProperty []
    = Returned ((Some info, None),
                memoize [("t"%string, [(emptyProperty, Example.tableScanInfo Example.tableT)])]
                  (Example.base "Distinct" "distinct" [Example.colA; Example.colB])
                  emptyProperty info)
    /\ cost info = of_Z 1500
    /\ count info <= 700.
Proof.
  destruct (Distinct_cost_and_count Example.externals
              {| distBase := Example.base "Distinct" "distinct" [Example.colA; Example.colB] |}
              (logicalPlan Example.externals (TDataSource Example.tableT)) emptyProperty []
              [("t"%string, [(emptyProperty, Example.tableScanInfo Example.tableT)])]
              (Example.tableScanInfo Example.tableT) eq_refl eq_refl)
    as (info & Hrun & Hcost & Hcount & _).
  exists info. split; [exact Hrun |]. split; [exact Hcost | exact Hcount].
Defined.

(** ** Sort by an expression *)

Lemma sortSelfProps_expression (items : list ByItems) :
  forall acc,
    (exists by_, In by_ items /\ forall c, Expr by_ <> ExprColumn c) ->
    sortSelfProps items acc = [].
Proof.
  induction items as [| b rest IH]; intros acc (by_ & Hin & Hexpr).
  - destruct Hin.
  - simpl. destruct (Expr b) as [c | f args | v] eqn:E; try reflexivity.
    apply IH. destruct Hin as [-> | Hin]; [| eauto].
    exfalso. exact (Hexpr c E).
Qed.

(** X19.  A Sort with a key that is not a column converts its child
    with the empty property only, and returns a Sort node carrying the
    requested limit above the plan of the child, with the count and the
    cost of the child: no cost is added for the sort.  The cost is
    [MaxFloat64] instead as soon as a column is requested of the Sort. *)
Theorem Sort_expression_key
    (X : Externals) (n : Sort) (child : LogicalPlan) (prop : requiredProperty)
    (s s1 s2 : Store) (first second : physicalPlanInfo) :
  memoized s (sortBase n) prop = None ->
  (exists by_, In by_ (SortByItems n) /\ forall c, Expr by_ <> ExprColumn c) ->
  0 <= sortKeyLen prop ->
  convert2PhysicalPlan child emptyProperty s = Returned ((Some first, None), s1) ->
  convert2PhysicalPlan child emptyProperty s1 = Returned ((Some second, None), s2) ->
  exists info,
    Sort_convert2PhysicalPlan X n child prop s
    = Returned ((Some info, None), memoize s2 (sortBase n) prop info)
    /\ p info = Some (Plan (tp (sortBase n)) (OpSort (SortByItems n) (limit prop))
                           (correlated (sortBase n)) (schema (sortBase n)) [p first])
    /\ count info = count first
    /\ cost info = if (len (props prop) =? 0) && (sortKeyLen prop =? 0)
                   then cost first else MaxFloat64.
Proof.
  intros Hmiss Hexpr Hkey Hfirst Hsecond. unfold Sort_convert2PhysicalPlan.
  rewrite bind_getPlanInfo, Hmiss. cbv beta iota zeta.
  rewrite (sortSelfProps_expression _ [] Hexpr).
  change (len (@nil columnProp)) with 0. change (0 =? 0) with true.
  cbv beta iota delta [negb andb].
  change {| props := []; sortKeyLen := 0; limit := None |} with emptyProperty.
  rewrite (bind_Returned _ _ _ _ _ Hfirst). cbv beta iota.
  rewrite (bind_Returned _ _ _ _ _ Hsecond). cbv beta iota.
  unfold deref. unfold bind at 1, ret at 1. unfold bind at 1, ret at 1.
  unfold matchProp. cbn [props sortKeyLen emptyProperty].
  change (len (@nil columnProp)) with 0.
  destruct (sortKeyLen prop =? 0) eqn:Ek.
  - apply Z.eqb_eq in Ek. rewrite Ek. change (0 <? 0) with false. cbv iota.
    change (Z.to_nat 0) with O. cbn [matchPrefix]. rewrite Z.sub_0_r.
    destruct (props prop) as [| c ps] eqn:Hprops.
    + change (len (@nil columnProp)) with 0. change (Z.to_nat 0) with O.
      cbn [matchTail]. unfold lift. unfold bind at 1, ret at 1.
      eexists. split; [reflexivity |]. repeat split.
    + rewrite len_cons_nonzero.
      assert (Hn : exists k, Z.to_nat (len (c :: ps)) = S k).
      { unfold len. simpl List.length. exists (List.length ps). lia. }
      destruct Hn as (k & ->). cbn [matchTail].
      change (index (c :: ps) 0) with (Returned c). cbn [existsb].
      unfold lift. unfold bind at 1, ret at 1.
      eexists. split; [reflexivity |]. split; [reflexivity |]. split; [reflexivity |].
      reflexivity.
  - assert (Hpos : (0 <? sortKeyLen prop) = true).
    { apply Z.ltb_lt. apply Z.eqb_neq in Ek. lia. }
    rewrite Hpos. unfold lift. unfold bind at 1, ret at 1.
    eexists. split; [reflexivity |]. split; [reflexivity |]. split; [reflexivity |].
    destruct (len (props prop) =? 0); reflexivity.
Qed.

Lemma Sort_expression_key_witness :
  exists info s',
    Sort_convert2PhysicalPlan Example.externals
      {| sortBase := Example.base "Sort" "sort" [Example.colA; Example.colB];
         SortByItems := [{| Expr := Example.plus Example.colA Example.colB; Desc := false |}];
         ExecLimit := None |}
      (logicalPlan Example.externals (TDataSource Example.tableT)) emptyProperty []
    = Returned ((Some info, None), s')
    /\ count info = 1000
    /\ cost info = of_Z 1500.
Proof.
  destruct (Sort_expression_key Example.externals
              {| sortBase := Example.base "Sort" "sort" [Example.colA; Example.colB];
                 SortByItems := [{| Expr := Example.plus Example.colA Example.colB;
                                    Desc := false |}];
                 ExecLimit := None |}
              (logicalPlan Example.externals (TDataSource Example.tableT)) emptyProperty []
              [("t"%string, [(emptyProperty, Example.tableScanInfo Example.tableT)])]
              [("t"%string, [(emptyProperty, Example.tableScanInfo Example.tableT)])]
              (Example.tableScanInfo Example.tableT) (Example.tableScanInfo Example.tableT)
              eq_refl)
    as (info & Hrun & _ & Hcount & Hcost).
  - exists {| Expr := Example.plus Example.colA Example.colB; Desc := false |}.
    split; [left; reflexivity |].
    intros c. discriminate.
  - simpl. lia.
  - reflexivity.
  - reflexivity.
  - exists info. eexists. split; [exact Hrun |]. split; [exact Hcount | exact Hcost].
Defined.

(** ** Aggregation: the streamed strategy *)

(** X20.  When an order is requested of an Aggregation and the streamed
    strategy does not apply (an aggregate function in final mode, a
    group-by item that is not a column, or a requested column that is
    not a group-by column), the child is not converted at all: the
    result is the info without a plan and of cost [MaxFloat64], no limit
    is enforced above it, and it is recorded in the memo. *)
Theorem Aggregation_stream_refused
    (X : Externals) (n : Aggregation) (child : LogicalPlan)
    (prop : requiredProperty) (s : Store) :
  memoized s (aggBase n) prop = None ->
  props prop <> [] ->
  existsb isFinalMode (AggFuncs n) = true
  \/ len (groupByCols n) <> len (GroupByItems n)
  \/ streamChildProperty n (removeLimit prop) = Returned None ->
  Aggregation_convert2PhysicalPlan X n child prop s
  = Returned ((Some unsatisfiable, None), memoize s (aggBase n) prop unsatisfiable).
Proof.
  intros Hmiss Hprops Hrefused. unfold Aggregation_convert2PhysicalPlan.
  rewrite bind_getPlanInfo, Hmiss. cbv beta iota.
  destruct (props prop) as [| c ps] eqn:Eprops; [congruence |].
  rewrite len_cons_nonzero. unfold bind at 1, ret at 1. cbv beta iota.
  assert (Hstream : Aggregation_convert2PhysicalPlanStream n child (removeLimit prop) s
                    = Returned ((Some unsatisfiable, None), s)).
  { unfold Aggregation_convert2PhysicalPlanStream.
    destruct (existsb isFinalMode (AggFuncs n)); [reflexivity |].
    destruct (len (groupByCols n) =? len (GroupByItems n)) eqn:Elen; [| reflexivity].
    cbv beta iota delta [negb].
    destruct Hrefused as [H | [H | H]]; [discriminate | |].
    - apply Z.eqb_eq in Elen. contradiction.
    - rewrite H. reflexivity. }
  rewrite (bind_Returned _ _ _ _ _ Hstream). reflexivity.
Qed.

Lemma Aggregation_stream_refused_witness :
  Aggregation_convert2PhysicalPlan Example.externals Example.groupBySum
    (logicalPlan Example.externals (TDataSource Example.tableT))
    (Example.orderBy [Example.out0]) []
  = Returned ((Some unsatisfiable, None),
              memoize [] (aggBase Example.groupBySum) (Example.orderBy [Example.out0])
                unsatisfiable).
Proof.
  apply (Aggregation_stream_refused Example.externals Example.groupBySum
           (logicalPlan Example.externals (TDataSource Example.tableT))
           (Example.orderBy [Example.out0]) []).
  - reflexivity.
  - discriminate.
  - right. left. vm_compute. discriminate.
Defined.

(** X21.  When an order is requested of an Aggregation, an error of its
    child in the streamed strategy is not returned: the error is dropped
    and the nil info is dereferenced, so that the conversion panics. *)
Theorem Aggregation_stream_child_error_panics
    (X : Externals) (n : Aggregation) (child : LogicalPlan)
    (prop newProp : requiredProperty) (s s' : Store)
    (childInfo : option physicalPlanInfo) (e : error) :
  memoized s (aggBase n) prop = None ->
  props prop <> [] ->
  existsb isFinalMode (AggFuncs n) = false ->
  len (groupByCols n) = len (GroupByItems n) ->
  streamChildProperty n (removeLimit prop) = Returned (Some newProp) ->
  convert2PhysicalPlan child newProp s = Returned ((childInfo, Some e), s') ->
  Aggregation_convert2PhysicalPlan X n child prop s = Panicked.
Proof.
  intros Hmiss Hprops Hfinal Hlen Hnew Hchild. unfold Aggregation_convert2PhysicalPlan.
  rewrite bind_getPlanInfo, Hmiss. cbv beta iota.
  destruct (props prop) as [| c ps] eqn:Eprops; [congruence |].
  rewrite len_cons_nonzero. unfold bind at 1, ret at 1. cbv beta iota.
  assert (Hstream : Aggregation_convert2PhysicalPlanStream n child (removeLimit prop) s
                    = Returned ((None, Some e), s')).
  { unfold Aggregation_convert2PhysicalPlanStream. rewrite Hfinal, Hlen, Z.eqb_refl.
    cbv beta iota delta [negb]. rewrite Hnew. unfold lift. unfold bind at 1, ret at 1.
    rewrite (bind_Returned _ _ _ _ _ Hchild). reflexivity. }
  rewrite (bind_Returned _ _ _ _ _ Hstream). reflexivity.
Qed.

Lemma Aggregation_stream_child_error_panics_witness :
  Aggregation_convert2PhysicalPlan Example.externals Example.groupByAB
    (logicalPlan Example.externals Example.failingTree)
    (Example.orderBy [Example.colA]) []
  = Panicked.
Proof.
  eapply (Aggregation_stream_child_error_panics Example.externals Example.groupByAB
            (logicalPlan Example.externals Example.failingTree)
            (Example.orderBy [Example.colA])).
  - reflexivity.
  - discriminate.
  - reflexivity.
  - reflexivity.
  - vm_compute. reflexivity.
  - vm_compute. reflexivity.
Defined.

(** ** Projection: the property of the child *)

Lemma nth_error_update {A : Type} (a : A) (l : list A) :
  forall n, (n < List.length l)%nat ->
    List.length (firstn n l ++ a :: skipn (S n) l) = List.length l
    /\ nth_error (firstn n l ++ a :: skipn (S n) l) n = Some a
    /\ forall m, m <> n ->
         nth_error (firstn n l ++ a :: skipn (S n) l) m = nth_error l m.
Proof.
  induction l as [| x xs IH]; intros n Hn; simpl in Hn; [lia |].
  destruct n as [| n].
  - simpl. repeat split. intros [| m] Hm; [congruence | reflexivity].
  - destruct (IH n ltac:(lia)) as (Hlen & Hat & Hother).
    change (firstn (S n) (x :: xs) ++ a :: skipn (S (S n)) (x :: xs))
      with (x :: (firstn n xs ++ a :: skipn (S n) xs)).
    split; [| split].
    + change (S (List.length (firstn n xs ++ a :: skipn (S n) xs)) = S (List.length xs)).
      rewrite Hlen. reflexivity.
    + exact Hat.
    + intros [| m] Hm; [reflexivity |].
      change (nth_error (firstn n xs ++ a :: skipn (S n) xs) m = nth_error xs m).
      apply Hother. congruence.
Qed.

Lemma setNth_Returned {A : Type} (l l' : list A) (i : Z) (a : A) :
  setNth l i a = Returned l' ->
  0 <= i < len l
  /\ len l' = len l
  /\ index l' i = Returned a
  /\ forall j, j <> i -> index l' j = index l j.
Proof.
  unfold setNth. destruct (i <? 0) eqn:E1; [discriminate |].
  destruct (len l <=? i) eqn:E2; [discriminate |].
  apply Z.ltb_ge in E1. apply Z.leb_gt in E2. intros H. injection H as <-.
  assert (Hn : (Z.to_nat i < List.length l)%nat) by (unfold len in E2; lia).
  destruct (nth_error_update a l _ Hn) as (Hlen & Hat & Hother).
  split; [lia |]. split; [unfold len; f_equal; exact Hlen |]. split.
  - unfold index. rewrite (proj2 (Z.ltb_ge i 0) E1).
    change (match nth_error (firstn (Z.to_nat i) l ++ a :: skipn (S (Z.to_nat i)) l)
                    (Z.to_nat i) with
            | Some x => Returned x | None => Panicked end = Returned a).
    rewrite Hat. reflexivity.
  - intros j Hj. unfold index. destruct (j <? 0) eqn:Ej; [reflexivity |].
    apply Z.ltb_ge in Ej.
    change (match nth_error (firstn (Z.to_nat i) l ++ a :: skipn (S (Z.to_nat i)) l)
                    (Z.to_nat j) with
            | Some x => Returned x | None => Panicked end
            = match nth_error l (Z.to_nat j) with
              | Some x => Returned x | None => Panicked end).
    rewrite Hother; [reflexivity | lia].
Qed.

Lemma projectProps_invariant (n : Projection) (childSchema : Schema) :
  forall ps usedCols acc k newProps keyLen,
    NoDup (map (fun c => GetIndex childSchema (col c)) acc) ->
    (forall c, In c acc -> index usedCols (GetIndex childSchema (col c)) = Returned true) ->
    projectProps n childSchema ps usedCols acc k = Returned (Some (newProps, keyLen)) ->
    NoDup (map (fun c => GetIndex childSchema (col c)) newProps)
    /\ (forall c, In c newProps ->
          0 <= GetIndex childSchema (col c) < len usedCols
          /\ (In c acc
              \/ exists c0, In c0 ps /\ desc c0 = desc c
                   /\ index (Exprs n) (GetIndex (schema (projBase n)) (col c0))
                      = Returned (ExprColumn (col c))))
    /\ keyLen <= k.
Proof.
  induction ps as [| c0 ps IH]; intros usedCols acc k newProps keyLen Hnodup Hused; simpl.
  - intros H. injection H as <- <-. split; [exact Hnodup |]. split; [| lia].
    intros c Hc. split; [| left; exact Hc].
    apply (index_Returned _ _ _ (Hused c Hc)).
  - destruct (index (Exprs n) (GetIndex (schema (projBase n)) (col c0)))
      as [[v | f args | d] |] eqn:He; try discriminate.
    + unfold isUsed.
      destruct (index usedCols (GetIndex childSchema v)) as [[|] |] eqn:Eu; try discriminate.
      * intros H. destruct (IH _ _ _ _ _ Hnodup Hused H) as (Hnd & Hall & Hk).
        split; [exact Hnd |]. split; [| exact Hk].
        intros c Hc. destruct (Hall c Hc) as (Hr & [Hacc | (c1 & Hin & Hd & Hi)]).
        -- split; [exact Hr | left; exact Hacc].
        -- split; [exact Hr |]. right. exists c1. split; [right; exact Hin | split; assumption].
      * destruct (setNth usedCols (GetIndex childSchema v) true) as [usedCols' |] eqn:Es;
          [| discriminate].
        destruct (setNth_Returned _ _ _ _ Es) as (Hrange & Hlen & Hat & Hother).
        intros H.
        assert (Hfresh : forall c, In c acc ->
                  GetIndex childSchema (col c) <> GetIndex childSchema v).
        { intros c Hc Heq. specialize (Hused c Hc). rewrite Heq, Eu in Hused. discriminate. }
        assert (Hnodup' : NoDup (map (fun c => GetIndex childSchema (col c))
                                   (acc ++ [{| col := v; desc := desc c0 |}]))).
        { rewrite map_app. simpl. apply NoDup_app.
          - exact Hnodup.
          - constructor; [intros [] | constructor].
          - intros x Hx [<- | []]. apply in_map_iff in Hx.
            destruct Hx as (c & Hgi & Hc). exact (Hfresh c Hc Hgi). }
        assert (Hused' : forall c, In c (acc ++ [{| col := v; desc := desc c0 |}]) ->
                  index usedCols' (GetIndex childSchema (col c)) = Returned true).
        { intros c Hc. apply in_app_or in Hc. destruct Hc as [Hc | [<- | []]].
          - rewrite Hother by (apply Hfresh; exact Hc). apply Hused. exact Hc.
          - exact Hat. }
        destruct (IH _ _ _ _ _ Hnodup' Hused' H) as (Hnd & Hall & Hk).
        split; [exact Hnd |]. split; [| exact Hk].
        intros c Hc. destruct (Hall c Hc) as (Hr & Hfrom). rewrite Hlen in Hr.
        split; [exact Hr |].
        destruct Hfrom as [Hacc | (c1 & Hin & Hd & Hi)].
        -- apply in_app_or in Hacc. destruct Hacc as [Hacc | [<- | []]].
           ++ left. exact Hacc.
           ++ right. exists c0. split; [left; reflexivity | split; [reflexivity | exact He]].
        -- right. exists c1. split; [right; exact Hin | split; assumption].
    + intros H. destruct (IH _ _ _ _ _ Hnodup Hused H) as (Hnd & Hall & Hk).
      split; [exact Hnd |]. split; [| lia].
      intros c Hc. destruct (Hall c Hc) as (Hr & [Hacc | (c1 & Hin & Hd & Hi)]).
      * split; [exact Hr | left; exact Hacc].
      * split; [exact Hr |]. right. exists c1. split; [right; exact Hin | split; assumption].
Qed.

(** X22.  A Projection that returns a plan has converted its child with
    a property that keeps the requested limit, names no column twice,
    names only columns of the child, each of them the expression of a
    requested output column with the direction requested for it, and has
    a sort key no longer than the requested one; the result is the
    Projection above the plan of the child, with its cost and count. *)
Theorem Projection_child_property
    (n : Projection) (child : LogicalPlan) (prop : requiredProperty)
    (s s' : Store) (info : physicalPlanInfo) :
  memoized s (projBase n) prop = None ->
  Projection_convert2PhysicalPlan n child prop s = Returned ((Some info, None), s') ->
  p info <> None ->
  exists newProp childInfo s1,
    convert2PhysicalPlan child newProp s = Returned ((Some childInfo, None), s1)
    /\ info = addPlanToResponse (asPhysical (projBase n) (OpProjection (Exprs n))) childInfo
    /\ s' = memoize s1 (projBase n) prop info
    /\ limit newProp = limit prop
    /\ sortKeyLen newProp <= sortKeyLen prop
    /\ NoDup (map col (props newProp))
    /\ forall c, In c (props newProp) ->
         0 <= GetIndex (GetSchema child) (col c) < len (GetSchema child)
         /\ exists c0, In c0 (props prop) /\ desc c0 = desc c
              /\ index (Exprs n) (GetIndex (schema (projBase n)) (col c0))
                 = Returned (ExprColumn (col c)).
Proof.
  intros Hmiss. unfold Projection_convert2PhysicalPlan.
  rewrite bind_getPlanInfo, Hmiss. cbv beta iota zeta.
  unfold bind at 1, lift.
  destruct (projectProps n (GetSchema child) (props prop)
              (repeat false (List.length (GetSchema child))) [] (sortKeyLen prop))
    as [[[newProps keyLen] |] |] eqn:Ep; unfold ret at 1, panic; try discriminate.
  - unfold bind at 1.
    destruct (convert2PhysicalPlan child _ s) as [[[ci [e |]] s1] |] eqn:Ec;
      try discriminate.
    destruct ci as [ci |]; [| discriminate].
    unfold deref. unfold bind at 1, ret at 1. unfold bind, storePlanInfo, ret.
    intros H _. injection H as <- <-.
    destruct (projectProps_invariant n (GetSchema child) _ _ [] _ _ _
                (NoDup_nil Z) (fun c (H : In c []) => match H with end) Ep)
      as (Hnd & Hall & Hk).
    eexists _, ci, s1. split; [exact Ec |]. repeat split; try assumption.
    + simpl. apply (NoDup_map_inv (fun c => GetIndex (GetSchema child) c)).
      rewrite map_map. exact Hnd.
    + destruct (Hall c H) as ((Hlo & _) & _). exact Hlo.
    + destruct (Hall c H) as ((_ & Hhi) & _). rewrite len_repeat in Hhi. exact Hhi.
    + destruct (Hall c H) as (_ & [[] | Hfrom]). exact Hfrom.
  - unfold ret. intros H Hp. injection H as <- _. exfalso. apply Hp. reflexivity.
Qed.

Lemma Projection_child_property_witness :
  exists info s',
    Projection_convert2PhysicalPlan Example.projectSum
      (logicalPlan Example.externals (TDataSource Example.tableT))
      (Example.orderBy [Example.out0; Example.out0]) []
    = Returned ((Some info, None), s')
    /\ exists newProp childInfo s1,
         convert2PhysicalPlan (logicalPlan Example.externals (TDataSource Example.tableT))
           newProp [] = Returned ((Some childInfo, None), s1)
         /\ sortKeyLen newProp <= 2
         /\ NoDup (map col (props newProp)).
Proof.
  evar (info : physicalPlanInfo). evar (s' : Store).
  assert (Hrun :
    Projection_convert2PhysicalPlan Example.projectSum
      (logicalPlan Example.externals (TDataSource Example.tableT))
      (Example.orderBy [Example.out0; Example.out0]) []
    = Returned ((Some info, None), s')).
  { vm_compute. reflexivity. }
  destruct (Projection_child_property Example.projectSum
              (logicalPlan Example.externals (TDataSource Example.tableT))
              (Example.orderBy [Example.out0; Example.out0]) [] s' info eq_refl Hrun)
    as (newProp & childInfo & s1 & Hchild & _ & _ & _ & Hkey & Hnd & _).
  - discriminate.
  - exists info, s'. split; [exact Hrun |].
    exists newProp, childInfo, s1. split; [exact Hchild |]. split; [exact Hkey | exact Hnd].
Defined.

(** ** Scans of a DataSource without a filter *)

Lemma priKeyPosition_range (cols : list ColumnInfo) :
  forall i0 i, priKeyPosition cols i0 = Some i -> i0 <= i < i0 + len cols.
Proof.
  induction cols as [| c rest IH]; intros i0 i; simpl; [discriminate |].
  unfold len in *. simpl List.length. destruct (ciPriKey c).
  - intros H. injection H as <-. lia.
  - intros H. apply IH in H. lia.
Qed.

(** X23.  Without a filter above it, a DataSource whose schema has a
    column for each of its table columns and whose row count fits int64
    builds every scan without error or panic and estimates each at the
    row count of the table, whether or not the primary key is the
    handle: the table scan reads the whole range of handles, and the
    scan of an index its full range. *)
Theorem scans_without_filter_count
    (X : Externals) (n : DataSource) (prop : requiredProperty) (txn : option Txn) :
  dsParent n = None ->
  GetTxn (dsCtx n) = (txn, None) ->
  0 <= TCount (dsStatisticTable n) < 2 ^ 63 ->
  len (dsColumns n) <= len (schema (dsBase n)) ->
  let fresh := {| p := None; cost := zero; count := TCount (dsStatisticTable n) |} in
  (exists ts params,
     convert2TableScan X n prop = Returned (Some (matchProperty X ts prop [fresh]), None)
     /\ PlanOp ts = PhysicalTableScan params
     /\ GetChildren ts = []
     /\ tsRanges params = [{| trLowVal := MinInt64; trHighVal := MaxInt64 |}])
  /\ forall idx,
       exists indexScan params,
         convert2IndexScan X n prop idx
         = Returned (Some (matchProperty X indexScan prop [fresh]), None)
         /\ PlanOp indexScan = PhysicalIndexScan params
         /\ GetChildren indexScan = []
         /\ isIndex params = idx
         /\ isRanges params = fullIndexRanges X (StmtCtx (dsCtx n))
         /\ isDoubleRead params
            = negb (isCoveringIndex (dsColumns n) (IdxColumns idx) (PKIsHandle (dsTable n))).
Proof.
  intros Hparent Htxn HT Hschema fresh.
  assert (Hw : wrap_uint64 (TCount (dsStatisticTable n)) = TCount (dsStatisticTable n)).
  { unfold wrap_uint64. apply Z.mod_small. lia. }
  split.
  - unfold convert2TableScan. rewrite Htxn, Hparent. cbv beta iota zeta.
    destruct (PKIsHandle (dsTable n)).
    + assert (Hcount : getRowCountByTableRange (StmtCtx (dsCtx n)) (dsStatisticTable n)
                         [{| trLowVal := MinInt64; trHighVal := MaxInt64 |}]
                         (priKeyOffset (TableColumns (dsTable n)))
                       = Returned (TCount (dsStatisticTable n), None)).
      { unfold getRowCountByTableRange. simpl. unfold tableRangeRowCount. simpl.
        rewrite Hw. change (0 + TCount (dsStatisticTable n)) with (TCount (dsStatisticTable n)).
        rewrite Hw, Z.ltb_irrefl. reflexivity. }
      destruct (priKeyPosition (dsColumns n) 0) as [i |] eqn:Epk.
      * apply priKeyPosition_range in Epk.
        destruct (index_in_range (schema (dsBase n)) i ltac:(lia)) as [c ->].
        rewrite Hcount. cbn [newTableSource srcConditionPBExpr].
        eexists _, _. split; [reflexivity |]. repeat split.
      * rewrite Hcount. cbn [newTableSource srcConditionPBExpr].
        eexists _, _. split; [reflexivity |]. repeat split.
    + cbn [newTableSource srcConditionPBExpr]. rewrite Hw.
      eexists _, _. split; [reflexivity |]. repeat split.
  - intros idx. unfold convert2IndexScan. rewrite Htxn, Hparent. cbv beta iota zeta.
    rewrite Hw. eexists _, _. split; [reflexivity |]. repeat split.
Qed.

Lemma scans_without_filter_count_witness :
  exists ts,
    convert2TableScan Example.externals Example.tableT emptyProperty
    = Returned (Some (matchProperty Example.externals ts emptyProperty
                        [{| p := None; cost := zero; count := 1000 |}]), None).
Proof.
  destruct (scans_without_filter_count Example.externals Example.tableT emptyProperty None
              eq_refl eq_refl) as ((ts & params & Hts & _) & _).
  - simpl. lia.
  - vm_compute. discriminate.
  - exists ts. exact Hts.
Defined.

(** ** Aggregation: the property of the child of the streamed strategy *)

Lemma In_index {A : Type} (l : list A) (a : A) :
  In a l -> exists i, index l i = Returned a.
Proof.
  intros H. apply In_nth_error in H. destruct H as [k Hk].
  exists (Z.of_nat k). unfold index.
  destruct (Z.of_nat k <? 0) eqn:E; [apply Z.ltb_lt in E; lia |].
  rewrite Nat2Z.id, Hk. reflexivity.
Qed.

Lemma streamSortKeys_invariant (n : Aggregation) :
  forall ps isSortKey acc isSortKey' newProps,
    (forall i, index isSortKey i = Returned true ->
               exists c, In c acc /\ index (groupByCols n) i = Returned (col c)) ->
    streamSortKeys n ps isSortKey acc = Returned (Some (isSortKey', newProps)) ->
    len isSortKey' = len isSortKey
    /\ (forall i, index isSortKey' i = Returned true ->
                  exists c, In c newProps /\ index (groupByCols n) i = Returned (col c))
    /\ (forall c, In c newProps -> In c acc \/ In (col c) (groupByCols n))
    /\ map desc newProps = map desc acc ++ map desc ps.
Proof.
  induction ps as [| pro ps IH]; intros isSortKey acc isSortKey' newProps Hinv; simpl.
  - intros H. injection H as <- <-. rewrite app_nil_r. repeat split; auto.
  - destruct (getGbyColIndex n (col pro) =? -1); [discriminate |].
    destruct (setNth isSortKey (getGbyColIndex n (col pro)) true) as [marked |] eqn:Es;
      [| discriminate].
    destruct (index (groupByCols n) (getGbyColIndex n (col pro))) as [g |] eqn:Eg;
      [| discriminate].
    destruct (setNth_Returned _ _ _ _ Es) as (_ & Hlen & _ & Hother).
    intros H.
    assert (Hinv' : forall i, index marked i = Returned true ->
              exists c, In c (acc ++ [{| col := g; desc := desc pro |}])
                        /\ index (groupByCols n) i = Returned (col c)).
    { intros i Hi. destruct (Z.eq_dec i (getGbyColIndex n (col pro))) as [-> | Hne].
      - exists {| col := g; desc := desc pro |}. split; [| exact Eg].
        apply in_or_app. right. left. reflexivity.
      - rewrite Hother in Hi by exact Hne. destruct (Hinv i Hi) as (c & Hc & Hg).
        exists c. split; [apply in_or_app; left; exact Hc | exact Hg]. }
    destruct (IH _ _ _ _ Hinv' H) as (Hlen' & Hkeys & Hfrom & Hdesc).
    split; [rewrite Hlen'; exact Hlen |]. split; [exact Hkeys |]. split.
    + intros c Hc. destruct (Hfrom c Hc) as [Hacc | Hg]; [| right; exact Hg].
      apply in_app_or in Hacc. destruct Hacc as [Hacc | [<- | []]]; [left; exact Hacc |].
      right. exact (index_In _ _ _ Eg).
    + rewrite Hdesc, map_app, <- app_assoc. reflexivity.
Qed.

Lemma restOfGroupBy_spec (gbyCols : list Column) :
  forall isSortKey,
    len isSortKey = len gbyCols ->
    (forall c, In c (restOfGroupBy gbyCols isSortKey) ->
               In (col c) gbyCols /\ desc c = false)
    /\ (forall i g, index gbyCols i = Returned g -> index isSortKey i = Returned false ->
                    In {| col := g; desc := false |} (restOfGroupBy gbyCols isSortKey)).
Proof.
  induction gbyCols as [| g0 gs IH]; intros [| b bs] Hlen; unfold len in Hlen;
    simpl in Hlen; try lia.
  - split; [intros c [] |]. intros i g H. unfold index in H.
    destruct (i <? 0); [discriminate |]. destruct (Z.to_nat i); discriminate.
  - destruct (IH bs ltac:(unfold len; lia)) as (Hall & Hcover).
    assert (Hstep : forall (A : Type) (x : A) (xs : list A) (i : Z),
              0 < i -> index (x :: xs) i = index xs (i - 1)).
    { intros A x xs i Hi. unfold index.
      destruct (i <? 0) eqn:E1; [apply Z.ltb_lt in E1; lia |].
      destruct (i - 1 <? 0) eqn:E2; [apply Z.ltb_lt in E2; lia |].
      replace (Z.to_nat i) with (S (Z.to_nat (i - 1))) by lia. reflexivity. }
    split.
    + intros c Hc. simpl in Hc. destruct b.
      * destruct (Hall c Hc) as (Hin & Hd). split; [right; exact Hin | exact Hd].
      * destruct Hc as [<- | Hc]; [split; [left |]; reflexivity |].
        destruct (Hall c Hc) as (Hin & Hd). split; [right; exact Hin | exact Hd].
    + intros i g Hg Hb.
      assert (Hi : 0 <= i).
      { unfold index in Hg. destruct (i <? 0) eqn:E; [discriminate |].
        apply Z.ltb_ge in E. exact E. }
      destruct (Z.eq_dec i 0) as [-> | Hne].
      * injection Hg as ->. injection Hb as ->. left. reflexivity.
      * rewrite Hstep in Hg by lia. rewrite Hstep in Hb by lia.
        specialize (Hcover _ _ Hg Hb). simpl. destruct b; [exact Hcover | right; exact Hcover].
Qed.

(** X24.  The streamed strategy of an Aggregation that returns a plan
    has converted the child with a property without limit whose sort key
    has one column for each requested column, with the direction
    requested for it, and whose columns are the group-by columns, each
    of them present: the child is asked for an order on every group-by
    column.  The count of the result is the count of the child scaled by
    [aggFactor]. *)
Theorem Aggregation_stream_child_property
    (n : Aggregation) (child : LogicalPlan) (prop : requiredProperty)
    (s s' : Store) (info : physicalPlanInfo) :
  Aggregation_convert2PhysicalPlanStream n child prop s = Returned ((Some info, None), s') ->
  p info <> None ->
  exists newProp childInfo,
    convert2PhysicalPlan child newProp s = Returned ((Some childInfo, None), s')
    /\ limit newProp = None
    /\ sortKeyLen newProp = len (props prop)
    /\ map desc (firstn (List.length (props prop)) (props newProp)) = map desc (props prop)
    /\ (forall g, In g (groupByCols n) <-> exists c, In c (props newProp) /\ col c = g)
    /\ count info = to_uint64 (mul (of_Z (count childInfo)) aggFactor).
Proof.
  unfold Aggregation_convert2PhysicalPlanStream.
  destruct (existsb isFinalMode (AggFuncs n)).
  { unfold ret. intros H Hp. injection H as <- _. exfalso. apply Hp. reflexivity. }
  destruct (negb (len (groupByCols n) =? len (GroupByItems n))).
  { unfold ret. intros H Hp. injection H as <- _. exfalso. apply Hp. reflexivity. }
  unfold streamChildProperty.
  destruct (streamSortKeys n (props prop) (repeat false (List.length (groupByCols n))) [])
    as [[[isSortKey newProps] |] |] eqn:Ek; unfold lift; unfold bind at 1, ret at 1, panic;
    try discriminate.
  2: { unfold ret. intros H Hp. injection H as <- _. exfalso. apply Hp. reflexivity. }
  unfold bind at 1.
  destruct (convert2PhysicalPlan child _ s) as [[[ci [e |]] s1] |] eqn:Ec; try discriminate.
  destruct ci as [ci |]; [| discriminate].
  unfold deref, bind, ret. intros H _. injection H as <- <-.
  assert (Hinit : forall i, index (repeat false (List.length (groupByCols n))) i = Returned true ->
            exists c, In c (@nil columnProp) /\ index (groupByCols n) i = Returned (col c)).
  { intros i Hi. apply index_In in Hi. apply repeat_spec in Hi. discriminate. }
  destruct (streamSortKeys_invariant n _ _ _ _ _ Hinit Ek) as (Hlen & Hkeys & Hfrom & Hdesc).
  rewrite len_repeat in Hlen.
  destruct (restOfGroupBy_spec (groupByCols n) isSortKey Hlen) as (Hrest & Hcover).
  simpl in Hdesc.
  assert (Hcount : List.length newProps = List.length (props prop)).
  { rewrite <- (length_map desc newProps), Hdesc. apply length_map. }
  eexists _, ci. split; [exact Ec |]. cbn [limit sortKeyLen props].
  split; [reflexivity |]. split; [unfold len; rewrite Hcount; reflexivity |]. split; [| split].
  - rewrite <- Hcount, firstn_app, Nat.sub_diag, firstn_all. simpl.
    rewrite app_nil_r. exact Hdesc.
  - intros g. split.
    + intros Hg. destruct (In_index _ _ Hg) as [i Hi].
      assert (Hr : 0 <= i < len isSortKey).
      { rewrite Hlen. exact (index_Returned _ _ _ Hi). }
      destruct (index_in_range _ _ Hr) as [[|] Hb].
      * destruct (Hkeys i Hb) as (c & Hc & Hcol). exists c.
        split; [apply in_or_app; left; exact Hc |]. congruence.
      * exists {| col := g; desc := false |}.
        split; [apply in_or_app; right; exact (Hcover i g Hi Hb) | reflexivity].
    + intros (c & Hc & <-). apply in_app_or in Hc. destruct Hc as [Hc | Hc].
      * destruct (Hfrom c Hc) as [[] | Hg]. exact Hg.
      * exact (proj1 (Hrest c Hc)).
  - reflexivity.
Qed.

Lemma Aggregation_stream_child_property_witness :
  exists info s' newProp childInfo,
    Aggregation_convert2PhysicalPlanStream Example.groupByAB
      (logicalPlan Example.externals (TDataSource Example.tableT))
      (Example.orderBy [Example.colB]) []
    = Returned ((Some info, None), s')
    /\ convert2PhysicalPlan (logicalPlan Example.externals (TDataSource Example.tableT))
         newProp [] = Returned ((Some childInfo, None), s')
    /\ sortKeyLen newProp = 1
    /\ exists c, In c (props newProp) /\ col c = Example.colA.
Proof.
  evar (info : physicalPlanInfo). evar (s' : Store).
  assert (Hrun :
    Aggregation_convert2PhysicalPlanStream Example.groupByAB
      (logicalPlan Example.externals (TDataSource Example.tableT))
      (Example.orderBy [Example.colB]) []
    = Returned ((Some info, None), s')).
  { vm_compute. reflexivity. }
  destruct (Aggregation_stream_child_property Example.groupByAB
              (logicalPlan Example.externals (TDataSource Example.tableT))
              (Example.orderBy [Example.colB]) [] s' info Hrun)
    as (newProp & childInfo & Hchild & _ & Hkey & _ & Hcols & _).
  - discriminate.
  - exists info, s', newProp, childInfo. split; [exact Hrun |]. split; [exact Hchild |].
    split; [exact Hkey |]. apply Hcols. left. reflexivity.
Defined.

(** ** Caches below an Apply *)

(** X25.  [addCachePlan] keeps the root of the plan and the number of
    its children, and leaves no child that is neither correlated nor a
    Cache: a child that is not correlated is put below a Cache with its
    schema, a correlated one is treated in the same way.  A plan with a
    nil child makes it panic. *)
Theorem addCachePlan_children (pl : PhysicalPlan) :
  (forall pl',
     addCachePlan pl = Returned pl' ->
     PlanOp pl' = PlanOp pl
     /\ IsCorrelated pl' = IsCorrelated pl
     /\ PGetSchema pl' = PGetSchema pl
     /\ Forall2 (fun child newChild =>
                   exists c c', child = Some c /\ newChild = Some c'
                     /\ PGetSchema c' = PGetSchema c
                     /\ if IsCorrelated c
                        then IsCorrelated c' = true /\ addCachePlan c = Returned c'
                        else PlanOp c' = Cache /\ GetChildren c' = [Some c])
                (GetChildren pl) (GetChildren pl'))
  /\ (In None (GetChildren pl) -> addCachePlan pl = Panicked).
Proof.
  assert (Hroot : forall q q', addCachePlan q = Returned q' ->
            PlanOp q' = PlanOp q /\ IsCorrelated q' = IsCorrelated q
            /\ PGetSchema q' = PGetSchema q).
  { intros [t o c sch [| ch rest]] q'; simpl.
    - intros H. injection H as <-. repeat split.
    - match goal with |- context [match ?x with Returned _ => _ | Panicked => _ end] =>
        destruct x end; [| discriminate].
      intros H. injection H as <-. repeat split. }
  destruct pl as [t o c sch children].
  destruct children as [| ch rest].
  { split; [| intros []]. simpl. intros pl' H. injection H as <-.
    repeat split. constructor. }
  pose (loop := fix loop (l : list (option PhysicalPlan)) : outcome (list (option PhysicalPlan)) :=
         match l with
         | [] => Returned []
         | None :: _ => Panicked
         | Some child :: rest =>
             match (if IsCorrelated child then addCachePlan child
                    else Returned (Plan "" Cache false (PGetSchema child) [Some child])),
                   loop rest with
             | Returned nc, Returned r => Returned (Some nc :: r)
             | _, _ => Panicked
             end
         end).
  assert (Hloop : forall l,
            (forall l', loop l = Returned l' ->
               Forall2 (fun child newChild =>
                   exists c c', child = Some c /\ newChild = Some c'
                     /\ PGetSchema c' = PGetSchema c
                     /\ if IsCorrelated c
                        then IsCorrelated c' = true /\ addCachePlan c = Returned c'
                        else PlanOp c' = Cache /\ GetChildren c' = [Some c]) l l')
            /\ (In None l -> loop l = Panicked)).
  { induction l as [| [child |] l IH].
    - split; [| intros []]. simpl. intros l' H. injection H as <-. constructor.
    - destruct IH as (IHok & IHnil). split.
      + intros l'. cbn [loop]. fold loop.
        destruct (IsCorrelated child) eqn:Ecor.
        * destruct (addCachePlan child) as [nc |] eqn:En; [| discriminate].
          destruct (loop l) as [r |]; [| discriminate].
          intros H. injection H as <-. constructor; [| apply IHok; reflexivity].
          exists child, nc. destruct (Hroot _ _ En) as (_ & Hc & Hs).
          rewrite Ecor. repeat split; congruence.
        * destruct (loop l) as [r |]; [| discriminate].
          intros H. injection H as <-. constructor; [| apply IHok; reflexivity].
          exists child, (Plan "" Cache false (PGetSchema child) [Some child]).
          rewrite Ecor. repeat split.
      + intros [H | H]; [discriminate |]. cbn [loop]. fold loop. rewrite (IHnil H).
        destruct (if IsCorrelated child then _ else _); reflexivity.
    - split; [intros l' H; cbn in H; discriminate H | reflexivity]. }
  destruct (Hloop (ch :: rest)) as (Hok & Hnil).
  assert (Hunfold : addCachePlan (Plan t o c sch (ch :: rest))
                    = match loop (ch :: rest) with
                      | Returned newChildren => Returned (Plan t o c sch newChildren)
                      | Panicked => Panicked
                      end) by reflexivity.
  rewrite Hunfold. clear Hunfold.
  split.
  - intros pl'. destruct (loop (ch :: rest)) as [newChildren |] eqn:El; [| discriminate].
    intros H. injection H as <-. repeat split. apply Hok. reflexivity.
  - intros H. cbn [GetChildren] in H. rewrite (Hnil H). reflexivity.
Qed.

Lemma addCachePlan_children_witness :
  addCachePlan (Plan "PhysicalApply" (PhysicalApply [] None) true []
                  [Some (Plan "Dummy" PhysicalDummyScan false [Example.colA] []); None])
  = Panicked
  /\ exists pl',
       addCachePlan (Plan "PhysicalApply" (PhysicalApply [] None) true []
                       [Some (Plan "Dummy" PhysicalDummyScan false [Example.colA] [])])
       = Returned pl'
       /\ PlanOp pl' = PhysicalApply [] None.
Proof.
  split.
  - apply (proj2 (addCachePlan_children _)). right. left. reflexivity.
  - eexists. split; [reflexivity |].
    apply (proj1 (addCachePlan_children
                    (Plan "PhysicalApply" (PhysicalApply [] None) true []
                       [Some (Plan "Dummy" PhysicalDummyScan false [Example.colA] [])])) _
                 eq_refl).
Defined.

(** ** Limit *)

(** X26.  A Limit converts its child with its own offset and count as
    the only request, whatever is requested of it, and adds no node of
    its own: when nothing is requested the result is the info of the
    child itself; a requested order is enforced by a Sort above the plan
    of the child, never passed to the child.  The count is never above
    the count that the child returned. *)
Theorem Limit_pushes_limit_only
    (X : Externals) (n : LimitNode) (child : LogicalPlan) (prop : requiredProperty)
    (s s1 : Store) (childInfo : physicalPlanInfo) (cp : PhysicalPlan) :
  memoized s (limBase n) prop = None ->
  convert2PhysicalPlan child
    (limitProperty (Some {| Offset := limOffset n; Count := limCount n |})) s
  = Returned ((Some childInfo, None), s1) ->
  p childInfo = Some cp ->
  exists info top,
    Limit_convert2PhysicalPlan X n child prop s
    = Returned ((Some info, None), memoize s1 (limBase n) prop info)
    /\ p info = Some top
    /\ count info <= count childInfo
    /\ (props prop = [] -> limit prop = None -> info = childInfo)
    /\ (props prop <> [] ->
        PlanOp top = OpSort (byItemsOf (props prop)) (limit prop)
        /\ GetChildren top = [Some cp]).
Proof.
  intros Hmiss Hchild Hp. unfold Limit_convert2PhysicalPlan.
  rewrite bind_getPlanInfo, Hmiss. cbv beta iota.
  rewrite (bind_Returned _ _ _ _ _ Hchild). cbv beta iota.
  unfold deref. unfold bind at 1, ret at 1. unfold bind, storePlanInfo, ret.
  exists (enforceProperty X prop childInfo).
  unfold enforceProperty. rewrite Hp.
  destruct (props prop) as [| c ps] eqn:Hprops;
    [change (len (@nil columnProp) =? 0) with true | rewrite len_cons_nonzero];
    cbv beta iota delta [negb];
    destruct (limit prop) as [l |] eqn:Hlimit.
  - eexists. split; [reflexivity |].
    destruct (Count l <? count (addPlanToResponse _ childInfo)) eqn:E;
      (split; [reflexivity |]); (split; [| split; [discriminate | congruence]]).
    + apply Z.ltb_lt in E. simpl in *. lia.
    + simpl. lia.
  - exists cp. split; [reflexivity |]. split; [exact Hp |]. split; [lia |].
    split; [reflexivity | congruence].
  - eexists. split; [reflexivity |].
    match goal with |- context [if ?b then _ else _] => destruct b eqn:E end;
      (split; [reflexivity |]);
      (split; [| split; [discriminate
                        | intros _; split; [reflexivity | simpl; rewrite Hp; reflexivity]]]).
    + apply Z.ltb_lt in E. simpl in *. lia.
    + simpl. lia.
  - eexists. split; [reflexivity |]. split; [reflexivity |]. split; [simpl; lia |].
    split; [discriminate | intros _; split; [reflexivity | simpl; rewrite Hp; reflexivity]].
Qed.

Lemma Limit_pushes_limit_only_witness :
  exists info,
    Limit_convert2PhysicalPlan Example.externals
      {| limBase := Example.base "Limit" "limit" [Example.colA; Example.colB];
         limOffset := 0; limCount := 10 |}
      (logicalPlan Example.externals (TDataSource Example.tableT))
      (Example.orderBy [Example.colA]) []
    = Returned ((Some info, None),
                memoize [("t"%string,
                          [(limitProperty (Some {| Offset := 0; Count := 10 |}),
                            Example.tableScanInfo Example.tableT)])]
                  (Example.base "Limit" "limit" [Example.colA; Example.colB])
                  (Example.orderBy [Example.colA]) info)
    /\ count info <= 1000.
Proof.
  destruct (Limit_pushes_limit_only Example.externals
              {| limBase := Example.base "Limit" "limit" [Example.colA; Example.colB];
                 limOffset := 0; limCount := 10 |}
              (logicalPlan Example.externals (TDataSource Example.tableT))
              (Example.orderBy [Example.colA]) []
              [("t"%string,
                [(limitProperty (Some {| Offset := 0; Count := 10 |}),
                  Example.tableScanInfo Example.tableT)])]
              (Example.tableScanInfo Example.tableT)
              (match p (Example.tableScanInfo Example.tableT) with
               | Some cp => cp
               | None => Plan "" PhysicalDummyScan false [] []
               end)
              eq_refl eq_refl eq_refl)
    as (info & top & Hrun & _ & Hcount & _).
  exists info. split; [exact Hrun | exact Hcount].
Defined.

(** ** Errors of the range builder in an index scan *)

(** X27.  Below a filter, the scan of an index returns the error of
    the range builder and no plan, unless the error is [ErrTruncated]:
    that one is dropped, and the result is built, as without an error,
    from the scan of the index over the ranges that the builder has left
    and the row count estimated on those ranges, the scan being below a
    copy of the filter when conditions are left to it. *)
Theorem convert2IndexScan_range_error
    (X : Externals) (n : DataSource) (prop : requiredProperty) (idx : IndexInfo)
    (sel : Selection) (txn : option Txn) (ranges : list IndexRange) (e : error) :
  dsParent n = Some sel ->
  GetTxn (dsCtx n) = (txn, None) ->
  (forall isp, buildIndexRange X (StmtCtx (dsCtx n)) isp = (ranges, Some e)) ->
  if String.eqb e ErrTruncated
  then forall rowCount,
         getRowCountByIndexRanges (StmtCtx (dsCtx n)) (dsStatisticTable n) ranges idx
         = Returned (rowCount, None) ->
         exists plan scan params,
           convert2IndexScan X n prop idx
           = Returned (Some (matchProperty X plan prop
                               [{| p := None; cost := zero; count := rowCount |}]), None)
           /\ (plan = scan
               \/ exists rest, rest <> []
                    /\ PlanOp plan = OpSelection rest true
                    /\ GetChildren plan = [Some scan])
           /\ PlanOp scan = PhysicalIndexScan params
           /\ GetChildren scan = []
           /\ isIndex params = idx
           /\ isRanges params = ranges
           /\ isDoubleRead params
              = negb (isCoveringIndex (dsColumns n) (IdxColumns idx) (PKIsHandle (dsTable n)))
  else convert2IndexScan X n prop idx = Returned (None, Some e).
Proof.
  intros Hparent Htxn Hbuild. unfold convert2IndexScan. rewrite Htxn, Hparent.
  cbv beta iota zeta.
  destruct (detachIndexScanConditions X _ _) as [access rest].
  destruct (pushDownConditions X n ReqTypeIndex rest) as [[pb pushed] rest'].
  rewrite Hbuild.
  destruct (String.eqb e ErrTruncated).
  - intros rowCount ->. unfold scanResultPlan.
    destruct rest' as [| c rest'].
    + change (0 <? len (@nil Expression)) with false. cbv iota.
      eexists _, _, _. split; [reflexivity |]. split; [left; reflexivity |].
      repeat split.
    + replace (0 <? len (c :: rest')) with true
        by (symmetry; apply Z.ltb_lt; unfold len; simpl List.length; lia).
      eexists _, _, _. split; [reflexivity |]. split.
      * right. exists (c :: rest'). split; [discriminate |]. split; reflexivity.
      * repeat split.
  - reflexivity.
Qed.

Lemma convert2IndexScan_range_error_witness :
  (exists plan scan params,
     convert2IndexScan (Example.failingIndexRange [Example.greaterThan5] ErrTruncated)
       Example.filteredFalse emptyProperty Example.indexAB
     = Returned (Some (matchProperty
                         (Example.failingIndexRange [Example.greaterThan5] ErrTruncated)
                         plan emptyProperty
                         [{| p := None; cost := zero; count := 1000 |}]), None)
     /\ PlanOp scan = PhysicalIndexScan params
     /\ isRanges params = [Example.greaterThan5])
  /\ convert2IndexScan (Example.failingIndexRange [Example.greaterThan5] "overflow")
       Example.filteredFalse emptyProperty Example.indexAB
     = Returned (None, Some "overflow"%string).
Proof.
  split.
  - destruct (convert2IndexScan_range_error
                (Example.failingIndexRange [Example.greaterThan5] ErrTruncated)
                Example.filteredFalse emptyProperty Example.indexAB
                Example.whereFalse None [Example.greaterThan5] ErrTruncated
                eq_refl eq_refl (fun _ => eq_refl) 1000 eq_refl)
      as (plan & scan & params & Hrun & _ & Hop & _ & _ & Hranges & _).
    exists plan, scan, params. split; [exact Hrun |]. split; assumption.
  - apply (convert2IndexScan_range_error
             (Example.failingIndexRange [Example.greaterThan5] "overflow")
             Example.filteredFalse emptyProperty Example.indexAB
             Example.whereFalse None [Example.greaterThan5] "overflow"%string).
    + reflexivity.
    + reflexivity.
    + intros isp. reflexivity.
Defined.
